(** * sportcars-xmcp: the vehicle tools and their store contract

    A shallow embedding of the five request handlers of the repository
    (get-vehicles, update-vehicles, delete-vehicle, add-notes and
    delete-ai-video).  Every handler is an [async] function that validates
    its parameters, talks to the [vehicles] table through the Supabase query
    builder and, for delete-ai-video, to an S3-compatible bucket, and returns
    one text message.

    The handlers are embedded as trees of calls ([Tool]): a leaf is the
    returned message, a node is one awaited call together with the
    continuation that receives its response.  A [World] answers the calls;
    [table_world] is the reference semantics of the [vehicles] table. *)

From Stdlib Require Import ZArith String Ascii List Bool Lia.
From stdpp Require Import gmap strings list fin_maps pretty sorting.

Local Open Scope string_scope.
Local Open Scope Z_scope.

(** ** JavaScript and SQL values *)

(** A column value or a JSON scalar.  Numbers are carried as integers:
    identifiers, years, prices and mileages of the table are whole numbers,
    and [z.number()] admits neither [NaN] nor a missing value. *)
Inductive Value : Type :=
| VNull
| VNum (n : Z)
| VStr (s : string).

#[global] Instance Value_eq_dec : EqDecision Value.
Proof. solve_decision. Defined.

(** A row of [vehicles]: a JSON object from column names to values.  A key
    that is missing reads as [null]. *)
Abbreviation Row := (gmap string Value).

Definition col (r : Row) (c : string) : Value := default VNull (r !! c).

(** Truthiness, as [if (x)], [!x], [x || y] and [filter(Boolean)] see it. *)
Definition truthy (v : Value) : bool :=
  match v with
  | VNull => false
  | VNum n => negb (n =? 0)
  | VStr s => negb (String.eqb s "")
  end.

(** An optional parameter: [None] is [undefined]. *)
Definition ofNum (x : option Z) : Value := from_option VNum VNull x.
Definition ofStr (x : option string) : Value := from_option VStr VNull x.

Definition truthyN (x : option Z) : bool := truthy (ofNum x).
Definition truthyS (x : option string) : bool := truthy (ofStr x).

(** [`${v}`] for a scalar. *)
Definition show (v : Value) : string :=
  match v with
  | VNull => "null"
  | VNum n => pretty n
  | VStr s => s
  end.

(** [`${v || d}`]. *)
Definition show_or (d : string) (v : Value) : string :=
  if truthy v then show v else d.

(** [String.prototype.trim], on the ASCII white space. *)
Definition is_space (a : ascii) : bool :=
  let n := nat_of_ascii a in
  ((9 <=? n) && (n <=? 13))%nat || (n =? 32)%nat.

Fixpoint trim_start (s : string) : string :=
  match s with
  | String a s' => if is_space a then trim_start s' else s
  | EmptyString => EmptyString
  end.

Definition trim (s : string) : string :=
  String.rev (trim_start (String.rev (trim_start s))).

(** ** Case-insensitive pattern matching of the store ([ILIKE]) *)

(** Strings are sequences of bytes.  The folding of letter case is that of
    the ASCII letters; what is stated about matching letter case aside is
    stated for ASCII text. *)

Definition lower (a : ascii) : ascii :=
  let n := nat_of_ascii a in
  if ((65 <=? n) && (n <=? 90))%nat then ascii_of_nat (n + 32) else a.

Definition chars (s : string) : list ascii := list_ascii_of_string s.

Definition fold_case (s : string) : list ascii := map lower (chars s).

(** The wildcards of a pattern: [%] (and PostgREST's alias [*]) stands for
    any run of characters, [_] for one character, and a backslash takes the
    next character literally. *)
Definition is_any (a : ascii) : bool :=
  Ascii.eqb a "%"%char || Ascii.eqb a "*"%char.
Definition is_one (a : ascii) : bool := Ascii.eqb a "_"%char.
Definition is_escape (a : ascii) : bool := Ascii.eqb a "\"%char.

Definition is_meta (a : ascii) : bool := is_any a || is_one a || is_escape a.

Fixpoint like (p s : list ascii) {struct p} : bool :=
  match p with
  | [] => match s with [] => true | _ => false end
  | a :: p' =>
      if is_any a then
        (fix skip (s : list ascii) : bool :=
           like p' s || match s with [] => false | _ :: s' => skip s' end) s
      else if is_one a then
        match s with [] => false | _ :: s' => like p' s' end
      else if is_escape a then
        match p' with
        | [] => false
        | b :: p'' =>
            match s with
            | [] => false
            | c :: s' => Ascii.eqb b c && like p'' s'
            end
        end
      else
        match s with
        | [] => false
        | c :: s' => Ascii.eqb a c && like p' s'
        end
  end.

Definition ilike (pattern s : string) : bool :=
  like (fold_case pattern) (fold_case s).

(** Plain containment, for comparison: [v] occurs in [s]. *)
Fixpoint starts_with (v s : list ascii) : bool :=
  match v, s with
  | [], _ => true
  | a :: v', c :: s' => Ascii.eqb a c && starts_with v' s'
  | _ :: _, [] => false
  end.

Fixpoint occurs_in (v s : list ascii) : bool :=
  starts_with v s || match s with [] => false | _ :: s' => occurs_in v s' end.

Definition contains_ci (v s : string) : bool :=
  occurs_in (fold_case v) (fold_case s).

(** ** The query builder *)

(** One predicate of a query: the builder methods the handlers use. *)
Inductive Filter : Type :=
| IsNull (c : string)                 (* .is(c, null) *)
| NotNull (c : string)                (* .not(c, 'is', null) *)
| Eq (c : string) (v : Value)         (* .eq(c, v) *)
| Gte (c : string) (v : Value)        (* .gte(c, v) *)
| Lte (c : string) (v : Value)        (* .lte(c, v) *)
| Ilike (c : string) (pattern : string) (* .ilike(c, pattern) *)
| In (c : string) (vs : list Value).  (* .in(c, vs) *)

(** The argument of [.select(...)]. *)
Inductive Columns : Type :=
| Star
| Cols (cs : list string).

(** One awaited query on [supabase.from('vehicles')]. *)
Inductive DbCall : Type :=
| Select (cols : Columns) (filters : list Filter)
         (order : option (string * bool)) (limit : option Z)
| Update (data : Row) (filters : list Filter) (cols : Columns) (single : bool)
| Delete (filters : list Filter).

(** What an awaited query resolves to: [{ data, error }], the error by its
    message.  With [.single()] the payload is one object; it is carried as
    a list of one row. *)
Record DbResp : Type := { data : option (list Row); error : option string }.

(** [s3Client.send(new DeleteObjectCommand({ Bucket, Key }))] on a client
    built from the endpoint and the two keys. *)
Record S3Call : Type := {
  s3_endpoint : string;
  s3_accessKeyId : string;
  s3_secretAccessKey : string;
  s3_Bucket : string;
  s3_Key : string
}.

(** The send resolves, or throws: an [Error] with its message, or another
    value. *)
Inductive S3Resp : Type :=
| S3Done
| S3Throws (message : option string).

(** ** Handlers as trees of awaited calls *)

Inductive Tool (A : Type) : Type :=
| Ret (a : A)
| Db (c : DbCall) (k : DbResp -> Tool A)
| S3 (c : S3Call) (k : S3Resp -> Tool A).

Arguments Ret {A} a.
Arguments Db {A} c k.
Arguments S3 {A} c k.

Fixpoint bind {A B : Type} (t : Tool A) (f : A -> Tool B) : Tool B :=
  match t with
  | Ret a => f a
  | Db c k => Db c (fun r => bind (k r) f)
  | S3 c k => S3 c (fun r => bind (k r) f)
  end.

#[global] Instance Tool_ret : MRet Tool := @Ret.
#[global] Instance Tool_bind : MBind Tool := fun A B f t => bind t f.

(** [await query] and [await s3Client.send(command)]. *)
Definition await (c : DbCall) : Tool DbResp := Db c Ret.
Definition send (c : S3Call) : Tool S3Resp := S3 c Ret.

(** ** Worlds *)

(** What happened during a run: the calls in order, each with its answer. *)
Inductive Event : Type :=
| DbEvent (c : DbCall) (r : DbResp)
| S3Event (c : S3Call) (r : S3Resp).

(** A world answers every call from its state. *)
Record World (S : Type) : Type := {
  on_db : DbCall -> S -> DbResp * S;
  on_s3 : S3Call -> S -> S3Resp * S
}.

Arguments on_db {S} w c s.
Arguments on_s3 {S} w c s.

Record Run (S A : Type) : Type := {
  result : A;
  final : S;
  trace : list Event
}.

Arguments result {S A} r.
Arguments final {S A} r.
Arguments trace {S A} r.

Definition logged {S A : Type} (e : Event) (r : Run S A) : Run S A :=
  {| result := result r; final := final r; trace := e :: trace r |}.

Fixpoint run {S A : Type} (w : World S) (t : Tool A) (s : S) : Run S A :=
  match t with
  | Ret a => {| result := a; final := s; trace := [] |}
  | Db c k =>
      let '(r, s') := on_db w c s in
      logged (DbEvent c r) (run w (k r) s')
  | S3 c k =>
      let '(r, s') := on_s3 w c s in
      logged (S3Event c r) (run w (k r) s')
  end.

Definition is_mutation (e : Event) : bool :=
  match e with
  | DbEvent (Update _ _ _ _) _ => true
  | DbEvent (Delete _) _ => true
  | _ => false
  end.

Definition is_s3 (e : Event) : bool :=
  match e with S3Event _ _ => true | _ => false end.

(** ** Reference semantics of the [vehicles] table *)

Abbreviation Table := (list Row).

Definition is_null (v : Value) : bool :=
  match v with VNull => true | _ => false end.

Definition value_eqb (a b : Value) : bool := bool_decide (a = b).

Definition num_cmp (f : Z -> Z -> bool) (a b : Value) : bool :=
  match a, b with
  | VNum x, VNum y => f x y
  | _, _ => false
  end.

(** SQL's three-valued logic, with unknown read as no match. *)
Definition holds (f : Filter) (r : Row) : bool :=
  match f with
  | IsNull c => is_null (col r c)
  | NotNull c => negb (is_null (col r c))
  | Eq c v => negb (is_null (col r c)) && value_eqb (col r c) v
  | Gte c v => num_cmp Z.geb (col r c) v
  | Lte c v => num_cmp Z.leb (col r c) v
  | Ilike c p => match col r c with VStr s => ilike p s | _ => false end
  | In c vs => negb (is_null (col r c)) && existsb (value_eqb (col r c)) vs
  end.

Definition matches (fs : list Filter) (r : Row) : bool := forallb (fun f => holds f r) fs.

Definition project (cols : Columns) (r : Row) : Row :=
  match cols with
  | Star => r
  | Cols cs => filter (fun kv => kv.1 ∈ cs) r
  end.

(** Sorting: nulls count as the largest value, as in PostgreSQL. *)
Definition value_leb (a b : Value) : bool :=
  match a, b with
  | _, VNull => true
  | VNull, _ => false
  | VNum x, VNum y => x <=? y
  | VNum _, VStr _ => true
  | VStr _, VNum _ => false
  | VStr x, VStr y => String.leb x y
  end.

Definition row_before (c : string) (ascending : bool) (r1 r2 : Row) : Prop :=
  if ascending then value_leb (col r1 c) (col r2 c)
  else value_leb (col r2 c) (col r1 c).

#[global] Instance row_before_dec c asc r1 r2 : Decision (row_before c asc r1 r2).
Proof. unfold row_before. destruct asc; apply _. Defined.

Definition ordered (o : option (string * bool)) (rows : Table) : Table :=
  match o with
  | None => rows
  | Some (c, asc) => merge_sort (row_before c asc) rows
  end.

Definition ok (rows : Table) : DbResp := {| data := Some rows; error := None |}.
Definition failed (msg : string) : DbResp := {| data := None; error := Some msg |}.

(** The rows an update writes: the assignments override the row's columns. *)
Definition assign (d : Row) (r : Row) : Row := d ∪ r.

Definition table_exec (c : DbCall) (t : Table) : DbResp * Table :=
  match c with
  | Select cols fs o lim =>
      let rows := ordered o (List.filter (matches fs) t) in
      match lim with
      | None => (ok (project cols <$> rows), t)
      | Some n =>
          if n <? 0 then (failed "LIMIT must not be negative", t)
          else (ok (project cols <$> take (Z.to_nat n) rows), t)
      end
  | Update d fs cols single =>
      let hit := List.filter (matches fs) t in
      if single && negb (length hit =? 1)%nat then
        (failed "JSON object requested, multiple (or no) rows returned", t)
      else
        (ok (project cols <$> (assign d <$> hit)),
         (fun r => if matches fs r then assign d r else r) <$> t)
  | Delete fs =>
      ({| data := None; error := None |},
       List.filter (fun r => negb (matches fs r)) t)
  end.

(** The table as a world.  [sync] is what other writers (the upstream
    synchronisation) do to the table after each query of the handler;
    [s3] answers the object store. *)
Definition table_world (sync : Table -> Table) (s3 : S3Call -> S3Resp) : World Table :=
  {| on_db := fun c t => let '(r, t') := table_exec c t in (r, sync t');
     on_s3 := fun c t => (s3 c, t) |}.

(** No other writer. *)
Definition quiet : Table -> Table := fun t => t.

(** ** The process environment *)

(** [process.env], and the clock read by [new Date().toISOString()]. *)
Record Env : Type := {
  SUPABASE_URL : option string;
  SUPABASE_SERVICE_ROLE_KEY : option string;
  R2_ENDPOINT : option string;
  R2_ACCESS_KEY_ID : option string;
  R2_SECRET_ACCESS_KEY : option string;
  R2_BUCKET_NAME : option string;
  now : string
}.

(** [supabaseUrl && supabaseKey]: the guard every handler starts with is its
    negation. *)
Definition configured (env : Env) : bool :=
  truthyS (SUPABASE_URL env) && truthyS (SUPABASE_SERVICE_ROLE_KEY env).

(** [r2Endpoint && r2AccessKeyId && r2SecretAccessKey && r2BucketName]. *)
Definition r2_configured (env : Env) : bool :=
  truthyS (R2_ENDPOINT env) && truthyS (R2_ACCESS_KEY_ID env)
  && truthyS (R2_SECRET_ACCESS_KEY env) && truthyS (R2_BUCKET_NAME env).

Definition nl : string := String "010"%char EmptyString.

Definition missing_credentials : string :=
  "Error: Missing Supabase credentials. Please set SUPABASE_URL and SUPABASE_SERVICE_ROLE_KEY in .env file".

(** [[id, vin, stockNumber].filter(Boolean).length]. *)
Definition identifierCount (candidates : list Value) : nat :=
  length (List.filter truthy candidates).

(** [`${v.year || ''} ${v.make || ''} ${v.model || ''}`.trim()]. *)
Definition vehicleInfo (v : Row) : string :=
  trim (show_or "" (col v "year") +:+ " " +:+ show_or "" (col v "make")
        +:+ " " +:+ show_or "" (col v "model")).

(** The object a query with [.single()] resolves to. *)
Definition single_row (r : DbResp) : option Row := data r ≫= head.

(** The message of the [TypeError] thrown when a property of a [null]
    payload is read; the handler's [catch] returns it. *)
Definition type_error : string := "Cannot read properties of null (reading 'id')".

(** ** add-notes  (src/tools/add-notes.ts) *)

Module AddNotes.

(** [notes]: [None] is [undefined], [Some None] is [null]. *)
Record Params : Type := {
  id : option Z;
  vin : option string;
  stockNumber : option string;
  notes : option (option string)
}.

(** One constructor for each [return] of the handler. *)
Inductive Outcome : Type :=
| MissingCredentials
| NoIdentifier
| AmbiguousIdentifier
| NotesMissing
| FindFailed (message : string)
| NotFound (identifier : string)
| MultipleMatches
| UpdateFailed (message : string)
| Written (action : string) (info : string) (updatedVehicle : Row) (notesDisplay : string)
| Thrown (message : string).

Definition message (o : Outcome) : string :=
  match o with
  | MissingCredentials => missing_credentials
  | NoIdentifier =>
      "Error: Please provide one identifier ('id', 'vin', or 'stockNumber') to identify the vehicle."
  | AmbiguousIdentifier =>
      "Error: Please provide only one identifier ('id', 'vin', OR 'stockNumber'), not multiple."
  | NotesMissing =>
      "Error: Please provide 'notes' field. Use null or empty string to delete existing notes."
  | FindFailed m => "Error finding vehicle: " +:+ m
  | NotFound i => "No vehicle found with " +:+ i +:+ "."
  | MultipleMatches =>
      "Error: Multiple vehicles found with the same identifier. This shouldn't happen. Please contact support."
  | UpdateFailed m => "Error updating vehicle notes: " +:+ m
  | Written action info v display =>
      "Successfully " +:+ action +:+ " notes for vehicle:" +:+ nl +:+ nl
      +:+ "Vehicle: " +:+ info +:+ nl
      +:+ "ID: " +:+ show (col v "id") +:+ nl
      +:+ "VIN: " +:+ show_or "N/A" (col v "vin") +:+ nl
      +:+ "Notes: " +:+ display
  | Thrown m => "Error: " +:+ m
  end.

Definition candidates (p : Params) : list Value :=
  [ofNum (id p); ofStr (vin p); ofStr (stockNumber p)].

(** The [if (id) ... else if (vin) ... else if (stockNumber) ...] chain on
    the query. *)
Definition identifierFilter (p : Params) : list Filter :=
  if truthyN (id p) then [Eq "id" (ofNum (id p))]
  else if truthyS (vin p) then [Eq "vin" (ofStr (vin p))]
  else if truthyS (stockNumber p) then [Eq "stock_number" (ofStr (stockNumber p))]
  else [].

(** [id ? `ID: ${id}` : vin ? `VIN: ${vin}` : `Stock Number: ${stockNumber}`],
    where an [undefined] prints as [undefined]. *)
Definition identifier (p : Params) : string :=
  if truthyN (id p) then "ID: " +:+ show (ofNum (id p))
  else if truthyS (vin p) then "VIN: " +:+ show (ofStr (vin p))
  else "Stock Number: " +:+ default "undefined" (stockNumber p).

Definition lookupColumns : Columns :=
  Cols ["id"; "year"; "make"; "model"; "vin"; "stock_number"; "notes"].

Definition lookup (p : Params) : DbCall :=
  Select lookupColumns (IsNull "deleted_at" :: identifierFilter p) None None.

(** [notes === null || notes === '' ? null : notes]. *)
Definition notesValue (n : option string) : Value :=
  match n with
  | None => VNull
  | Some s => if String.eqb s "" then VNull else VStr s
  end.

Definition updateData (env : Env) (n : option string) : Row :=
  <["updated_at" := VStr (now env)]> (<["notes" := notesValue n]> ∅).

Definition write (env : Env) (n : option string) (vehicle : Row) : DbCall :=
  Update (updateData env n) [Eq "id" (col vehicle "id")]
         (Cols ["id"; "year"; "make"; "model"; "vin"; "notes"]) true.

Definition addNotes (env : Env) (p : Params) : Tool Outcome :=
  if negb (configured env) then Ret MissingCredentials
  else if (identifierCount (candidates p) =? 0)%nat then Ret NoIdentifier
  else if (1 <? identifierCount (candidates p))%nat then Ret AmbiguousIdentifier
  else
    match notes p with
    | None => Ret NotesMissing
    | Some n =>
        found ← await (lookup p);
        match error found with
        | Some m => Ret (FindFailed m)
        | None =>
            match data found with
            | None | Some [] => Ret (NotFound (identifier p))
            | Some (_ :: _ :: _) => Ret MultipleMatches
            | Some [vehicle] =>
                updated ← await (write env n vehicle);
                match error updated with
                | Some m => Ret (UpdateFailed m)
                | None =>
                    match single_row updated with
                    | None => Ret (Thrown type_error)
                    | Some updatedVehicle =>
                        let action :=
                          if is_null (notesValue n) then "deleted"
                          else if truthy (col vehicle "notes") then "updated"
                          else "added" in
                        let notesDisplay :=
                          if is_null (notesValue n) then "No notes"
                          else show (notesValue n) in
                        Ret (Written action (vehicleInfo vehicle) updatedVehicle notesDisplay)
                    end
                end
            end
        end
    end.

End AddNotes.

(** ** delete-vehicle  (the handler registered as [delete-vehicle]) *)

Module DeleteVehicle.

Record Params : Type := {
  vin : option string;
  stockNumber : option string
}.

Inductive Outcome : Type :=
| MissingCredentials
| NoIdentifier
| AmbiguousIdentifier
| FindFailed (message : string)
| NotFound (identifier : string)
| MultipleMatches
| DeleteFailed (message : string)
| Deleted (info : string) (vehicleToDelete : Row).

Definition message (o : Outcome) : string :=
  match o with
  | MissingCredentials => missing_credentials
  | NoIdentifier =>
      "Error: Please provide either 'vin' or 'stockNumber' to identify the vehicle to delete."
  | AmbiguousIdentifier =>
      "Error: Please provide only one identifier ('vin' OR 'stockNumber'), not both."
  | FindFailed m => "Error finding vehicle: " +:+ m
  | NotFound i =>
      "No vehicle found with " +:+ i +:+ ". It may have already been deleted or doesn't exist."
  | MultipleMatches =>
      "Error: Multiple vehicles found with the same identifier. This shouldn't happen. Please contact support."
  | DeleteFailed m => "Error deleting vehicle: " +:+ m
  | Deleted info v =>
      "Successfully deleted vehicle:" +:+ nl +:+ nl
      +:+ "Vehicle: " +:+ info +:+ nl
      +:+ "ID: " +:+ show (col v "id") +:+ nl
      +:+ "VIN: " +:+ show_or "N/A" (col v "vin") +:+ nl
      +:+ "Stock Number: " +:+ show_or "N/A" (col v "stock_number") +:+ nl +:+ nl
      +:+ "⚠️  Warning: This vehicle will be automatically re-added by vAuto during the next sync/refresh (approximately every 2 hours) IF it is still present in vAuto's inventory."
  end.

Definition identifierFilter (p : Params) : list Filter :=
  if truthyS (vin p) then [Eq "vin" (ofStr (vin p))]
  else if truthyS (stockNumber p) then [Eq "stock_number" (ofStr (stockNumber p))]
  else [].

Definition identifier (p : Params) : string :=
  if truthyS (vin p) then "VIN: " +:+ show (ofStr (vin p))
  else "Stock Number: " +:+ default "undefined" (stockNumber p).

Definition lookup (p : Params) : DbCall :=
  Select (Cols ["id"; "year"; "make"; "model"; "vin"; "stock_number"])
         (identifierFilter p) None None.

Definition deleteVehicle (env : Env) (p : Params) : Tool Outcome :=
  if negb (configured env) then Ret MissingCredentials
  else if negb (truthyS (vin p)) && negb (truthyS (stockNumber p)) then Ret NoIdentifier
  else if truthyS (vin p) && truthyS (stockNumber p) then Ret AmbiguousIdentifier
  else
    found ← await (lookup p);
    match error found with
    | Some m => Ret (FindFailed m)
    | None =>
        match data found with
        | None | Some [] => Ret (NotFound (identifier p))
        | Some (_ :: _ :: _) => Ret MultipleMatches
        | Some [vehicleToDelete] =>
            gone ← await (Delete [Eq "id" (col vehicleToDelete "id")]);
            match error gone with
            | Some m => Ret (DeleteFailed m)
            | None => Ret (Deleted (vehicleInfo vehicleToDelete) vehicleToDelete)
            end
        end
    end.

End DeleteVehicle.

(** ** delete-ai-video  (src/tools/delete-ai-video.ts) *)

Module DeleteAiVideo.

Record Params : Type := {
  id : option Z;
  vin : option string;
  stockNumber : option string
}.

(** What [deleteFromR2] resolves to: [{ success, error }]. *)
Record R2Result : Type := { success : bool; r2_error : option string }.

(** [deleteFromR2]: the send wrapped in its own [try]/[catch]. *)
Definition deleteFromR2 (bucketName objectKey endpoint accessKeyId secretAccessKey : string)
  : Tool R2Result :=
  sent ← send {| s3_endpoint := endpoint; s3_accessKeyId := accessKeyId;
                 s3_secretAccessKey := secretAccessKey;
                 s3_Bucket := bucketName; s3_Key := objectKey |};
  match sent with
  | S3Done => Ret {| success := true; r2_error := None |}
  | S3Throws m =>
      Ret {| success := false;
             r2_error := Some (default "Unknown error deleting from R2" m) |}
  end.

Inductive Outcome : Type :=
| MissingCredentials
| NoIdentifier
| AmbiguousIdentifier
| FindFailed (message : string)
| NotFound (identifier : string)
| MultipleMatches
| NoAiVideo (info : string) (vehicle : Row)
| NoStockNumber (info : string) (vehicle : Row)
| UpdateFailed (message : string)
| Cleared (info : string) (updatedVehicle : Row) (aiVideoUrl : Value)
          (r2DeleteResult : option R2Result)
| Thrown (message : string).

(** The three reports on the object in the bucket. *)
Definition r2_report (r : option R2Result) : string :=
  match r with
  | Some r2 =>
      if success r2 then "✅ File deleted from Cloudflare R2" +:+ nl
      else "⚠️  Warning: Could not delete file from Cloudflare R2: "
           +:+ default "undefined" (r2_error r2) +:+ nl
           +:+ "   (Database field has been set to null)" +:+ nl
  | None =>
      "⚠️  Note: Cloudflare R2 credentials not configured. Only database field was updated."
      +:+ nl
  end.

Definition cleared_header (info : string) (v : Row) (url : Value) : string :=
  "Successfully deleted AI video for vehicle:" +:+ nl +:+ nl
  +:+ "Vehicle: " +:+ info +:+ nl
  +:+ "ID: " +:+ show (col v "id") +:+ nl
  +:+ "VIN: " +:+ show_or "N/A" (col v "vin") +:+ nl
  +:+ "Previous AI Video URL: " +:+ show url +:+ nl +:+ nl.

Definition cleared_footer : string :=
  nl +:+ "✅ Database field 'ai_video' set to null. Video will be regenerated in the next batch.".

Definition message (o : Outcome) : string :=
  match o with
  | MissingCredentials => missing_credentials
  | NoIdentifier =>
      "Error: Please provide one identifier ('id', 'vin', or 'stockNumber') to identify the vehicle."
  | AmbiguousIdentifier =>
      "Error: Please provide only one identifier ('id', 'vin', OR 'stockNumber'), not multiple."
  | FindFailed m => "Error finding vehicle: " +:+ m
  | NotFound i => "No vehicle found with " +:+ i +:+ "."
  | MultipleMatches =>
      "Error: Multiple vehicles found with the same identifier. This shouldn't happen. Please contact support."
  | NoAiVideo info v =>
      "Vehicle " +:+ info +:+ " (ID: " +:+ show (col v "id")
      +:+ ") does not have an AI video to delete."
  | NoStockNumber info v =>
      "Vehicle " +:+ info +:+ " (ID: " +:+ show (col v "id")
      +:+ ") does not have a stock number. Cannot determine R2 file path."
  | UpdateFailed m => "Error updating vehicle: " +:+ m
  | Cleared info v url r2 =>
      cleared_header info v url +:+ r2_report r2 +:+ cleared_footer
  | Thrown m => "Error: " +:+ m
  end.

Definition candidates (p : Params) : list Value :=
  [ofNum (id p); ofStr (vin p); ofStr (stockNumber p)].

Definition identifierFilter (p : Params) : list Filter :=
  if truthyN (id p) then [Eq "id" (ofNum (id p))]
  else if truthyS (vin p) then [Eq "vin" (ofStr (vin p))]
  else if truthyS (stockNumber p) then [Eq "stock_number" (ofStr (stockNumber p))]
  else [].

Definition identifier (p : Params) : string :=
  if truthyN (id p) then "ID: " +:+ show (ofNum (id p))
  else if truthyS (vin p) then "VIN: " +:+ show (ofStr (vin p))
  else "Stock Number: " +:+ default "undefined" (stockNumber p).

Definition lookup (p : Params) : DbCall :=
  Select (Cols ["id"; "year"; "make"; "model"; "vin"; "stock_number"; "ai_video"])
         (IsNull "deleted_at" :: identifierFilter p) None None.

Definition updateData (env : Env) : Row :=
  <["updated_at" := VStr (now env)]> (<["ai_video" := VNull]> ∅).

Definition write (env : Env) (vehicle : Row) : DbCall :=
  Update (updateData env) [Eq "id" (col vehicle "id")]
         (Cols ["id"; "year"; "make"; "model"; "vin"; "ai_video"]) true.

(** [`vehicles/${vehicle.stock_number}/ai-video.mp4`]. *)
Definition objectKey (vehicle : Row) : string :=
  "vehicles/" +:+ show (col vehicle "stock_number") +:+ "/ai-video.mp4".

(** The best-effort cleanup: attempted only with all four R2 settings. *)
Definition cleanup (env : Env) (vehicle : Row) : Tool (option R2Result) :=
  if r2_configured env then
    r ← deleteFromR2 (default "" (R2_BUCKET_NAME env)) (objectKey vehicle)
                     (default "" (R2_ENDPOINT env))
                     (default "" (R2_ACCESS_KEY_ID env))
                     (default "" (R2_SECRET_ACCESS_KEY env));
    Ret (Some r)
  else Ret None.

Definition deleteAiVideo (env : Env) (p : Params) : Tool Outcome :=
  if negb (configured env) then Ret MissingCredentials
  else if (identifierCount (candidates p) =? 0)%nat then Ret NoIdentifier
  else if (1 <? identifierCount (candidates p))%nat then Ret AmbiguousIdentifier
  else
    found ← await (lookup p);
    match error found with
    | Some m => Ret (FindFailed m)
    | None =>
        match data found with
        | None | Some [] => Ret (NotFound (identifier p))
        | Some (_ :: _ :: _) => Ret MultipleMatches
        | Some [vehicle] =>
            if negb (truthy (col vehicle "ai_video")) then
              Ret (NoAiVideo (vehicleInfo vehicle) vehicle)
            else if negb (truthy (col vehicle "stock_number")) then
              Ret (NoStockNumber (vehicleInfo vehicle) vehicle)
            else
              let aiVideoUrl := col vehicle "ai_video" in
              r2DeleteResult ← cleanup env vehicle;
              updated ← await (write env vehicle);
              match error updated with
              | Some m => Ret (UpdateFailed m)
              | None =>
                  match single_row updated with
                  | None => Ret (Thrown type_error)
                  | Some updatedVehicle =>
                      Ret (Cleared (vehicleInfo vehicle) updatedVehicle
                                   aiVideoUrl r2DeleteResult)
                  end
              end
        end
    end.

End DeleteAiVideo.

(** ** update-vehicles  (src/tools/update-vehicles.ts) *)

Module UpdateVehicles.

Record Params : Type := {
  id : option Z;
  vin : option string;
  stockNumber : option string;
  make : option string;
  model : option string;
  price : option Z;
  customPrice : option Z;
  colour : option string;
  interiorColor : option string;
  description : option string;
  aiDescription : option string;
  odometer : option Z;
  newUsed : option string;
  certified : option string;
  dealerName : option string;
  tags : option string;
  inventoryDate : option string
}.

(** One constructor for each [return] of the handler:
    [MissingCredentials] the credentials message,
    [NoFieldsToUpdate] "Error: No fields provided to update. ...",
    [NoTargetCriteria] "Error: Please specify at least one identifier ...",
    [FindFailed] "Error finding vehicles: ...",
    [NoneFound] "No vehicles found matching the specified criteria.",
    [UpdateFailed] "Error updating vehicles: ...",
    [Updated] "Successfully updated N vehicle(s). ..." with the assignments
    and the rows the store returned. *)
Inductive Outcome : Type :=
| MissingCredentials
| NoFieldsToUpdate
| NoTargetCriteria
| FindFailed (message : string)
| NoneFound
| UpdateFailed (message : string)
| Updated (updateData : Row) (updatedData : option (list Row)).

(** [if (x !== undefined) updateData.key = x]. *)
Definition put {A : Type} (inj : A -> Value) (key : string) (x : option A) (o : Row) : Row :=
  match x with
  | Some v => <[key := inj v]> o
  | None => o
  end.

Definition updateData (env : Env) (p : Params) : Row :=
  let o : Row := {["updated_at" := VStr (now env)]} in
  let o := put VNum "price" (price p) o in
  let o := put VNum "custom_price" (customPrice p) o in
  let o := put VStr "colour" (colour p) o in
  let o := put VStr "interior_color" (interiorColor p) o in
  let o := put VStr "description" (description p) o in
  let o := put VStr "ai_description" (aiDescription p) o in
  let o := put VNum "odometer" (odometer p) o in
  let o := put VStr "new_used" (newUsed p) o in
  let o := put VStr "certified" (certified p) o in
  let o := put VStr "dealer_name" (dealerName p) o in
  let o := put VStr "tags" (tags p) o in
  put VStr "inventory_date" (inventoryDate p) o.

(** [`%${x}%`]. *)
Definition wrapped (x : option string) : string := "%" +:+ show (ofStr x) +:+ "%".

(** The chain that picks the rows to update; [None] is its final [else]. *)
Definition target (p : Params) : option (list Filter) :=
  if truthyN (id p) then Some [Eq "id" (ofNum (id p))]
  else if truthyS (vin p) then Some [Eq "vin" (ofStr (vin p))]
  else if truthyS (stockNumber p) then Some [Eq "stock_number" (ofStr (stockNumber p))]
  else if truthyS (make p) || truthyS (model p) then
    Some (app (if truthyS (make p) then [Ilike "make" (wrapped (make p))] else [])
              (if truthyS (model p) then [Ilike "model" (wrapped (model p))] else []))
  else None.

Definition columns : Columns := Cols ["id"; "year"; "make"; "model"; "vin"].

Definition lookup (fs : list Filter) : DbCall :=
  Select columns (IsNull "deleted_at" :: fs) None None.

(** [vehiclesToUpdate.map(v => v.id)]. *)
Definition ids (rows : list Row) : list Value := (fun v => col v "id") <$> rows.

Definition write (env : Env) (p : Params) (vehicleIds : list Value) : DbCall :=
  Update (updateData env p) [In "id" vehicleIds] columns false.

Definition updateVehicles (env : Env) (p : Params) : Tool Outcome :=
  if negb (configured env) then Ret MissingCredentials
  else if (size (updateData env p) =? 1)%nat then Ret NoFieldsToUpdate
  else
    match target p with
    | None => Ret NoTargetCriteria
    | Some fs =>
        found ← await (lookup fs);
        match error found with
        | Some m => Ret (FindFailed m)
        | None =>
            match data found with
            | None | Some [] => Ret NoneFound
            | Some vehiclesToUpdate =>
                updated ← await (write env p (ids vehiclesToUpdate));
                match error updated with
                | Some m => Ret (UpdateFailed m)
                | None => Ret (Updated (updateData env p) (data updated))
                end
            end
        end
    end.

End UpdateVehicles.

(** ** get-vehicles  (src/tools/get-vehicles.ts, and its version with sorting)

    The repository holds the handler in two forms that build the same
    filters: the one of src/tools/get-vehicles.ts, and one that also takes
    [sortBy], [sortOrder] and [limit].  (A first draft without any filter,
    paginated by [limit] and [offset], is superseded by these and is left
    out.) *)

Module GetVehicles.

Record Params : Type := {
  make : option string;
  model : option string;
  year : option Z;
  minYear : option Z;
  maxYear : option Z;
  minPrice : option Z;
  maxPrice : option Z;
  hasPrice : option bool;
  colour : option string;
  interiorColor : option string;
  newUsed : option string;
  certified : option string;
  transmission : option string;
  drivetrain : option string;
  fuel : option string;
  maxOdometer : option Z;
  body : option string;
  dealerName : option string
}.

(** [MissingCredentials] the credentials message, [FetchFailed]
    "Error fetching vehicles: ...", [NoneFound] "No vehicles found.",
    [Found] "Found N vehicle(s): ..." followed by the listing of the rows. *)
Inductive Outcome : Type :=
| MissingCredentials
| FetchFailed (message : string)
| NoneFound
| Found (rows : list Row).

Definition wrapped (x : option string) : string := "%" +:+ show (ofStr x) +:+ "%".

(** [if (x) query = query.ilike(column, `%${x}%`)]. *)
Definition text (column : string) (x : option string) : list Filter :=
  if truthyS x then [Ilike column (wrapped x)] else [].

(** [if (x) query = query.op(column, x)]. *)
Definition number (op : string -> Value -> Filter) (column : string) (x : option Z)
  : list Filter :=
  if truthyN x then [op column (ofNum x)] else [].

(** [if (x !== undefined) query = query.op(column, x)]. *)
Definition bound (op : string -> Value -> Filter) (column : string) (x : option Z)
  : list Filter :=
  match x with
  | Some n => [op column (VNum n)]
  | None => []
  end.

Definition presence (column : string) (x : option bool) : list Filter :=
  match x with
  | Some true => [NotNull column]
  | Some false => [IsNull column]
  | None => []
  end.

(** The filters, in the order the handler applies them. *)
Definition filters (p : Params) : list Filter :=
  concat [
    text "make" (make p);
    text "model" (model p);
    number Eq "year" (year p);
    number Gte "year" (minYear p);
    number Lte "year" (maxYear p);
    bound Gte "price" (minPrice p);
    bound Lte "price" (maxPrice p);
    presence "price" (hasPrice p);
    text "colour" (colour p);
    text "interior_color" (interiorColor p);
    text "new_used" (newUsed p);
    text "certified" (certified p);
    text "transmission" (transmission p);
    text "drivetrain_desc" (drivetrain p);
    text "fuel" (fuel p);
    bound Lte "odometer" (maxOdometer p);
    text "body" (body p);
    text "dealer_name" (dealerName p)
  ].

Definition query (p : Params) (order : option (string * bool)) (limit : option Z) : DbCall :=
  Select Star (IsNull "deleted_at" :: filters p) order limit.

Definition respond (r : DbResp) : Outcome :=
  match error r with
  | Some m => FetchFailed m
  | None =>
      match data r with
      | None | Some [] => NoneFound
      | Some rows => Found rows
      end
  end.

(** src/tools/get-vehicles.ts *)
Definition getVehicles (env : Env) (p : Params) : Tool Outcome :=
  if negb (configured env) then Ret MissingCredentials
  else
    r ← await (query p None None);
    Ret (respond r).

(** The version that also takes [sortBy], [sortOrder] and [limit]:
    [if (sortBy) query.order(sortBy, { ascending: (sortOrder || 'desc') === 'asc' })]
    and [if (limit) query.limit(limit)]. *)
Definition ordering (sortBy sortOrder : option string) : option (string * bool) :=
  if truthyS sortBy then
    Some (show (ofStr sortBy),
          String.eqb (if truthyS sortOrder then show (ofStr sortOrder) else "desc") "asc")
  else None.

Definition limiting (limit : option Z) : option Z :=
  if truthyN limit then limit else None.

Definition getVehiclesSorted (env : Env) (p : Params)
           (sortBy sortOrder : option string) (limit : option Z) : Tool Outcome :=
  if negb (configured env) then Ret MissingCredentials
  else
    r ← await (query p (ordering sortBy sortOrder) (limiting limit));
    Ret (respond r).

End GetVehicles.


(** * Vocabulary of the properties *)

(** ** Identifiers as the handlers read them *)

(** An identifier parameter as the handlers read it: a falsy value ([0] or
    the empty string) replaced by [undefined]. *)
Definition givenN (x : option Z) : option Z := if truthyN x then x else None.
Definition givenS (x : option string) : option string := if truthyS x then x else None.

Definition given_add_notes (p : AddNotes.Params) : AddNotes.Params :=
  {| AddNotes.id := givenN (AddNotes.id p);
     AddNotes.vin := givenS (AddNotes.vin p);
     AddNotes.stockNumber := givenS (AddNotes.stockNumber p);
     AddNotes.notes := AddNotes.notes p |}.

Definition given_delete_ai_video (p : DeleteAiVideo.Params) : DeleteAiVideo.Params :=
  {| DeleteAiVideo.id := givenN (DeleteAiVideo.id p);
     DeleteAiVideo.vin := givenS (DeleteAiVideo.vin p);
     DeleteAiVideo.stockNumber := givenS (DeleteAiVideo.stockNumber p) |}.

Definition given_delete_vehicle (p : DeleteVehicle.Params) : DeleteVehicle.Params :=
  {| DeleteVehicle.vin := givenS (DeleteVehicle.vin p);
     DeleteVehicle.stockNumber := givenS (DeleteVehicle.stockNumber p) |}.

Definition given_update_vehicles (p : UpdateVehicles.Params) : UpdateVehicles.Params :=
  {| UpdateVehicles.id := givenN (UpdateVehicles.id p);
     UpdateVehicles.vin := givenS (UpdateVehicles.vin p);
     UpdateVehicles.stockNumber := givenS (UpdateVehicles.stockNumber p);
     UpdateVehicles.make := UpdateVehicles.make p;
     UpdateVehicles.model := UpdateVehicles.model p;
     UpdateVehicles.price := UpdateVehicles.price p;
     UpdateVehicles.customPrice := UpdateVehicles.customPrice p;
     UpdateVehicles.colour := UpdateVehicles.colour p;
     UpdateVehicles.interiorColor := UpdateVehicles.interiorColor p;
     UpdateVehicles.description := UpdateVehicles.description p;
     UpdateVehicles.aiDescription := UpdateVehicles.aiDescription p;
     UpdateVehicles.odometer := UpdateVehicles.odometer p;
     UpdateVehicles.newUsed := UpdateVehicles.newUsed p;
     UpdateVehicles.certified := UpdateVehicles.certified p;
     UpdateVehicles.dealerName := UpdateVehicles.dealerName p;
     UpdateVehicles.tags := UpdateVehicles.tags p;
     UpdateVehicles.inventoryDate := UpdateVehicles.inventoryDate p |}.

(** ** The assignment set of update-vehicles *)

(** The twelve updatable parameters, each with the column it is written to
    and the value it would write. *)
Definition assignments (p : UpdateVehicles.Params) : list (string * option Value) :=
  [ ("price", VNum <$> UpdateVehicles.price p);
    ("custom_price", VNum <$> UpdateVehicles.customPrice p);
    ("colour", VStr <$> UpdateVehicles.colour p);
    ("interior_color", VStr <$> UpdateVehicles.interiorColor p);
    ("description", VStr <$> UpdateVehicles.description p);
    ("ai_description", VStr <$> UpdateVehicles.aiDescription p);
    ("odometer", VNum <$> UpdateVehicles.odometer p);
    ("new_used", VStr <$> UpdateVehicles.newUsed p);
    ("certified", VStr <$> UpdateVehicles.certified p);
    ("dealer_name", VStr <$> UpdateVehicles.dealerName p);
    ("tags", VStr <$> UpdateVehicles.tags p);
    ("inventory_date", VStr <$> UpdateVehicles.inventoryDate p) ].

Definition is_unset (x : option Value) : bool :=
  match x with None => true | Some _ => false end.

(** No updatable parameter is supplied. *)
Definition nothing_supplied (p : UpdateVehicles.Params) : bool :=
  forallb (fun kv => is_unset kv.2) (assignments p).

(** ** Answers of the store *)

(** A lookup answered with two or more rows. *)
Definition many (found : DbResp) : Prop :=
  error found = None /\ exists rows, data found = Some rows /\ (2 <= length rows)%nat.

(** An object store that deletes what it is asked to. *)
Definition obliging : S3Call -> S3Resp := fun _ => S3Done.

(** An object store that refuses. *)
Definition refusing : S3Call -> S3Resp := fun _ => S3Throws (Some "Access Denied").

(** ** Environments, a table and requests used as examples *)

Definition deployed : Env :=
  {| SUPABASE_URL := Some "https://inventory.supabase.co";
     SUPABASE_SERVICE_ROLE_KEY := Some "service-role-key";
     R2_ENDPOINT := None; R2_ACCESS_KEY_ID := None;
     R2_SECRET_ACCESS_KEY := None; R2_BUCKET_NAME := None;
     now := "2025-06-01T12:00:00.000Z" |}.

Definition deployed_with_r2 : Env :=
  {| SUPABASE_URL := Some "https://inventory.supabase.co";
     SUPABASE_SERVICE_ROLE_KEY := Some "service-role-key";
     R2_ENDPOINT := Some "https://account.r2.cloudflarestorage.com";
     R2_ACCESS_KEY_ID := Some "access-key";
     R2_SECRET_ACCESS_KEY := Some "secret-key";
     R2_BUCKET_NAME := Some "media";
     now := "2025-06-01T12:00:00.000Z" |}.

Definition vehicle (i : Z) (vin stock make : string) (video deleted : Value) : Row :=
  list_to_map [("id", VNum i); ("vin", VStr vin); ("stock_number", VStr stock);
               ("make", VStr make); ("ai_video", video); ("deleted_at", deleted)].

Definition showroom : Table :=
  [ vehicle 1 "WP0AB2A99EXXXXXXX" "S-1" "Porsche" (VStr "https://cdn/v1.mp4") VNull;
    vehicle 2 "ZFF00000000000002" "S-2" "Ferrari" VNull VNull;
    vehicle 3 "ZFF00000000000002" "S-3" "Ferrari" VNull VNull;
    vehicle 4 "ZFF00000000000004" "S-4" "ferrari" (VStr "https://cdn/v4.mp4")
            (VStr "2025-01-01T00:00:00.000Z") ].

Definition update_request (id : option Z) (vin stockNumber make : option string)
           (price : option Z) (colour : option string) : UpdateVehicles.Params :=
  {| UpdateVehicles.id := id; UpdateVehicles.vin := vin;
     UpdateVehicles.stockNumber := stockNumber;
     UpdateVehicles.make := make; UpdateVehicles.model := None;
     UpdateVehicles.price := price; UpdateVehicles.customPrice := None;
     UpdateVehicles.colour := colour; UpdateVehicles.interiorColor := None;
     UpdateVehicles.description := None; UpdateVehicles.aiDescription := None;
     UpdateVehicles.odometer := None; UpdateVehicles.newUsed := None;
     UpdateVehicles.certified := None; UpdateVehicles.dealerName := None;
     UpdateVehicles.tags := None; UpdateVehicles.inventoryDate := None |}.

(** [update-vehicles({ id: 1, vin: "WP0AB2A99EXXXXXXX", price: 250000 })]. *)
Definition update_by_id_and_vin : UpdateVehicles.Params :=
  update_request (Some 1) (Some "WP0AB2A99EXXXXXXX") None None (Some 250000) None.

(** [update-vehicles({ vin: "ZFF00000000000002", price: 250000 })]. *)
Definition update_by_shared_vin : UpdateVehicles.Params :=
  update_request None (Some "ZFF00000000000002") None None (Some 250000) None.


(** [update-vehicles({ id: 1 })]. *)
Definition update_nothing : UpdateVehicles.Params :=
  update_request (Some 1) None None None None None.

(** Requests for the single-row handlers, by [id] or by [vin] (or, for
    delete-vehicle, by [vin] or [stockNumber]). *)
Definition notes_request (id : option Z) (vin : option string) (notes : option (option string))
  : AddNotes.Params :=
  {| AddNotes.id := id; AddNotes.vin := vin; AddNotes.stockNumber := None;
     AddNotes.notes := notes |}.

Definition video_request (id : option Z) (vin : option string) : DeleteAiVideo.Params :=
  {| DeleteAiVideo.id := id; DeleteAiVideo.vin := vin; DeleteAiVideo.stockNumber := None |}.

Definition delete_request (vin stockNumber : option string) : DeleteVehicle.Params :=
  {| DeleteVehicle.vin := vin; DeleteVehicle.stockNumber := stockNumber |}.


(** ** The calls a handler can make *)

(** The shapes the trace of a run can have, for each handler: nothing, the
    lookup alone, or the lookup followed by the one write that is built from
    the rows the lookup answered with. *)
Definition update_vehicles_calls (env : Env) (p : UpdateVehicles.Params) (tr : list Event) : Prop :=
  tr = []
  \/ exists fs found,
      UpdateVehicles.target p = Some fs
      /\ (tr = [DbEvent (UpdateVehicles.lookup fs) found]
          \/ exists rows answer,
              error found = None /\ data found = Some rows /\ rows <> []
              /\ tr = [DbEvent (UpdateVehicles.lookup fs) found;
                       DbEvent (UpdateVehicles.write env p (UpdateVehicles.ids rows)) answer]).

Definition add_notes_calls (env : Env) (p : AddNotes.Params) (tr : list Event) : Prop :=
  tr = []
  \/ exists found,
      tr = [DbEvent (AddNotes.lookup p) found]
      \/ exists n vehicle answer,
          AddNotes.notes p = Some n
          /\ error found = None /\ data found = Some [vehicle]
          /\ tr = [DbEvent (AddNotes.lookup p) found;
                   DbEvent (AddNotes.write env n vehicle) answer].

Definition delete_ai_video_calls (env : Env) (p : DeleteAiVideo.Params) (tr : list Event) : Prop :=
  tr = []
  \/ exists found,
      tr = [DbEvent (DeleteAiVideo.lookup p) found]
      \/ exists vehicle answer,
          error found = None /\ data found = Some [vehicle]
          /\ (tr = [DbEvent (DeleteAiVideo.lookup p) found;
                    DbEvent (DeleteAiVideo.write env vehicle) answer]
              \/ exists c sent,
                  tr = [DbEvent (DeleteAiVideo.lookup p) found;
                        S3Event c sent;
                        DbEvent (DeleteAiVideo.write env vehicle) answer]).

Definition delete_vehicle_calls (p : DeleteVehicle.Params) (tr : list Event) : Prop :=
  tr = []
  \/ exists found,
      tr = [DbEvent (DeleteVehicle.lookup p) found]
      \/ exists vehicle answer,
          error found = None /\ data found = Some [vehicle]
          /\ tr = [DbEvent (DeleteVehicle.lookup p) found;
                   DbEvent (Delete [Eq "id" (col vehicle "id")]) answer].

(** ** The three outcomes of the object cleanup *)

Inductive Cleanup : Type :=
| Removed    (* the object was deleted from the bucket *)
| Refused    (* the deletion was attempted and failed *)
| Skipped.   (* no R2 credentials: the deletion was not attempted *)

Definition cleanup_outcome (r : option DeleteAiVideo.R2Result) : Cleanup :=
  match r with
  | None => Skipped
  | Some r2 => if DeleteAiVideo.success r2 then Removed else Refused
  end.

(** What the answer of the object store amounts to. *)
Definition cleanup_of_answer (sent : S3Resp) : Cleanup :=
  match sent with
  | S3Done => Removed
  | S3Throws _ => Refused
  end.

(** What delete-ai-video returns once the update of [vehicle] has been
    answered, [r2] being the result of the cleanup. *)
Definition concluded (vehicle : Row) (r2 : option DeleteAiVideo.R2Result) (answer : DbResp)
  : DeleteAiVideo.Outcome :=
  match error answer with
  | Some m => DeleteAiVideo.UpdateFailed m
  | None =>
      match single_row answer with
      | None => DeleteAiVideo.Thrown type_error
      | Some updatedVehicle =>
          DeleteAiVideo.Cleared (vehicleInfo vehicle) updatedVehicle
                                (col vehicle "ai_video") r2
      end
  end.

(** ** An upstream synchronisation, for the race between lookup and write *)

(** The rows the lookup of update-vehicles answers with, on the table as it
    is at that moment. *)
Definition captured (fs : list Filter) (t : Table) : list Row :=
  project UpdateVehicles.columns <$> List.filter (matches (IsNull "deleted_at" :: fs)) t.


(** [update-vehicles({ make: "ferrari", price: 250000 })]. *)
Definition update_the_ferraris : UpdateVehicles.Params :=
  update_request None None None (Some "ferrari") (Some 250000) None.

(** ** Soft deletion *)

Definition soft_deleted (r : Row) : Prop := col r "deleted_at" <> VNull.

(** A lookup that carries the predicate [deleted_at IS NULL]. *)
Definition hides_soft_deleted (e : Event) : Prop :=
  match e with
  | DbEvent (Select _ fs _ _) _ => IsNull "deleted_at" ∈ fs
  | _ => True
  end.

(** The table [t'] is [t] with some rows rewritten in place, none of them a
    soft-deleted one. *)
Definition spares_soft_deleted (t t' : Table) : Prop :=
  exists f : Row -> Row,
    t' = f <$> t /\ forall r, r ∈ t -> soft_deleted r -> f r = r.

(** The primary key: no two rows of the table have the same [id]. *)
Definition unique_ids (t : Table) : Prop := NoDup ((fun r => col r "id") <$> t).

(** ** Text filters *)

(** A value without pattern characters: it stands for itself in a pattern. *)
Definition literal (v : string) : bool := forallb (fun a => negb (is_meta a)) (chars v).

(** The eleven descriptive text parameters of get-vehicles, each with the
    column it filters. *)
Definition text_filters (p : GetVehicles.Params) : list (string * option string) :=
  [ ("make", GetVehicles.make p);
    ("model", GetVehicles.model p);
    ("colour", GetVehicles.colour p);
    ("interior_color", GetVehicles.interiorColor p);
    ("new_used", GetVehicles.newUsed p);
    ("certified", GetVehicles.certified p);
    ("transmission", GetVehicles.transmission p);
    ("drivetrain_desc", GetVehicles.drivetrain p);
    ("fuel", GetVehicles.fuel p);
    ("body", GetVehicles.body p);
    ("dealer_name", GetVehicles.dealerName p) ].

(** [get-vehicles({ make: "ferrari" })]. *)
Definition find_ferraris : GetVehicles.Params :=
  {| GetVehicles.make := Some "ferrari"; GetVehicles.model := None;
     GetVehicles.year := None; GetVehicles.minYear := None; GetVehicles.maxYear := None;
     GetVehicles.minPrice := None; GetVehicles.maxPrice := None;
     GetVehicles.hasPrice := None; GetVehicles.colour := None;
     GetVehicles.interiorColor := None; GetVehicles.newUsed := None;
     GetVehicles.certified := None; GetVehicles.transmission := None;
     GetVehicles.drivetrain := None; GetVehicles.fuel := None;
     GetVehicles.maxOdometer := None; GetVehicles.body := None;
     GetVehicles.dealerName := None |}.

(** ** A second table, for the scenarios *)

(** Vehicle 5 has notes; vehicle 7 has a video but no stock number. *)
Definition lot : Table :=
  [ <["notes" := VStr "call back on Monday"]>
      (vehicle 5 "WBA00000000000005" "L-5" "BMW" VNull VNull);
    <["stock_number" := VNull]>
      (vehicle 7 "SCA00000000000007" "" "Rolls-Royce" (VStr "https://cdn/v7.mp4") VNull) ].

(** * Vocabulary of the further properties *)

(** ** Tables with a primary key *)

(** Every row has an [id]. *)
Definition ids_present (t : Table) : Prop := Forall (fun r => col r "id" <> VNull) t.

(** The table with the row [r0] rewritten by the assignments [d]. *)
Definition rewrite_row (r0 d : Row) (r : Row) : Row :=
  if bool_decide (r = r0) then assign d r else r.

(** The columns that identify a row and decide whether it is visible. *)
Definition identity_columns : list string := ["id"; "vin"; "stock_number"; "deleted_at"].

(** ** Environments without credentials *)

Definition undeployed : Env :=
  {| SUPABASE_URL := Some "https://inventory.supabase.co";
     SUPABASE_SERVICE_ROLE_KEY := None;
     R2_ENDPOINT := None; R2_ACCESS_KEY_ID := None;
     R2_SECRET_ACCESS_KEY := None; R2_BUCKET_NAME := None;
     now := "2025-06-01T12:00:00.000Z" |}.

(** ** Targets of update-vehicles *)

(** A predicate that picks rows by an identifier or by make or model. *)
Definition targeting (f : Filter) : Prop :=
  match f with
  | Eq c _ => c ∈ ["id"; "vin"; "stock_number"]
  | Ilike c _ => c ∈ ["make"; "model"]
  | _ => False
  end.

(** [id || vin || stockNumber]. *)
Definition has_identifier (p : UpdateVehicles.Params) : bool :=
  truthyN (UpdateVehicles.id p) || truthyS (UpdateVehicles.vin p)
  || truthyS (UpdateVehicles.stockNumber p).

(** The request without its make and model. *)
Definition without_batch (p : UpdateVehicles.Params) : UpdateVehicles.Params :=
  {| UpdateVehicles.id := UpdateVehicles.id p;
     UpdateVehicles.vin := UpdateVehicles.vin p;
     UpdateVehicles.stockNumber := UpdateVehicles.stockNumber p;
     UpdateVehicles.make := None;
     UpdateVehicles.model := None;
     UpdateVehicles.price := UpdateVehicles.price p;
     UpdateVehicles.customPrice := UpdateVehicles.customPrice p;
     UpdateVehicles.colour := UpdateVehicles.colour p;
     UpdateVehicles.interiorColor := UpdateVehicles.interiorColor p;
     UpdateVehicles.description := UpdateVehicles.description p;
     UpdateVehicles.aiDescription := UpdateVehicles.aiDescription p;
     UpdateVehicles.odometer := UpdateVehicles.odometer p;
     UpdateVehicles.newUsed := UpdateVehicles.newUsed p;
     UpdateVehicles.certified := UpdateVehicles.certified p;
     UpdateVehicles.dealerName := UpdateVehicles.dealerName p;
     UpdateVehicles.tags := UpdateVehicles.tags p;
     UpdateVehicles.inventoryDate := UpdateVehicles.inventoryDate p |}.

(** [update-vehicles({ price: 250000 })]: a field, and nothing to say which
    rows. *)
Definition update_everything : UpdateVehicles.Params :=
  update_request None None None None (Some 250000) None.

(** [update-vehicles({ id: 1, make: "ferrari", price: 250000 })]. *)
Definition update_by_id_and_make : UpdateVehicles.Params :=
  update_request (Some 1) None None (Some "ferrari") (Some 250000) None.

(** ** Lookups that find nothing *)

(** A lookup that failed, or answered with no row. *)
Definition fruitless (found : DbResp) : Prop :=
  error found <> None \/ data found = None \/ data found = Some [].

(** A store that is down: every query is answered with an error. *)
Definition down : World unit :=
  {| on_db := fun _ s => (failed "connection refused", s);
     on_s3 := fun _ s => (S3Throws (Some "connection refused"), s) |}.

(** ** The call to the bucket *)

(** The deletion delete-ai-video asks of the bucket for [vehicle]: the
    object [vehicles/{stock_number}/ai-video.mp4] of the configured bucket,
    with the configured endpoint and keys. *)
Definition cleanup_call (env : Env) (vehicle : Row) : S3Call :=
  {| s3_endpoint := default "" (R2_ENDPOINT env);
     s3_accessKeyId := default "" (R2_ACCESS_KEY_ID env);
     s3_secretAccessKey := default "" (R2_SECRET_ACCESS_KEY env);
     s3_Bucket := default "" (R2_BUCKET_NAME env);
     s3_Key := DeleteAiVideo.objectKey vehicle |}.

Definition no_bucket_call (tr : list Event) : Prop := Forall (fun e => is_s3 e = false) tr.

Definition read_only (tr : list Event) : Prop :=
  Forall (fun e => is_mutation e = false /\ is_s3 e = false) tr.

(** A store that answers every lookup with vehicle 7 of the lot, the one
    without a stock number, and accepts every write. *)
Definition finds_vehicle_7 : World unit :=
  {| on_db := fun c s =>
       match c with
       | Select cols _ _ _ =>
           (ok [project cols
                  (<["stock_number" := VNull]>
                     (vehicle 7 "SCA00000000000007" "" "Rolls-Royce"
                              (VStr "https://cdn/v7.mp4") VNull))], s)
       | _ => (ok [], s)
       end;
     on_s3 := fun _ s => (S3Done, s) |}.

(** A store that finds vehicle 1, lets the bucket delete, and then fails the
    update. *)
Definition fails_the_update : World unit :=
  {| on_db := fun c s =>
       match c with
       | Select cols _ _ _ =>
           (ok [project cols
                  (vehicle 1 "WP0AB2A99EXXXXXXX" "S-1" "Porsche"
                           (VStr "https://cdn/v1.mp4") VNull)], s)
       | _ => (failed "permission denied for table vehicles", s)
       end;
     on_s3 := fun _ s => (S3Done, s) |}.

(** ** Requests of get-vehicles *)

(** The request with every parameter the handler tests by truthiness
    replaced by [undefined] where it is falsy.  The price and odometer
    bounds and [hasPrice] are tested against [undefined] and are kept. *)
Definition given_get_vehicles (p : GetVehicles.Params) : GetVehicles.Params :=
  {| GetVehicles.make := givenS (GetVehicles.make p);
     GetVehicles.model := givenS (GetVehicles.model p);
     GetVehicles.year := givenN (GetVehicles.year p);
     GetVehicles.minYear := givenN (GetVehicles.minYear p);
     GetVehicles.maxYear := givenN (GetVehicles.maxYear p);
     GetVehicles.minPrice := GetVehicles.minPrice p;
     GetVehicles.maxPrice := GetVehicles.maxPrice p;
     GetVehicles.hasPrice := GetVehicles.hasPrice p;
     GetVehicles.colour := givenS (GetVehicles.colour p);
     GetVehicles.interiorColor := givenS (GetVehicles.interiorColor p);
     GetVehicles.newUsed := givenS (GetVehicles.newUsed p);
     GetVehicles.certified := givenS (GetVehicles.certified p);
     GetVehicles.transmission := givenS (GetVehicles.transmission p);
     GetVehicles.drivetrain := givenS (GetVehicles.drivetrain p);
     GetVehicles.fuel := givenS (GetVehicles.fuel p);
     GetVehicles.maxOdometer := GetVehicles.maxOdometer p;
     GetVehicles.body := givenS (GetVehicles.body p);
     GetVehicles.dealerName := givenS (GetVehicles.dealerName p) |}.

(** The rows of a listing; the other answers list none. *)
Definition listing (o : GetVehicles.Outcome) : list Row :=
  match o with
  | GetVehicles.Found rows => rows
  | _ => []
  end.

(** The column [c] of [r] holds a number, at least (at most) [n]. *)
Definition at_least (c : string) (n : Z) (r : Row) : Prop :=
  exists x, col r c = VNum x /\ n <= x.

Definition at_most (c : string) (n : Z) (r : Row) : Prop :=
  exists x, col r c = VNum x /\ x <= n.

(** [get-vehicles({ minPrice, hasPrice })]. *)
Definition find_by_price (minPrice : option Z) (hasPrice : option bool) : GetVehicles.Params :=
  {| GetVehicles.make := None; GetVehicles.model := None;
     GetVehicles.year := None; GetVehicles.minYear := None; GetVehicles.maxYear := None;
     GetVehicles.minPrice := minPrice; GetVehicles.maxPrice := None;
     GetVehicles.hasPrice := hasPrice; GetVehicles.colour := None;
     GetVehicles.interiorColor := None; GetVehicles.newUsed := None;
     GetVehicles.certified := None; GetVehicles.transmission := None;
     GetVehicles.drivetrain := None; GetVehicles.fuel := None;
     GetVehicles.maxOdometer := None; GetVehicles.body := None;
     GetVehicles.dealerName := None |}.

(** Three vehicles on offer, one of them without a price, and a sold one. *)
Definition forecourt : Table :=
  [ <["price" := VNum 90000]> (vehicle 1 "WP0AB2A99EXXXXXXX" "F-1" "Porsche" VNull VNull);
    vehicle 2 "ZFF00000000000002" "F-2" "Ferrari" VNull VNull;
    <["price" := VNum 310000]> (vehicle 3 "ZHW00000000000003" "F-3" "Lamborghini" VNull VNull);
    <["price" := VNum 120000]>
      (vehicle 4 "SCA00000000000004" "F-4" "Rolls-Royce" VNull
               (VStr "2025-01-01T00:00:00.000Z")) ].

(** ** Text of ASCII characters *)

Definition ascii_text (s : string) : bool :=
  forallb (fun a => (nat_of_ascii a <? 128)%nat) (chars s).

(** [get-vehicles({ make })]. *)
Definition find_by_make (make : string) : GetVehicles.Params :=
  {| GetVehicles.make := Some make; GetVehicles.model := None;
     GetVehicles.year := None; GetVehicles.minYear := None; GetVehicles.maxYear := None;
     GetVehicles.minPrice := None; GetVehicles.maxPrice := None;
     GetVehicles.hasPrice := None; GetVehicles.colour := None;
     GetVehicles.interiorColor := None; GetVehicles.newUsed := None;
     GetVehicles.certified := None; GetVehicles.transmission := None;
     GetVehicles.drivetrain := None; GetVehicles.fuel := None;
     GetVehicles.maxOdometer := None; GetVehicles.body := None;
     GetVehicles.dealerName := None |}.

(** ** Writes and soft deletion *)

(** Predicates that pick rows by their [id] and by nothing else. *)
Definition by_id_alone (fs : list Filter) : Prop :=
  (exists v, fs = [Eq "id" v]) \/ (exists vs, fs = [In "id" vs]).

(** A write whose only predicate is on [id]: it does not ask whether the
    row is visible. *)
Definition writes_by_id_alone (e : Event) : Prop :=
  match e with
  | DbEvent (Update _ fs _ _) _ => by_id_alone fs
  | DbEvent (Delete fs) _ => by_id_alone fs
  | _ => True
  end.

(** Another writer that soft-deletes vehicle 2 after each query of the
    handler. *)
Definition withdraw (t : Table) : Table :=
  (fun r => if value_eqb (col r "id") (VNum 2)
            then <["deleted_at" := VStr "2025-06-01T11:59:59.000Z"]> r else r) <$> t.

(** The first call of a run. *)
Definition first_call (tr : list Event) : option DbCall :=
  match tr with
  | DbEvent c _ :: _ => Some c
  | _ => None
  end.

Definition ascii_value (v : Value) : bool :=
  match v with
  | VStr s => ascii_text s
  | _ => true
  end.

(** A table whose texts, and a request whose text filters, are ASCII. *)
Definition ascii_table (t : Table) : Prop :=
  Forall (map_Forall (fun (_ : string) v => ascii_value v = true)) t.

Definition ascii_request (p : GetVehicles.Params) : Prop :=
  Forall (fun cv : string * option string => ascii_value (ofStr cv.2) = true) (text_filters p).

(** * Properties *)

(** ** Identifier validation *)

(** Case analysis on an optional number or string by its truthiness. *)
Ltac by_truthiness x :=
  destruct x as [[| ? | ?] |] || destruct x as [[| ? ?] |].

Lemma add_notes_given (env : Env) (p : AddNotes.Params) :
  AddNotes.addNotes env p = AddNotes.addNotes env (given_add_notes p).
Proof.
  destruct p as [i v s n].
  by_truthiness i; by_truthiness v; by_truthiness s; reflexivity.
Qed.

Lemma delete_ai_video_given (env : Env) (p : DeleteAiVideo.Params) :
  DeleteAiVideo.deleteAiVideo env p = DeleteAiVideo.deleteAiVideo env (given_delete_ai_video p).
Proof.
  destruct p as [i v s].
  by_truthiness i; by_truthiness v; by_truthiness s; reflexivity.
Qed.

Lemma delete_vehicle_given (env : Env) (p : DeleteVehicle.Params) :
  DeleteVehicle.deleteVehicle env p = DeleteVehicle.deleteVehicle env (given_delete_vehicle p).
Proof.
  destruct p as [v s].
  by_truthiness v; by_truthiness s; reflexivity.
Qed.

Lemma update_vehicles_given (env : Env) (p : UpdateVehicles.Params) :
  UpdateVehicles.updateVehicles env p
  = UpdateVehicles.updateVehicles env (given_update_vehicles p).
Proof.
  destruct p as [i v s mk md ? ? ? ? ? ? ? ? ? ? ? ?].
  by_truthiness i; by_truthiness v; by_truthiness s; reflexivity.
Qed.

Section Validation.

Variable env : Env.
Hypothesis credentials : configured env = true.

Lemma add_notes_ambiguous (p : AddNotes.Params) :
  (2 <= identifierCount (AddNotes.candidates p))%nat ->
  AddNotes.addNotes env p = Ret AddNotes.AmbiguousIdentifier.
Proof.
  intros H. unfold AddNotes.addNotes. rewrite credentials. simpl.
  destruct (identifierCount (AddNotes.candidates p)) as [|[|n]]; [lia | lia | reflexivity].
Qed.

Lemma delete_ai_video_ambiguous (p : DeleteAiVideo.Params) :
  (2 <= identifierCount (DeleteAiVideo.candidates p))%nat ->
  DeleteAiVideo.deleteAiVideo env p = Ret DeleteAiVideo.AmbiguousIdentifier.
Proof.
  intros H. unfold DeleteAiVideo.deleteAiVideo. rewrite credentials. simpl.
  destruct (identifierCount (DeleteAiVideo.candidates p)) as [|[|n]]; [lia | lia | reflexivity].
Qed.

Lemma delete_vehicle_ambiguous (p : DeleteVehicle.Params) :
  (2 <= identifierCount [ofStr (DeleteVehicle.vin p); ofStr (DeleteVehicle.stockNumber p)])%nat ->
  DeleteVehicle.deleteVehicle env p = Ret DeleteVehicle.AmbiguousIdentifier.
Proof.
  intros H. unfold DeleteVehicle.deleteVehicle. rewrite credentials.
  unfold identifierCount, truthyS in *. simpl in *.
  destruct (truthy (ofStr (DeleteVehicle.vin p))), (truthy (ofStr (DeleteVehicle.stockNumber p)));
    simpl in *; (reflexivity || lia).
Qed.

(** update-vehicles never answers with an identifier error: whatever it
    returns without calling the store is one of its three guards. *)
Lemma update_vehicles_leaves (p : UpdateVehicles.Params) (o : UpdateVehicles.Outcome) :
  UpdateVehicles.updateVehicles env p = Ret o ->
  o = UpdateVehicles.NoFieldsToUpdate \/ o = UpdateVehicles.NoTargetCriteria.
Proof.
  unfold UpdateVehicles.updateVehicles. rewrite credentials. simpl.
  destruct (size _ =? 1)%nat; [intros [= <-]; by left |].
  destruct (UpdateVehicles.target p); [discriminate |].
  intros [= <-]; by right.
Qed.

Lemma update_vehicles_by_id (p : UpdateVehicles.Params) :
  truthyN (UpdateVehicles.id p) = true ->
  UpdateVehicles.target p = Some [Eq "id" (ofNum (UpdateVehicles.id p))].
Proof. intros H. unfold UpdateVehicles.target. by rewrite H. Qed.

Lemma update_vehicles_by_vin (p : UpdateVehicles.Params) :
  truthyN (UpdateVehicles.id p) = false ->
  truthyS (UpdateVehicles.vin p) = true ->
  UpdateVehicles.target p = Some [Eq "vin" (ofStr (UpdateVehicles.vin p))].
Proof. intros H1 H2. unfold UpdateVehicles.target. by rewrite H1, H2. Qed.

Lemma update_vehicles_by_stock_number (p : UpdateVehicles.Params) :
  truthyN (UpdateVehicles.id p) = false ->
  truthyS (UpdateVehicles.vin p) = false ->
  truthyS (UpdateVehicles.stockNumber p) = true ->
  UpdateVehicles.target p
  = Some [Eq "stock_number" (ofStr (UpdateVehicles.stockNumber p))].
Proof. intros H1 H2 H3. unfold UpdateVehicles.target. by rewrite H1, H2, H3. Qed.

Lemma add_notes_no_identifier (p : AddNotes.Params) :
  identifierCount (AddNotes.candidates p) = 0%nat ->
  AddNotes.addNotes env p = Ret AddNotes.NoIdentifier.
Proof. intros H. unfold AddNotes.addNotes. by rewrite credentials, H. Qed.

Lemma delete_ai_video_no_identifier (p : DeleteAiVideo.Params) :
  identifierCount (DeleteAiVideo.candidates p) = 0%nat ->
  DeleteAiVideo.deleteAiVideo env p = Ret DeleteAiVideo.NoIdentifier.
Proof. intros H. unfold DeleteAiVideo.deleteAiVideo. by rewrite credentials, H. Qed.

End Validation.

(** ** The assignment set of update-vehicles *)

Section Assignments.

Import UpdateVehicles.

Lemma lookup_put_eq {A : Type} (inj : A -> Value) (k : string) (x : option A) (o : Row) :
  put inj k x o !! k = match x with Some v => Some (inj v) | None => o !! k end.
Proof. destruct x; simpl; [apply lookup_insert_eq | reflexivity]. Qed.

Lemma lookup_put_ne {A : Type} (inj : A -> Value) (k k' : string) (x : option A) (o : Row) :
  k <> k' -> put inj k x o !! k' = o !! k'.
Proof. intros H. destruct x; simpl; [by apply lookup_insert_ne | reflexivity]. Qed.

Ltac read_assignment :=
  unfold updateData;
  repeat first
    [ rewrite lookup_put_ne by discriminate
    | rewrite lookup_put_eq
    | rewrite lookup_singleton_ne by discriminate
    | rewrite lookup_singleton_eq ].

Lemma updateData_updated_at (env : Env) (p : Params) :
  updateData env p !! "updated_at" = Some (VStr (now env)).
Proof. by read_assignment. Qed.


Lemma updateData_nothing_supplied (env : Env) (p : Params) :
  nothing_supplied p = true -> updateData env p = {[ "updated_at" := VStr (now env) ]}.
Proof.
  destruct p as [? ? ? ? ? pr cp co ic de ad od nu ce dn ta inv].
  unfold nothing_supplied, updateData. simpl.
  intros H.
  repeat match type of H with
         | context [is_unset (_ <$> ?x)] => destruct x; [discriminate H |]; simpl in H
         end.
  reflexivity.
Qed.

End Assignments.

(** ** C1: two or more identifiers *)

(** C1, as stated, fails for update-vehicles: with [id] and [vin] both
    supplied it returns no identifier error; it calls the store, looking the
    row up by [id]. *)
Lemma C1_update_vehicles_takes_the_first :
  (2 <= identifierCount [ofNum (UpdateVehicles.id update_by_id_and_vin);
                         ofStr (UpdateVehicles.vin update_by_id_and_vin);
                         ofStr (UpdateVehicles.stockNumber update_by_id_and_vin)])%nat
  /\ exists k, UpdateVehicles.updateVehicles deployed update_by_id_and_vin
               = Db (UpdateVehicles.lookup [Eq "id" (VNum 1)]) k.
Proof. split; [vm_compute; lia | eexists; reflexivity]. Qed.

(** C1 (amended): with the store credentials set, add-notes, delete-ai-video
    and delete-vehicle answer a request that carries two or more non-empty,
    non-zero identifiers with their only-one-identifier error, without any
    call to the store; update-vehicles has no such error: the only answers it
    gives without calling the store are its no-fields and no-criteria errors,
    and among several identifiers it takes the first of id, vin,
    stockNumber. *)
Theorem C1_ambiguous_identifier (env : Env) :
  configured env = true ->
  (forall p, (2 <= identifierCount (AddNotes.candidates p))%nat ->
             AddNotes.addNotes env p = Ret AddNotes.AmbiguousIdentifier)
  /\ (forall p, (2 <= identifierCount (DeleteAiVideo.candidates p))%nat ->
                DeleteAiVideo.deleteAiVideo env p = Ret DeleteAiVideo.AmbiguousIdentifier)
  /\ (forall p, (2 <= identifierCount [ofStr (DeleteVehicle.vin p);
                                       ofStr (DeleteVehicle.stockNumber p)])%nat ->
                DeleteVehicle.deleteVehicle env p = Ret DeleteVehicle.AmbiguousIdentifier)
  /\ (forall p o, UpdateVehicles.updateVehicles env p = Ret o ->
                  o = UpdateVehicles.NoFieldsToUpdate \/ o = UpdateVehicles.NoTargetCriteria)
  /\ (forall p, truthyN (UpdateVehicles.id p) = true ->
                UpdateVehicles.target p = Some [Eq "id" (ofNum (UpdateVehicles.id p))])
  /\ (forall p, truthyN (UpdateVehicles.id p) = false ->
                truthyS (UpdateVehicles.vin p) = true ->
                UpdateVehicles.target p = Some [Eq "vin" (ofStr (UpdateVehicles.vin p))]).
Proof.
  intros Hc. repeat split.
  - apply add_notes_ambiguous, Hc.
  - apply delete_ai_video_ambiguous, Hc.
  - apply delete_vehicle_ambiguous, Hc.
  - apply update_vehicles_leaves, Hc.
  - apply update_vehicles_by_id.
  - apply update_vehicles_by_vin.
Qed.

Lemma C1_ambiguous_identifier_witness :
  AddNotes.addNotes deployed (notes_request (Some 1) (Some "X") (Some (Some "sold")))
  = Ret AddNotes.AmbiguousIdentifier
  /\ DeleteVehicle.deleteVehicle deployed (delete_request (Some "X") (Some "Y"))
     = Ret DeleteVehicle.AmbiguousIdentifier.
Proof.
  pose proof (C1_ambiguous_identifier deployed eq_refl) as (Ha & _ & Hd & _).
  split.
  - apply Ha. vm_compute. lia.
  - apply Hd. vm_compute. lia.
Defined.

(** ** C5: nothing to update *)

(** C5: an update-vehicles request that supplies none of the twelve
    updatable parameters builds an assignment set holding only
    [updated_at], and is answered without any call to the store, whatever
    identifiers or filters it carries: with the no-fields error when the
    store credentials are set (and with the credentials error, from the
    guard that comes first, when they are not). *)
Theorem C5_no_fields_to_update (env : Env) (p : UpdateVehicles.Params) :
  nothing_supplied p = true ->
  UpdateVehicles.updateData env p = {[ "updated_at" := VStr (now env) ]}
  /\ UpdateVehicles.updateVehicles env p
     = Ret (if configured env then UpdateVehicles.NoFieldsToUpdate
            else UpdateVehicles.MissingCredentials)
  /\ (configured env = true ->
      UpdateVehicles.updateVehicles env p = Ret UpdateVehicles.NoFieldsToUpdate).
Proof.
  intros Hn. pose proof (updateData_nothing_supplied env p Hn) as Hd.
  split; [exact Hd |].
  assert (UpdateVehicles.updateVehicles env p
          = Ret (if configured env then UpdateVehicles.NoFieldsToUpdate
                 else UpdateVehicles.MissingCredentials)) as Hr.
  { unfold UpdateVehicles.updateVehicles. rewrite Hd, map_size_singleton.
    by destruct (configured env). }
  split; [exact Hr |]. intros Hc. by rewrite Hr, Hc.
Qed.

Lemma C5_no_fields_to_update_witness :
  UpdateVehicles.updateVehicles deployed update_nothing = Ret UpdateVehicles.NoFieldsToUpdate.
Proof.
  apply (C5_no_fields_to_update deployed update_nothing); reflexivity.
Defined.

(** ** C10: falsy identifiers *)

(** C10: an identifier supplied as [0] or as the empty string is read by
    every handler exactly as a missing one: the handler's whole behaviour is
    the one of the request with that identifier removed.  So, with the store
    credentials set, add-notes and delete-ai-video called with [id = 0] alone
    answer with their no-identifier error, and update-vehicles passes over a
    falsy [id] to [vin], and over a falsy [id] and [vin] to [stockNumber]. *)
Theorem C10_falsy_identifier_is_absent (env : Env) :
  (forall p, AddNotes.addNotes env p = AddNotes.addNotes env (given_add_notes p))
  /\ (forall p, DeleteAiVideo.deleteAiVideo env p
                = DeleteAiVideo.deleteAiVideo env (given_delete_ai_video p))
  /\ (forall p, DeleteVehicle.deleteVehicle env p
                = DeleteVehicle.deleteVehicle env (given_delete_vehicle p))
  /\ (forall p, UpdateVehicles.updateVehicles env p
                = UpdateVehicles.updateVehicles env (given_update_vehicles p))
  /\ (configured env = true ->
      forall notes, AddNotes.addNotes env (notes_request (Some 0) None notes)
                    = Ret AddNotes.NoIdentifier)
  /\ (configured env = true ->
      DeleteAiVideo.deleteAiVideo env (video_request (Some 0) None)
      = Ret DeleteAiVideo.NoIdentifier)
  /\ (forall p, truthyN (UpdateVehicles.id p) = false ->
                truthyS (UpdateVehicles.vin p) = true ->
                UpdateVehicles.target p = Some [Eq "vin" (ofStr (UpdateVehicles.vin p))])
  /\ (forall p, truthyN (UpdateVehicles.id p) = false ->
                truthyS (UpdateVehicles.vin p) = false ->
                truthyS (UpdateVehicles.stockNumber p) = true ->
                UpdateVehicles.target p
                = Some [Eq "stock_number" (ofStr (UpdateVehicles.stockNumber p))]).
Proof.
  split; [apply add_notes_given |].
  split; [apply delete_ai_video_given |].
  split; [apply delete_vehicle_given |].
  split; [apply update_vehicles_given |].
  split; [intros Hc notes; by apply add_notes_no_identifier |].
  split; [intros Hc; by apply delete_ai_video_no_identifier |].
  split; [apply update_vehicles_by_vin | apply update_vehicles_by_stock_number].
Qed.

Lemma C10_falsy_identifier_is_absent_witness :
  AddNotes.addNotes deployed (notes_request (Some 0) None (Some (Some "sold")))
  = Ret AddNotes.NoIdentifier
  /\ UpdateVehicles.target (update_request (Some 0) (Some "") (Some "S-1") None (Some 1) None)
     = Some [Eq "stock_number" (VStr "S-1")].
Proof.
  pose proof (C10_falsy_identifier_is_absent deployed)
    as (_ & _ & _ & _ & Hn & _ & _ & Hs).
  split; [apply Hn; reflexivity | apply Hs; reflexivity].
Defined.

(** ** C2: more than one match *)

Section ManyMatches.

Context {S : Type} (w : World S) (env : Env) (s : S).
Hypothesis credentials : configured env = true.

Ltac many_rows H :=
  destruct H as (He & rows & Hd & Hn);
  match goal with
  | Hw : on_db w _ s = (?found, _) |- _ =>
      destruct found as [d e]; simpl in He, Hd; subst d e; simpl; rewrite Hw
  end;
  destruct rows as [| ? [| ? ?]]; simpl in Hn; [lia | lia | reflexivity].

Lemma add_notes_many (p : AddNotes.Params) (n : option string) (found : DbResp) (s1 : S) :
  identifierCount (AddNotes.candidates p) = 1%nat ->
  AddNotes.notes p = Some n ->
  on_db w (AddNotes.lookup p) s = (found, s1) ->
  many found ->
  run w (AddNotes.addNotes env p) s
  = {| result := AddNotes.MultipleMatches; final := s1;
       trace := [DbEvent (AddNotes.lookup p) found] |}.
Proof.
  intros H1 H2 Hw H. unfold AddNotes.addNotes. rewrite credentials, H1, H2.
  many_rows H.
Qed.

Lemma delete_ai_video_many (p : DeleteAiVideo.Params) (found : DbResp) (s1 : S) :
  identifierCount (DeleteAiVideo.candidates p) = 1%nat ->
  on_db w (DeleteAiVideo.lookup p) s = (found, s1) ->
  many found ->
  run w (DeleteAiVideo.deleteAiVideo env p) s
  = {| result := DeleteAiVideo.MultipleMatches; final := s1;
       trace := [DbEvent (DeleteAiVideo.lookup p) found] |}.
Proof.
  intros H1 Hw H. unfold DeleteAiVideo.deleteAiVideo. rewrite credentials, H1.
  many_rows H.
Qed.

Lemma delete_vehicle_many (p : DeleteVehicle.Params) (found : DbResp) (s1 : S) :
  identifierCount [ofStr (DeleteVehicle.vin p); ofStr (DeleteVehicle.stockNumber p)] = 1%nat ->
  on_db w (DeleteVehicle.lookup p) s = (found, s1) ->
  many found ->
  run w (DeleteVehicle.deleteVehicle env p) s
  = {| result := DeleteVehicle.MultipleMatches; final := s1;
       trace := [DbEvent (DeleteVehicle.lookup p) found] |}.
Proof.
  intros H1 Hw H. unfold DeleteVehicle.deleteVehicle. rewrite credentials.
  assert (negb (truthyS (DeleteVehicle.vin p)) && negb (truthyS (DeleteVehicle.stockNumber p)) = false
          /\ truthyS (DeleteVehicle.vin p) && truthyS (DeleteVehicle.stockNumber p) = false)
    as [-> ->].
  { unfold identifierCount, truthyS in *. simpl in H1.
    destruct (truthy (ofStr (DeleteVehicle.vin p))),
             (truthy (ofStr (DeleteVehicle.stockNumber p))); simpl in *; (done || lia). }
  many_rows H.
Qed.

End ManyMatches.

(** C2, as stated, fails for update-vehicles: targeting by a VIN that two
    visible rows share, it reports success and updates both rows. *)
Lemma C2_update_vehicles_updates_every_match :
  length (List.filter (matches [IsNull "deleted_at"; Eq "vin" (VStr "ZFF00000000000002")])
                      showroom) = 2%nat
  /\ (exists d rows,
        result (run (table_world quiet obliging)
                    (UpdateVehicles.updateVehicles deployed update_by_shared_vin) showroom)
        = UpdateVehicles.Updated d (Some rows) /\ length rows = 2%nat)
  /\ (fun r => col r "price")
       <$> final (run (table_world quiet obliging)
                      (UpdateVehicles.updateVehicles deployed update_by_shared_vin) showroom)
     = [VNull; VNum 250000; VNum 250000; VNull].
Proof.
  split; [reflexivity |]. split; [| vm_compute; reflexivity].
  eexists _, _. split; [vm_compute; reflexivity | reflexivity].
Qed.

(** C2 (amended): in add-notes, delete-ai-video and delete-vehicle, once the
    request has passed validation, a lookup answered with two or more rows
    ends the call with the multiple-vehicles error, and the lookup is the
    only call made: no update and no delete is issued, whatever the store.
    (update-vehicles, which also serves batches, has no such check.) *)
Theorem C2_several_matches_abort {S : Type} (w : World S) (env : Env) (s : S) :
  configured env = true ->
  (forall p n found s1,
      identifierCount (AddNotes.candidates p) = 1%nat ->
      AddNotes.notes p = Some n ->
      on_db w (AddNotes.lookup p) s = (found, s1) ->
      many found ->
      run w (AddNotes.addNotes env p) s
      = {| result := AddNotes.MultipleMatches; final := s1;
           trace := [DbEvent (AddNotes.lookup p) found] |})
  /\ (forall p found s1,
         identifierCount (DeleteAiVideo.candidates p) = 1%nat ->
         on_db w (DeleteAiVideo.lookup p) s = (found, s1) ->
         many found ->
         run w (DeleteAiVideo.deleteAiVideo env p) s
         = {| result := DeleteAiVideo.MultipleMatches; final := s1;
              trace := [DbEvent (DeleteAiVideo.lookup p) found] |})
  /\ (forall p found s1,
         identifierCount [ofStr (DeleteVehicle.vin p); ofStr (DeleteVehicle.stockNumber p)]
         = 1%nat ->
         on_db w (DeleteVehicle.lookup p) s = (found, s1) ->
         many found ->
         run w (DeleteVehicle.deleteVehicle env p) s
         = {| result := DeleteVehicle.MultipleMatches; final := s1;
              trace := [DbEvent (DeleteVehicle.lookup p) found] |}).
Proof.
  intros Hc. repeat split; intros.
  - by eapply add_notes_many.
  - by eapply delete_ai_video_many.
  - by eapply delete_vehicle_many.
Qed.

Lemma C2_several_matches_abort_witness :
  result (run (table_world quiet obliging)
              (DeleteVehicle.deleteVehicle deployed
                 (delete_request (Some "ZFF00000000000002") None)) showroom)
  = DeleteVehicle.MultipleMatches
  /\ final (run (table_world quiet obliging)
                (DeleteVehicle.deleteVehicle deployed
                   (delete_request (Some "ZFF00000000000002") None)) showroom)
     = showroom.
Proof.
  pose proof (C2_several_matches_abort (table_world quiet obliging) deployed showroom eq_refl)
    as (_ & _ & H).
  erewrite H; [split; reflexivity | reflexivity | reflexivity |].
  split; [reflexivity |]. eexists. split; [reflexivity | vm_compute; lia].
Defined.

(** ** The calls of a run, in any world *)

Section Calls.

Context {S : Type} (w : World S) (env : Env).

Lemma update_vehicles_trace (p : UpdateVehicles.Params) (s : S) :
  update_vehicles_calls env p (trace (run w (UpdateVehicles.updateVehicles env p) s)).
Proof.
  unfold UpdateVehicles.updateVehicles, update_vehicles_calls.
  destruct (negb (configured env)); [by left |].
  destruct (size _ =? 1)%nat; [by left |].
  destruct (UpdateVehicles.target p) as [fs |]; [| by left].
  right. exists fs. simpl.
  destruct (on_db w (UpdateVehicles.lookup fs) s) as [[[rows |] [m |]] s1]; simpl;
    try (eexists; split; [reflexivity | by left]).
  destruct rows as [| v rows]; simpl;
    try (eexists; split; [reflexivity | by left]).
  destruct (on_db w _ s1) as [[d [m |]] s2]; simpl;
    (exists {| data := Some (v :: rows); error := None |};
     split; [reflexivity | right; exists (v :: rows); eexists; done]).
Qed.

Lemma add_notes_trace (p : AddNotes.Params) (s : S) :
  add_notes_calls env p (trace (run w (AddNotes.addNotes env p) s)).
Proof.
  unfold AddNotes.addNotes, add_notes_calls.
  destruct (negb (configured env)); [by left |].
  destruct (_ =? 0)%nat; [by left |].
  destruct (1 <? _)%nat; [by left |].
  destruct (AddNotes.notes p) as [n |] eqn:Hn; [| by left].
  right. simpl.
  destruct (on_db w (AddNotes.lookup p) s) as [[[[| v [| ? ?]] |] [m |]] s1]; simpl;
    try (eexists; by left).
  destruct (on_db w _ s1) as [[d [m |]] s2]; simpl;
    [ exists {| data := Some [v]; error := None |}; right; exists n, v; eexists; done |].
  destruct (single_row _); simpl;
    exists {| data := Some [v]; error := None |}; right; exists n, v; eexists; done.
Qed.

Lemma delete_vehicle_trace (p : DeleteVehicle.Params) (s : S) :
  delete_vehicle_calls p (trace (run w (DeleteVehicle.deleteVehicle env p) s)).
Proof.
  unfold DeleteVehicle.deleteVehicle, delete_vehicle_calls.
  destruct (negb (configured env)); [by left |].
  destruct (negb _ && negb _); [by left |].
  destruct (_ && _); [by left |].
  right. simpl.
  destruct (on_db w (DeleteVehicle.lookup p) s) as [[[[| v [| ? ?]] |] [m |]] s1]; simpl;
    try (eexists; by left).
  destruct (on_db w _ s1) as [[d [m |]] s2]; simpl;
    exists {| data := Some [v]; error := None |}; right; exists v; eexists; done.
Qed.

Lemma delete_ai_video_trace (p : DeleteAiVideo.Params) (s : S) :
  delete_ai_video_calls env p (trace (run w (DeleteAiVideo.deleteAiVideo env p) s)).
Proof.
  unfold DeleteAiVideo.deleteAiVideo, delete_ai_video_calls.
  destruct (negb (configured env)); [by left |].
  destruct (_ =? 0)%nat; [by left |].
  destruct (1 <? _)%nat; [by left |].
  right. simpl.
  destruct (on_db w (DeleteAiVideo.lookup p) s) as [[[[| v [| ? ?]] |] [m |]] s1]; simpl;
    try (eexists; by left).
  destruct (negb (truthy (col v "ai_video"))); [eexists; by left |].
  destruct (negb (truthy (col v "stock_number"))); [eexists; by left |].
  unfold DeleteAiVideo.cleanup, DeleteAiVideo.deleteFromR2.
  destruct (r2_configured env); simpl.
  - destruct (on_s3 w _ s1) as [[| m] s2]; simpl;
      destruct (on_db w _ s2) as [[d [m' |]] s3]; simpl;
      try destruct (single_row _); simpl;
      exists {| data := Some [v]; error := None |}; right; exists v; eexists;
      (split; [done |]); (split; [done |]); right; eexists _, _; done.
  - destruct (on_db w _ s1) as [[d [m' |]] s3]; simpl;
      try destruct (single_row _); simpl;
      exists {| data := Some [v]; error := None |}; right; exists v; eexists;
      (split; [done |]); (split; [done |]); by left.
Qed.

End Calls.

(** ** C6: empty values and unset fields *)




(** ** delete-ai-video: the cleanup and the update *)

Lemma cleared_messages_differ (info : string) (v : Row) (url : Value)
      (r r' : option DeleteAiVideo.R2Result) :
  cleanup_outcome r <> cleanup_outcome r' ->
  DeleteAiVideo.message (DeleteAiVideo.Cleared info v url r)
  <> DeleteAiVideo.message (DeleteAiVideo.Cleared info v url r').
Proof.
  intros Hk Hm. simpl in Hm. apply (inj (String.app _)) in Hm.
  destruct r as [[[] e] |], r' as [[[] e'] |]; simpl in Hk, Hm;
    first [by apply Hk | discriminate Hm].
Qed.

Section VideoCleanup.

Context {S : Type} (w : World S) (env : Env) (p : DeleteAiVideo.Params).
Context (s s1 : S) (vehicle : Row).
Hypothesis credentials : configured env = true.
Hypothesis one_identifier : identifierCount (DeleteAiVideo.candidates p) = 1%nat.
Hypothesis found : on_db w (DeleteAiVideo.lookup p) s = (ok [vehicle], s1).
Hypothesis has_video : truthy (col vehicle "ai_video") = true.
Hypothesis has_stock_number : truthy (col vehicle "stock_number") = true.

Lemma delete_ai_video_skipped :
  r2_configured env = false ->
  exists answer s2,
    on_db w (DeleteAiVideo.write env vehicle) s1 = (answer, s2)
    /\ run w (DeleteAiVideo.deleteAiVideo env p) s
       = {| result := concluded vehicle None answer; final := s2;
            trace := [DbEvent (DeleteAiVideo.lookup p) (ok [vehicle]);
                      DbEvent (DeleteAiVideo.write env vehicle) answer] |}.
Proof.
  intros Hr. destruct (on_db w (DeleteAiVideo.write env vehicle) s1) as [answer s2] eqn:Hw.
  exists answer, s2. split; [reflexivity |].
  unfold DeleteAiVideo.deleteAiVideo. rewrite credentials, one_identifier. simpl.
  rewrite found. simpl. rewrite has_video, has_stock_number. simpl.
  unfold DeleteAiVideo.cleanup. rewrite Hr. simpl. rewrite Hw.
  unfold concluded. destruct (error answer); [reflexivity |].
  destruct (single_row answer); reflexivity.
Qed.

Lemma delete_ai_video_attempted :
  r2_configured env = true ->
  exists c sent s2 answer s3 r2,
    on_s3 w c s1 = (sent, s2)
    /\ s3_Key c = DeleteAiVideo.objectKey vehicle
    /\ on_db w (DeleteAiVideo.write env vehicle) s2 = (answer, s3)
    /\ run w (DeleteAiVideo.deleteAiVideo env p) s
       = {| result := concluded vehicle (Some r2) answer; final := s3;
            trace := [DbEvent (DeleteAiVideo.lookup p) (ok [vehicle]);
                      S3Event c sent;
                      DbEvent (DeleteAiVideo.write env vehicle) answer] |}
    /\ cleanup_outcome (Some r2) = cleanup_of_answer sent.
Proof.
  intros Hr.
  unfold DeleteAiVideo.deleteAiVideo. rewrite credentials, one_identifier. simpl.
  rewrite found. simpl. rewrite has_video, has_stock_number. simpl.
  unfold DeleteAiVideo.cleanup, DeleteAiVideo.deleteFromR2. rewrite Hr. simpl.
  match goal with |- context [on_s3 w ?c s1] =>
    exists c; destruct (on_s3 w c s1) as [sent s2] eqn:Hs end.
  exists sent, s2.
  destruct (on_db w (DeleteAiVideo.write env vehicle) s2) as [answer s3] eqn:Hw.
  exists answer, s3.
  destruct sent as [| m]; simpl; rewrite Hw; simpl;
    [ exists {| DeleteAiVideo.success := true; DeleteAiVideo.r2_error := None |}
    | exists {| DeleteAiVideo.success := false;
                DeleteAiVideo.r2_error :=
                  Some (default "Unknown error deleting from R2" m) |} ];
    (split; [reflexivity |]); (split; [reflexivity |]);
    (split; [reflexivity |]); (split; [| reflexivity]);
    unfold concluded; destruct (error answer); try reflexivity;
    destruct (single_row answer); reflexivity.
Qed.

End VideoCleanup.


(** ** C4: the write goes to the ids the lookup captured *)

Section CapturedIds.

Variables (env : Env) (p : UpdateVehicles.Params).
Variables (sync : Table -> Table) (s3 : S3Call -> S3Resp) (t : Table).
Variable fs : list Filter.
Hypothesis credentials : configured env = true.
Hypothesis some_field : size (UpdateVehicles.updateData env p) <> 1%nat.
Hypothesis targeted : UpdateVehicles.target p = Some fs.

Hypothesis some_row : captured fs t <> [].

Lemma update_vehicles_race :
  run (table_world sync s3) (UpdateVehicles.updateVehicles env p) t
  = {| result :=
         UpdateVehicles.Updated
           (UpdateVehicles.updateData env p)
           (data (table_exec (UpdateVehicles.write env p (UpdateVehicles.ids (captured fs t)))
                             (sync t)).1);
       final :=
         sync ((fun r => if matches [In "id" (UpdateVehicles.ids (captured fs t))] r
                         then assign (UpdateVehicles.updateData env p) r else r)
                 <$> sync t);
       trace :=
         [ DbEvent (UpdateVehicles.lookup fs) (ok (captured fs t));
           DbEvent (UpdateVehicles.write env p (UpdateVehicles.ids (captured fs t)))
                   (table_exec (UpdateVehicles.write env p (UpdateVehicles.ids (captured fs t)))
                               (sync t)).1 ] |}.
Proof.
  unfold UpdateVehicles.updateVehicles. rewrite credentials, targeted.
  apply Nat.eqb_neq in some_field. rewrite some_field. simpl.
  fold (captured fs t). destruct (captured fs t) as [| v rows] eqn:Hcap; [done |].
  reflexivity.
Qed.

End CapturedIds.



(** ** Soft-deleted rows *)

Lemma value_eqb_eq (a b : Value) : value_eqb a b = true <-> a = b.
Proof. unfold value_eqb. apply bool_decide_eq_true. Qed.

Lemma col_project (cs : list string) (r : Row) (c : string) :
  c ∈ cs -> col (project (Cols cs) r) c = col r c.
Proof.
  intros Hc. unfold col, project.
  destruct (r !! c) as [v |] eqn:Hr.
  - erewrite (proj2 (map_lookup_filter_Some _ r c v)); [done | by split].
  - rewrite (proj2 (map_lookup_filter_None _ r c)); [done | by left].
Qed.

Lemma col_assign_other (d r : Row) (c : string) :
  d !! c = None -> col (assign d r) c = col r c.
Proof. intros Hd. unfold col, assign. by rewrite lookup_union_r. Qed.

Lemma col_assign (d r : Row) (c : string) (v : Value) :
  d !! c = Some v -> col (assign d r) c = v.
Proof. intros Hd. unfold col, assign. by erewrite lookup_union_Some_l. Qed.

Lemma visible_of_matches (fs : list Filter) (r : Row) :
  matches (IsNull "deleted_at" :: fs) r = true -> col r "deleted_at" = VNull.
Proof.
  simpl. intros [H _]%andb_true_iff. by destruct (col r "deleted_at").
Qed.

Lemma unique_id (t : Table) (r r' : Row) :
  unique_ids t -> r ∈ t -> r' ∈ t -> col r "id" = col r' "id" -> r = r'.
Proof.
  unfold unique_ids. induction t as [| x t IH]; simpl; intros Hn Hr Hr' He.
  - by apply elem_of_nil in Hr.
  - apply NoDup_cons in Hn as [Hx Hn].
    apply elem_of_cons in Hr as [-> | Hr]; apply elem_of_cons in Hr' as [-> | Hr'];
      try done.
    + exfalso. apply Hx. rewrite He. by apply (list_elem_of_fmap_2 (fun r => col r "id")).
    + exfalso. apply Hx. rewrite <- He. by apply (list_elem_of_fmap_2 (fun r => col r "id")).
    + by apply IH.
Qed.

Lemma elem_of_filter_matches (fs : list Filter) (t : Table) (r : Row) :
  r ∈ List.filter (matches fs) t <-> r ∈ t /\ matches fs r = true.
Proof. rewrite !list_elem_of_In. apply filter_In. Qed.

(** What a select on the table answers with: projections of rows of the
    table that satisfy every predicate. *)
Lemma select_sound (cols : Columns) (fs : list Filter) (o : option (string * bool))
      (lim : option Z) (t : Table) (rows : list Row) (row : Row) :
  data (table_exec (Select cols fs o lim) t).1 = Some rows ->
  row ∈ rows ->
  exists r, r ∈ t /\ matches fs r = true /\ row = project cols r.
Proof.
  simpl. intros Hd Hrow.
  assert (forall l, row ∈ project cols <$> l -> l ⊆ ordered o (List.filter (matches fs) t) ->
                    exists r, r ∈ t /\ matches fs r = true /\ row = project cols r) as Hin.
  { intros l (r & -> & Hr)%list_elem_of_fmap Hl. exists r.
    apply Hl in Hr.
    assert (r ∈ List.filter (matches fs) t) as Hf.
    { destruct o as [[c asc] |]; simpl in Hr; [| done].
      by rewrite merge_sort_Permutation in Hr. }
    apply elem_of_filter_matches in Hf as [? ?]. done. }
  destruct lim as [n |].
  - destruct (n <? 0); simpl in Hd; [discriminate |].
    injection Hd as <-. apply (Hin _ Hrow). apply sublist_subseteq, sublist_take.
  - simpl in Hd. injection Hd as <-. by apply (Hin _ Hrow).
Qed.

Lemma select_visible (cols : Columns) (fs : list Filter) (o : option (string * bool))
      (lim : option Z) (t : Table) (rows : list Row) (row : Row) :
  IsNull "deleted_at" ∈ fs ->
  data (table_exec (Select cols fs o lim) t).1 = Some rows ->
  row ∈ rows ->
  exists r, r ∈ t /\ col r "deleted_at" = VNull /\ row = project cols r.
Proof.
  intros Hf Hd Hrow.
  destruct (select_sound cols fs o lim t rows row Hd Hrow) as (r & Hr & Hm & ->).
  exists r. repeat split; [done |].
  unfold matches in Hm. rewrite forallb_forall in Hm.
  apply list_elem_of_In, Hm in Hf. simpl in Hf. by destruct (col r "deleted_at").
Qed.

Lemma spares_nothing_written (t : Table) : spares_soft_deleted t t.
Proof. exists (fun r => r). split; [by rewrite list_fmap_id | done]. Qed.

(** An update whose predicates only hold of rows that share their [id] with
    a visible row leaves the soft-deleted rows as they are. *)
Lemma update_spares (d : Row) (fs : list Filter) (cols : Columns) (single : bool) (t : Table) :
  unique_ids t ->
  (forall r, matches fs r = true ->
             exists r', r' ∈ t /\ col r' "deleted_at" = VNull /\ col r' "id" = col r "id") ->
  spares_soft_deleted t (table_exec (Update d fs cols single) t).2.
Proof.
  intros Hu Hfs. simpl.
  destruct (single && negb (length (List.filter (matches fs) t) =? 1)%nat); simpl;
    [apply spares_nothing_written |].
  eexists. split; [reflexivity |].
  intros r Hr Hdel. simpl. destruct (matches fs r) eqn:Hm; [| done].
  destruct (Hfs r Hm) as (r' & Hr' & Hv & Hid).
  assert (r' = r) as -> by (by apply (unique_id t)).
  by destruct Hdel.
Qed.

Lemma matches_eq_id (v r : Row) (cs : list string) :
  "id" ∈ cs ->
  matches [Eq "id" (col (project (Cols cs) v) "id")] r = true ->
  col v "id" = col r "id".
Proof.
  intros Hc. rewrite (col_project cs v "id" Hc). simpl.
  rewrite andb_true_r. intros [_ H%value_eqb_eq]%andb_true_iff. done.
Qed.

Lemma captured_id (fs : list Filter) (t : Table) (x : Value) :
  x ∈ UpdateVehicles.ids (captured fs t) ->
  exists r', r' ∈ t /\ col r' "deleted_at" = VNull /\ col r' "id" = x.
Proof.
  unfold UpdateVehicles.ids, captured.
  intros (row & -> & (r' & -> & Hr')%list_elem_of_fmap)%list_elem_of_fmap.
  apply elem_of_filter_matches in Hr' as [Hr' Hm].
  exists r'. split; [done |]. split; [by eapply visible_of_matches |].
  symmetry. apply col_project. by left.
Qed.


(** Where a run of a single-row handler leaves the world: where it was,
    where the lookup left it, or where the one write left it. *)
Section Finals.

Context {S : Type} (w : World S) (env : Env) (s : S).

Lemma add_notes_final (p : AddNotes.Params) :
  final (run w (AddNotes.addNotes env p) s) = s
  \/ final (run w (AddNotes.addNotes env p) s) = (on_db w (AddNotes.lookup p) s).2
  \/ exists n vehicle,
      data (on_db w (AddNotes.lookup p) s).1 = Some [vehicle]
      /\ final (run w (AddNotes.addNotes env p) s)
         = (on_db w (AddNotes.write env n vehicle) (on_db w (AddNotes.lookup p) s).2).2.
Proof.
  unfold AddNotes.addNotes.
  destruct (negb (configured env)); [by left |].
  destruct (_ =? 0)%nat; [by left |].
  destruct (1 <? _)%nat; [by left |].
  destruct (AddNotes.notes p) as [n |]; [| by left].
  right. simpl.
  destruct (on_db w (AddNotes.lookup p) s) as [[[[| v [| ? ?]] |] [m |]] s1]; simpl;
    try by left.
  right. exists n, v. split; [done |].
  destruct (on_db w _ s1) as [[d [m |]] s2]; simpl; [done |].
  by destruct (single_row _).
Qed.

Lemma delete_ai_video_final (p : DeleteAiVideo.Params) :
  final (run w (DeleteAiVideo.deleteAiVideo env p) s) = s
  \/ final (run w (DeleteAiVideo.deleteAiVideo env p) s)
     = (on_db w (DeleteAiVideo.lookup p) s).2
  \/ exists vehicle s2,
      data (on_db w (DeleteAiVideo.lookup p) s).1 = Some [vehicle]
      /\ (s2 = (on_db w (DeleteAiVideo.lookup p) s).2
          \/ exists c, s2 = (on_s3 w c (on_db w (DeleteAiVideo.lookup p) s).2).2)
      /\ final (run w (DeleteAiVideo.deleteAiVideo env p) s)
         = (on_db w (DeleteAiVideo.write env vehicle) s2).2.
Proof.
  unfold DeleteAiVideo.deleteAiVideo.
  destruct (negb (configured env)); [by left |].
  destruct (_ =? 0)%nat; [by left |].
  destruct (1 <? _)%nat; [by left |].
  right. simpl.
  destruct (on_db w (DeleteAiVideo.lookup p) s) as [[[[| v [| ? ?]] |] [m |]] s1]; simpl;
    try by left.
  destruct (negb (truthy (col v "ai_video"))); [by left |].
  destruct (negb (truthy (col v "stock_number"))); [by left |].
  right. exists v.
  unfold DeleteAiVideo.cleanup, DeleteAiVideo.deleteFromR2.
  destruct (r2_configured env); simpl.
  - match goal with |- context [on_s3 w ?c s1] =>
      exists (on_s3 w c s1).2; split; [done |]; split; [right; by exists c |];
      destruct (on_s3 w c s1) as [[| m] s2] end; simpl;
      destruct (on_db w _ s2) as [[d [m' |]] s3]; simpl; try done;
      by destruct (single_row _).
  - exists s1. split; [done |]. split; [by left |].
    destruct (on_db w _ s1) as [[d [m' |]] s3]; simpl; [done |].
    by destruct (single_row _).
Qed.

End Finals.

Lemma quiet_table (s3 : S3Call -> S3Resp) (c : DbCall) (t : Table) :
  on_db (table_world quiet s3) c t = table_exec c t.
Proof. simpl. by destruct (table_exec c t). Qed.

Lemma select_reads_only (cols : Columns) (fs : list Filter) (o : option (string * bool))
      (lim : option Z) (t : Table) :
  (table_exec (Select cols fs o lim) t).2 = t.
Proof. simpl. destruct lim as [n |]; [by destruct (n <? 0) | done]. Qed.

Section Spared.

Variables (env : Env) (s3 : S3Call -> S3Resp) (t : Table).
Hypothesis primary_key : unique_ids t.

(** The write of a single-row handler, aimed at the [id] of a row that a
    lookup for visible rows has answered with. *)
Lemma write_by_id_spares (d : Row) (cols : Columns) (single : bool)
      (lookup_cols : list string) (fs : list Filter) (vehicle : Row) :
  "id" ∈ lookup_cols ->
  data (table_exec (Select (Cols lookup_cols) (IsNull "deleted_at" :: fs) None None) t).1
  = Some [vehicle] ->
  spares_soft_deleted
    t (table_exec (Update d [Eq "id" (col vehicle "id")] cols single) t).2.
Proof.
  intros Hid Hd. apply update_spares; [done |]. intros r Hm.
  destruct (select_visible _ _ _ _ t [vehicle] vehicle ltac:(left) Hd ltac:(left))
    as (r0 & Hr0 & Hv & ->).
  exists r0. repeat split; try done. by eapply matches_eq_id.
Qed.

Lemma add_notes_spares (p : AddNotes.Params) :
  spares_soft_deleted t (final (run (table_world quiet s3) (AddNotes.addNotes env p) t)).
Proof.
  destruct (add_notes_final (table_world quiet s3) env t p)
    as [-> | [-> | (n & v & Hd & ->)]];
    rewrite ?quiet_table in *; unfold AddNotes.lookup in *;
    rewrite ?select_reads_only; try apply spares_nothing_written.
  unfold AddNotes.lookupColumns in Hd.
  eapply (write_by_id_spares _ _ true); [| exact Hd]. by left.
Qed.

Lemma delete_ai_video_spares (p : DeleteAiVideo.Params) :
  spares_soft_deleted
    t (final (run (table_world quiet s3) (DeleteAiVideo.deleteAiVideo env p) t)).
Proof.
  destruct (delete_ai_video_final (table_world quiet s3) env t p)
    as [-> | [-> | (v & s2 & Hd & Hs & ->)]];
    rewrite ?quiet_table in *; unfold DeleteAiVideo.lookup in *;
    rewrite ?select_reads_only in *; try apply spares_nothing_written.
  assert (s2 = t) as -> by (destruct Hs as [Hs | [c Hs]]; exact Hs).
  eapply (write_by_id_spares _ _ true); [| exact Hd]. by left.
Qed.

Lemma update_vehicles_spares (p : UpdateVehicles.Params) :
  spares_soft_deleted
    t (final (run (table_world quiet s3) (UpdateVehicles.updateVehicles env p) t)).
Proof.
  destruct (configured env) eqn:Hc;
    [| unfold UpdateVehicles.updateVehicles; rewrite Hc; apply spares_nothing_written].
  destruct (size (UpdateVehicles.updateData env p) =? 1)%nat eqn:Hs;
    [unfold UpdateVehicles.updateVehicles; rewrite Hc, Hs; apply spares_nothing_written |].
  destruct (UpdateVehicles.target p) as [fs |] eqn:Ht;
    [| unfold UpdateVehicles.updateVehicles; rewrite Hc, Hs, Ht; apply spares_nothing_written].
  destruct (captured fs t) as [| v rows] eqn:Hcap.
  - unfold UpdateVehicles.updateVehicles. rewrite Hc, Hs, Ht. simpl.
    fold (captured fs t). rewrite Hcap. apply spares_nothing_written.
  - apply Nat.eqb_neq in Hs.
    rewrite (update_vehicles_race env p quiet s3 t fs Hc Hs Ht) by (by rewrite Hcap).
    simpl. unfold quiet.
    apply (update_spares _ [In "id" (UpdateVehicles.ids (captured fs t))]
                         UpdateVehicles.columns false t primary_key).
    intros r Hm. simpl in Hm. rewrite andb_true_r in Hm.
    apply andb_true_iff in Hm as [_ Hm]. apply existsb_exists in Hm as (x & Hx & He).
    apply value_eqb_eq in He. subst x. apply (captured_id fs t). by apply list_elem_of_In.
Qed.

End Spared.

Section Hidden.

Context {S : Type} (w : World S) (env : Env) (s : S).

Lemma get_vehicles_hides (p : GetVehicles.Params) (o : option (string * bool)) (lim : option Z) :
  Forall hides_soft_deleted
         (trace (run w (r ← await (GetVehicles.query p o lim); Ret (GetVehicles.respond r)) s)).
Proof.
  simpl. destruct (on_db w _ s) as [r s1]. simpl.
  repeat constructor.
Qed.

Lemma get_vehicles_plain_hides (p : GetVehicles.Params) :
  Forall hides_soft_deleted (trace (run w (GetVehicles.getVehicles env p) s)).
Proof.
  unfold GetVehicles.getVehicles.
  destruct (negb (configured env)); [constructor | apply get_vehicles_hides].
Qed.

Lemma get_vehicles_sorted_hides (p : GetVehicles.Params)
      (sortBy sortOrder : option string) (limit : option Z) :
  Forall hides_soft_deleted
         (trace (run w (GetVehicles.getVehiclesSorted env p sortBy sortOrder limit) s)).
Proof.
  unfold GetVehicles.getVehiclesSorted.
  destruct (negb (configured env)); [constructor | apply get_vehicles_hides].
Qed.

Lemma update_vehicles_hides (p : UpdateVehicles.Params) :
  Forall hides_soft_deleted (trace (run w (UpdateVehicles.updateVehicles env p) s)).
Proof.
  destruct (update_vehicles_trace w env p s)
    as [-> | (fs & found & _ & [-> | (rows & answer & _ & _ & _ & ->)])];
    repeat constructor.
Qed.

Lemma add_notes_hides (p : AddNotes.Params) :
  Forall hides_soft_deleted (trace (run w (AddNotes.addNotes env p) s)).
Proof.
  destruct (add_notes_trace w env p s)
    as [-> | (found & [-> | (n & v & answer & _ & _ & _ & ->)])];
    repeat constructor.
Qed.

Lemma delete_ai_video_hides (p : DeleteAiVideo.Params) :
  Forall hides_soft_deleted (trace (run w (DeleteAiVideo.deleteAiVideo env p) s)).
Proof.
  destruct (delete_ai_video_trace w env p s)
    as [-> | (found & [-> | (v & answer & _ & _ & [-> | (c & sent & ->)])])];
    repeat constructor.
Qed.

End Hidden.

Lemma get_vehicles_visible (env : Env) (s3 : S3Call -> S3Resp) (t : Table)
      (p : GetVehicles.Params) (rows : list Row) (row : Row) :
  result (run (table_world quiet s3) (GetVehicles.getVehicles env p) t)
  = GetVehicles.Found rows ->
  row ∈ rows ->
  row ∈ t /\ col row "deleted_at" = VNull.
Proof.
  unfold GetVehicles.getVehicles.
  destruct (negb (configured env)); [discriminate |].
  simpl. unfold GetVehicles.respond. simpl.
  destruct (List.filter _ t) as [| r0 rest] eqn:Hf; simpl; [discriminate |].
  intros [= <-] Hrow.
  assert (row ∈ List.filter (matches (IsNull "deleted_at" :: GetVehicles.filters p)) t) as Hin.
  { rewrite Hf. by rewrite list_fmap_id in Hrow. }
  apply elem_of_filter_matches in Hin as [Hin Hm].
  split; [done | by eapply visible_of_matches].
Qed.

(** delete-vehicle looks a row up by [vin] or [stock_number] alone. *)
Lemma delete_vehicle_sees_through (p : DeleteVehicle.Params) :
  DeleteVehicle.lookup p
  = Select (Cols ["id"; "year"; "make"; "model"; "vin"; "stock_number"])
           (DeleteVehicle.identifierFilter p) None None
  /\ (IsNull "deleted_at" ∉ DeleteVehicle.identifierFilter p)
  /\ (forall (r : Row) (d : Value),
         matches (DeleteVehicle.identifierFilter p) (<["deleted_at" := d]> r)
         = matches (DeleteVehicle.identifierFilter p) r).
Proof.
  split; [reflexivity |]. unfold DeleteVehicle.identifierFilter.
  destruct (truthyS (DeleteVehicle.vin p)); [| destruct (truthyS (DeleteVehicle.stockNumber p))].
  - split; [by intros [[=] | []%elem_of_nil]%elem_of_cons |].
    intros r d. simpl. unfold col. by rewrite lookup_insert_ne.
  - split; [by intros [[=] | []%elem_of_nil]%elem_of_cons |].
    intros r d. simpl. unfold col. by rewrite lookup_insert_ne.
  - split; [by intros []%elem_of_nil | done].
Qed.


(** delete-vehicle aimed at the VIN of the soft-deleted vehicle 4 finds it
    and deletes it; delete-ai-video aimed at the same VIN finds nothing. *)
Example delete_vehicle_finds_a_soft_deleted_row :
  (exists info v,
      result (run (table_world quiet obliging)
                  (DeleteVehicle.deleteVehicle deployed
                     (delete_request (Some "ZFF00000000000004") None)) showroom)
      = DeleteVehicle.Deleted info v)
  /\ (fun r => col r "id")
       <$> final (run (table_world quiet obliging)
                      (DeleteVehicle.deleteVehicle deployed
                         (delete_request (Some "ZFF00000000000004") None)) showroom)
     = [VNum 1; VNum 2; VNum 3]
  /\ result (run (table_world quiet obliging)
                 (DeleteAiVideo.deleteAiVideo deployed
                    (video_request None (Some "ZFF00000000000004"))) showroom)
     = DeleteAiVideo.NotFound "VIN: ZFF00000000000004".
Proof.
  split; [eexists _, _; vm_compute; reflexivity |].
  split; vm_compute; reflexivity.
Qed.

(** ** C8: delete-ai-video, twice *)

Lemma filter_fmap_stable {A : Type} (P : A -> bool) (f : A -> A) (l : list A) :
  (forall x, P (f x) = P x) -> List.filter P (f <$> l) = f <$> List.filter P l.
Proof.
  intros Hf. induction l as [| x l IH]; simpl; [done |].
  rewrite Hf. destruct (P x); simpl; [f_equal |]; exact IH.
Qed.

(** An update that assigns none of the columns a lookup reads does not
    change what the lookup finds. *)
Lemma video_lookup_after_write (p : DeleteAiVideo.Params) (d r : Row) :
  d !! "deleted_at" = None -> d !! "id" = None -> d !! "vin" = None ->
  d !! "stock_number" = None ->
  matches (IsNull "deleted_at" :: DeleteAiVideo.identifierFilter p) (assign d r)
  = matches (IsNull "deleted_at" :: DeleteAiVideo.identifierFilter p) r.
Proof.
  intros H1 H2 H3 H4. unfold DeleteAiVideo.identifierFilter.
  destruct (truthyN _); [| destruct (truthyS _); [| destruct (truthyS _)]];
    simpl; by rewrite ?col_assign_other.
Qed.

Lemma cleared_inv {S : Type} (w : World S) (env : Env) (p : DeleteAiVideo.Params) (s : S)
      (info : string) (uv : Row) (url : Value) (r2 : option DeleteAiVideo.R2Result) :
  result (run w (DeleteAiVideo.deleteAiVideo env p) s) = DeleteAiVideo.Cleared info uv url r2 ->
  configured env = true
  /\ identifierCount (DeleteAiVideo.candidates p) = 1%nat
  /\ exists vehicle s1,
      on_db w (DeleteAiVideo.lookup p) s = (ok [vehicle], s1)
      /\ truthy (col vehicle "ai_video") = true
      /\ truthy (col vehicle "stock_number") = true.
Proof.
  unfold DeleteAiVideo.deleteAiVideo.
  destruct (configured env); simpl; [| discriminate].
  destruct (_ =? 0)%nat eqn:H0; [discriminate |].
  destruct (1 <? _)%nat eqn:H1; [discriminate |].
  apply Nat.eqb_neq in H0. apply Nat.ltb_ge in H1.
  simpl.
  destruct (on_db w (DeleteAiVideo.lookup p) s) as [[[[| v [| ? ?]] |] [m |]] s1]; simpl;
    try discriminate.
  destruct (truthy (col v "ai_video")) eqn:Hv; simpl; [| discriminate].
  destruct (truthy (col v "stock_number")) eqn:Hn; simpl; [| discriminate].
  intros _. split; [done |]. split; [lia |]. by exists v, s1.
Qed.

Lemma nothing_to_delete (env : Env) (p : DeleteAiVideo.Params) (s3 : S3Call -> S3Resp)
      (t : Table) (vehicle : Row) :
  configured env = true ->
  identifierCount (DeleteAiVideo.candidates p) = 1%nat ->
  data (table_exec (DeleteAiVideo.lookup p) t).1 = Some [vehicle] ->
  col vehicle "ai_video" = VNull ->
  run (table_world quiet s3) (DeleteAiVideo.deleteAiVideo env p) t
  = {| result := DeleteAiVideo.NoAiVideo (vehicleInfo vehicle) vehicle;
       final := t;
       trace := [DbEvent (DeleteAiVideo.lookup p) (ok [vehicle])] |}.
Proof.
  intros Hc H1 Hd Hv. unfold DeleteAiVideo.deleteAiVideo. rewrite Hc, H1. simpl.
  simpl in Hd. injection Hd as Hd. rewrite Hd. simpl. rewrite Hv. reflexivity.
Qed.

Lemma update_effect (d : Row) (fs : list Filter) (cols : Columns) (single : bool)
      (t tf : Table) (answer : DbResp) :
  table_exec (Update d fs cols single) t = (answer, tf) ->
  error answer = None ->
  tf = (fun r => if matches fs r then assign d r else r) <$> t
  /\ (single = true -> length (List.filter (matches fs) t) = 1%nat).
Proof.
  simpl. destruct single; simpl.
  - destruct (length _ =? 1)%nat eqn:Hn; simpl; intros [= <- <-]; [| discriminate].
    intros _. split; [done |]. intros _. by apply Nat.eqb_eq.
  - intros [= <- <-] _. split; [done | discriminate].
Qed.

Lemma matches_eq (c : string) (v : Value) (r : Row) :
  matches [Eq c v] r = true <-> col r c = v /\ v <> VNull.
Proof.
  simpl. rewrite andb_true_r, andb_true_iff, value_eqb_eq.
  split; intros [H1 H2].
  - split; [done |]. rewrite <- H2. by destruct (col r c).
  - split; [| done]. rewrite H1. by destruct v.
Qed.

(** On the table: after the write of delete-ai-video has gone through, the
    same lookup finds the same row, now without its video. *)
Lemma lookup_after_clearing (env : Env) (p : DeleteAiVideo.Params) (t tf : Table)
      (vehicle : Row) (answer : DbResp) :
  data (table_exec (DeleteAiVideo.lookup p) t).1 = Some [vehicle] ->
  table_exec (DeleteAiVideo.write env vehicle) t = (answer, tf) ->
  error answer = None ->
  exists vehicle',
    data (table_exec (DeleteAiVideo.lookup p) tf).1 = Some [vehicle']
    /\ col vehicle' "ai_video" = VNull.
Proof.
  intros Hl Hw He.
  destruct (update_effect _ _ _ _ _ _ _ Hw He) as [-> Hone]. specialize (Hone eq_refl).
  unfold DeleteAiVideo.lookup in *.
  set (cols := ["id"; "year"; "make"; "model"; "vin"; "stock_number"; "ai_video"]) in *.
  set (fs := IsNull "deleted_at" :: DeleteAiVideo.identifierFilter p) in *.
  cbn [table_exec ordered fst data ok] in Hl |- *. injection Hl as Hl.
  destruct (List.filter (matches fs) t) as [| r0 [| r1 rest]] eqn:Hfilt;
    cbn [fmap list_fmap] in Hl; try discriminate.
  injection Hl as <-.
  assert (col (project (Cols cols) r0) "id" = col r0 "id") as Hid
      by (apply col_project; left).
  unfold project in Hid. rewrite Hid in *.
  destruct (List.filter (matches [Eq "id" (col r0 "id")]) t) as [| r1 [| ? ?]] eqn:Hhit;
    try discriminate Hone.
  assert (r1 ∈ List.filter (matches [Eq "id" (col r0 "id")]) t) as Hr1
      by (rewrite Hhit; left).
  apply elem_of_filter_matches in Hr1 as [_ [_ Hnn]%matches_eq].
  assert (matches [Eq "id" (col r0 "id")] r0 = true) as Hm by (by apply matches_eq).
  rewrite filter_fmap_stable.
  - rewrite Hfilt. cbn [fmap list_fmap]. rewrite Hm. eexists. split; [reflexivity |].
    rewrite (col_project cols _ "ai_video") by (do 6 right; left).
    by apply col_assign.
  - intros x. destruct (matches [Eq "id" (col r0 "id")] x); [| done].
    by apply video_lookup_after_write.
Qed.

(** C8: on the table, once a call of delete-ai-video has succeeded, the same
    call made again finds the row without a video: it returns the
    does-not-have-an-AI-video message, its lookup is the only call it makes
    (no deletion in the bucket, no update), and the table stays as the first
    call left it. *)
Theorem C8_delete_ai_video_twice (env : Env) (p : DeleteAiVideo.Params) (t : Table)
        (s3 s3' : S3Call -> S3Resp)
        (info : string) (uv : Row) (url : Value) (r2 : option DeleteAiVideo.R2Result) :
  result (run (table_world quiet s3) (DeleteAiVideo.deleteAiVideo env p) t)
  = DeleteAiVideo.Cleared info uv url r2 ->
  exists vehicle,
    run (table_world quiet s3') (DeleteAiVideo.deleteAiVideo env p)
        (final (run (table_world quiet s3) (DeleteAiVideo.deleteAiVideo env p) t))
    = {| result := DeleteAiVideo.NoAiVideo (vehicleInfo vehicle) vehicle;
         final := final (run (table_world quiet s3) (DeleteAiVideo.deleteAiVideo env p) t);
         trace := [DbEvent (DeleteAiVideo.lookup p) (ok [vehicle])] |}
    /\ col vehicle "ai_video" = VNull.
Proof.
  intros Hres.
  destruct (cleared_inv _ _ _ _ _ _ _ _ Hres) as (Hc & H1 & v & s1 & Hf & Hv & Hn).
  assert (s1 = t /\ data (table_exec (DeleteAiVideo.lookup p) t).1 = Some [v]) as [-> Hl].
  { rewrite quiet_table in Hf.
    pose proof (select_reads_only _ _ None None t : (table_exec (DeleteAiVideo.lookup p) t).2 = t)
      as Hs.
    rewrite Hf in Hs |- *. by split. }
  assert (exists r2' answer tf,
             table_exec (DeleteAiVideo.write env v) t = (answer, tf)
             /\ result (run (table_world quiet s3) (DeleteAiVideo.deleteAiVideo env p) t)
                = concluded v r2' answer
             /\ final (run (table_world quiet s3) (DeleteAiVideo.deleteAiVideo env p) t) = tf)
    as (r2' & answer & tf & Hw & Hr & Hfin).
  { destruct (r2_configured env) eqn:Hr.
    - destruct (delete_ai_video_attempted _ env p t t v Hc H1 Hf Hv Hn Hr)
        as (c & sent & s2 & answer & tf & r2' & Hs & _ & Hw & Hrun & _).
      injection Hs as _ <-. rewrite quiet_table in Hw.
      exists (Some r2'), answer, tf. by rewrite Hrun.
    - destruct (delete_ai_video_skipped _ env p t t v Hc H1 Hf Hv Hn Hr)
        as (answer & tf & Hw & Hrun).
      rewrite quiet_table in Hw.
      exists None, answer, tf. by rewrite Hrun. }
  rewrite Hfin. rewrite Hr in Hres. unfold concluded in Hres.
  destruct (error answer) eqn:He; [discriminate |].
  destruct (lookup_after_clearing env p t tf v answer Hl Hw He) as (v' & Hl' & Hv').
  exists v'. split; [| done]. by apply nothing_to_delete.
Qed.

Lemma C8_delete_ai_video_twice_witness :
  exists vehicle,
    run (table_world quiet refusing)
        (DeleteAiVideo.deleteAiVideo deployed_with_r2 (video_request (Some 1) None))
        (final (run (table_world quiet obliging)
                    (DeleteAiVideo.deleteAiVideo deployed_with_r2 (video_request (Some 1) None))
                    showroom))
    = {| result := DeleteAiVideo.NoAiVideo (vehicleInfo vehicle) vehicle;
         final := final (run (table_world quiet obliging)
                             (DeleteAiVideo.deleteAiVideo deployed_with_r2
                                (video_request (Some 1) None))
                             showroom);
         trace := [DbEvent (DeleteAiVideo.lookup (video_request (Some 1) None))
                           (ok [vehicle])] |}
    /\ col vehicle "ai_video" = VNull.
Proof.
  let first_call :=
    eval vm_compute in
      (result (run (table_world quiet obliging)
                   (DeleteAiVideo.deleteAiVideo deployed_with_r2 (video_request (Some 1) None))
                   showroom)) in
  match first_call with
  | DeleteAiVideo.Cleared ?info ?uv ?url ?r2 =>
      apply (C8_delete_ai_video_twice deployed_with_r2 (video_request (Some 1) None) showroom
                                      obliging refusing info uv url r2)
  end.
  vm_compute. reflexivity.
Defined.

(** ** Text filters *)

Section Patterns.

Implicit Types (a b c : ascii) (p s v : list ascii).

Lemma like_any a p s :
  is_any a = true ->
  like (a :: p) s
  = like p s || match s with [] => false | _ :: s' => like (a :: p) s' end.
Proof. intros Ha. destruct s; simpl; rewrite Ha; reflexivity. Qed.

Lemma like_char a p s :
  is_meta a = false ->
  like (a :: p) s
  = match s with [] => false | c :: s' => Ascii.eqb a c && like p s' end.
Proof.
  unfold is_meta. intros [[Ha Ho]%orb_false_iff He]%orb_false_iff.
  simpl. by rewrite Ha, Ho, He.
Qed.

Lemma like_any_alone a s : is_any a = true -> like [a] s = true.
Proof.
  intros Ha. induction s as [| c s IH]; rewrite like_any by done; [done |].
  by rewrite IH, orb_true_r.
Qed.

Lemma like_prefix v p s :
  forallb (fun a => negb (is_meta a)) v = true ->
  like (v ++ p) s = starts_with v s && like p (drop (length v) s).
Proof.
  revert s. induction v as [| a v IH]; intros s Hv; [done |].
  simpl in Hv. apply andb_true_iff in Hv as [Ha%negb_true_iff Hv].
  change ((a :: v) ++ p)%list with (a :: (v ++ p))%list. rewrite like_char by done.
  destruct s as [| c s]; simpl; [done |].
  by rewrite IH, andb_assoc.
Qed.

(** A literal between two wildcards matches exactly the strings in which
    it occurs. *)
Lemma like_between a b v s :
  is_any a = true -> is_any b = true ->
  forallb (fun a => negb (is_meta a)) v = true ->
  like (a :: v ++ [b]) s = occurs_in v s.
Proof.
  intros Ha Hb Hv. induction s as [| c s IH]; rewrite like_any by done.
  - rewrite like_prefix, like_any_alone, andb_true_r by done. simpl.
    by rewrite orb_false_r.
  - rewrite IH. by rewrite like_prefix, like_any_alone, andb_true_r by done.
Qed.

Lemma starts_with_spec v s : starts_with v s = true <-> exists s', s = (v ++ s')%list.
Proof.
  revert s. induction v as [| a v IH]; intros s; simpl.
  - split; [by exists s | done].
  - destruct s as [| c s]; [split; [done | by intros [? [=]]] |].
    rewrite andb_true_iff, IH. split.
    + intros [->%Ascii.eqb_eq [s' ->]]. by exists s'.
    + intros [s' [= -> ->]]. split; [apply Ascii.eqb_refl | by exists s'].
Qed.

(** [occurs_in] is containment. *)
Lemma occurs_in_spec v s : occurs_in v s = true <-> exists s1 s2, s = (s1 ++ v ++ s2)%list.
Proof.
  induction s as [| c s IH]; simpl.
  - rewrite orb_false_r, starts_with_spec. split.
    + intros [s' ->]. by exists [], s'.
    + intros (s1 & s2 & H). destruct s1; [by exists s2 | done].
  - rewrite orb_true_iff, starts_with_spec, IH. split.
    + intros [[s' ->] | (s1 & s2 & ->)]; [by exists [], s' | by exists (c :: s1), s2].
    + intros (s1 & s2 & H). destruct s1 as [| c' s1]; simpl in H.
      * left. by exists s2.
      * injection H as -> ->. right. by exists s1, s2.
Qed.

End Patterns.

Lemma lower_meta (a : ascii) : is_meta (lower a) = is_meta a.
Proof. destruct a as [[] [] [] [] [] [] [] []]; reflexivity. Qed.

Lemma chars_app (x y : string) : chars (x +:+ y) = (chars x ++ chars y)%list.
Proof. induction x as [| a x IH]; simpl; [done | by rewrite IH]. Qed.

Lemma fold_case_app (x y : string) : fold_case (x +:+ y) = (fold_case x ++ fold_case y)%list.
Proof. unfold fold_case. by rewrite chars_app, map_app. Qed.

Lemma fold_case_literal (v : string) :
  literal v = true -> forallb (fun a => negb (is_meta a)) (fold_case v) = true.
Proof.
  unfold literal, fold_case. induction (chars v) as [| a l IH]; simpl; [done |].
  rewrite lower_meta. intros [-> H]%andb_true_iff. by apply IH.
Qed.

(** For a value without pattern characters, the wrapped pattern is
    case-insensitive containment. *)
Lemma ilike_wrapped (v s : string) :
  literal v = true -> ilike ("%" +:+ v +:+ "%") s = contains_ci v s.
Proof.
  intros Hv. unfold ilike, contains_ci.
  rewrite !fold_case_app.
  change (fold_case "%") with ["%"%char].
  apply (like_between "%" "%"); [done | done | by apply fold_case_literal].
Qed.

(** Each supplied text parameter puts its wrapped pattern on the query. *)
Lemma text_filter_issued (p : GetVehicles.Params) (c v : string) :
  (c, Some v) ∈ text_filters p -> v <> "" ->
  Ilike c ("%" +:+ v +:+ "%") ∈ GetVehicles.filters p.
Proof.
  intros H Hv. apply list_elem_of_In, in_concat.
  exists (GetVehicles.text c (Some v)). split.
  - unfold text_filters in H.
    repeat (apply elem_of_cons in H as [[= -> ->] | H];
            [simpl; repeat (first [left; reflexivity | right]) |]).
    by apply elem_of_nil in H.
  - destruct v; [done |]. by left.
Qed.

Lemma get_vehicles_result (env : Env) (s3 : S3Call -> S3Resp) (t : Table)
      (p : GetVehicles.Params) :
  configured env = true ->
  result (run (table_world quiet s3) (GetVehicles.getVehicles env p) t)
  = GetVehicles.respond
      (ok (List.filter (matches (IsNull "deleted_at" :: GetVehicles.filters p)) t)).
Proof.
  intros Hc. unfold GetVehicles.getVehicles. rewrite Hc. simpl.
  by rewrite list_fmap_id.
Qed.

Lemma found_rows (rows found : list Row) :
  GetVehicles.respond (ok rows) = GetVehicles.Found found -> found = rows.
Proof. unfold GetVehicles.respond. simpl. destruct rows; [discriminate | by intros [= <-]]. Qed.


(** The store reads pattern characters in the value itself as wildcards:
    such a value matches more than the texts that contain it. *)
Example pattern_characters_are_wildcards :
  literal "f_rrari" = false
  /\ ilike "%f_rrari%" "Ferrari" = true
  /\ contains_ci "f_rrari" "Ferrari" = false.
Proof. repeat split. Qed.

(** ** Scenarios *)

(** [add-notes({ id: 5, notes: "" })] on a row that has notes: the notes
    become [null] and the message says "deleted". *)
Example add_notes_empty_deletes :
  (exists info v,
      result (run (table_world quiet obliging)
                  (AddNotes.addNotes deployed (notes_request (Some 5) None (Some (Some ""))))
                  lot)
      = AddNotes.Written "deleted" info v "No notes")
  /\ (fun r => col r "notes")
       <$> final (run (table_world quiet obliging)
                      (AddNotes.addNotes deployed (notes_request (Some 5) None (Some (Some ""))))
                      lot)
     = [VNull; VNull].
Proof. split; [eexists _, _ |]; vm_compute; reflexivity. Qed.

(** [delete-ai-video({ id: 7 })] on a row with a video and no stock number:
    the structural error, no call to the bucket, no update. *)
Example delete_ai_video_without_stock_number :
  (exists info v,
      result (run (table_world quiet obliging)
                  (DeleteAiVideo.deleteAiVideo deployed_with_r2 (video_request (Some 7) None))
                  lot)
      = DeleteAiVideo.NoStockNumber info v)
  /\ length (trace (run (table_world quiet obliging)
                        (DeleteAiVideo.deleteAiVideo deployed_with_r2
                           (video_request (Some 7) None)) lot)) = 1%nat
  /\ final (run (table_world quiet obliging)
                (DeleteAiVideo.deleteAiVideo deployed_with_r2 (video_request (Some 7) None))
                lot) = lot.
Proof. split; [eexists _, _; vm_compute; reflexivity |]. split; reflexivity. Qed.

(** [update-vehicles({ vin: "WP0AB2A99EXXXXXXX", price: 250000 })] on the
    showroom, where one visible row has that VIN: that row gets the price and
    the time of the call. *)
Example update_vehicles_by_vin_sets_the_price :
  (fun r => (col r "id", col r "price", col r "updated_at"))
    <$> final (run (table_world quiet obliging)
                   (UpdateVehicles.updateVehicles
                      deployed
                      (update_request None (Some "WP0AB2A99EXXXXXXX") None None
                                      (Some 250000) None))
                   showroom)
  = [ (VNum 1, VNum 250000, VStr "2025-06-01T12:00:00.000Z");
      (VNum 2, VNull, VNull); (VNum 3, VNull, VNull); (VNum 4, VNull, VNull) ].
Proof. vm_compute. reflexivity. Qed.

(** * Further properties *)

(** ** The credentials guard *)

(** X1: when the Supabase URL or the service-role key is missing or empty,
    each handler answers with the credentials message at once: it builds no
    query and calls neither the store nor the bucket, whatever the
    request. *)
Theorem X1_missing_credentials_stop_every_handler (env : Env) :
  configured env = false ->
  (forall p, GetVehicles.getVehicles env p = Ret GetVehicles.MissingCredentials)
  /\ (forall p sortBy sortOrder limit,
         GetVehicles.getVehiclesSorted env p sortBy sortOrder limit
         = Ret GetVehicles.MissingCredentials)
  /\ (forall p, UpdateVehicles.updateVehicles env p = Ret UpdateVehicles.MissingCredentials)
  /\ (forall p, AddNotes.addNotes env p = Ret AddNotes.MissingCredentials)
  /\ (forall p, DeleteVehicle.deleteVehicle env p = Ret DeleteVehicle.MissingCredentials)
  /\ (forall p, DeleteAiVideo.deleteAiVideo env p = Ret DeleteAiVideo.MissingCredentials)
  /\ AddNotes.message AddNotes.MissingCredentials
     = DeleteVehicle.message DeleteVehicle.MissingCredentials
  /\ DeleteVehicle.message DeleteVehicle.MissingCredentials
     = DeleteAiVideo.message DeleteAiVideo.MissingCredentials.
Proof.
  intros Hc.
  unfold GetVehicles.getVehicles, GetVehicles.getVehiclesSorted,
    UpdateVehicles.updateVehicles, AddNotes.addNotes, DeleteVehicle.deleteVehicle,
    DeleteAiVideo.deleteAiVideo.
  rewrite Hc. simpl. repeat split.
Qed.

Lemma X1_missing_credentials_stop_every_handler_witness :
  UpdateVehicles.updateVehicles undeployed update_by_id_and_vin
  = Ret UpdateVehicles.MissingCredentials.
Proof.
  pose proof (X1_missing_credentials_stop_every_handler undeployed eq_refl)
    as (_ & _ & H & _).
  apply H.
Defined.

(** ** Validation of the single-row handlers *)

Section Reach.

Variable env : Env.
Hypothesis credentials : configured env = true.

Lemma delete_vehicle_no_identifier (p : DeleteVehicle.Params) :
  identifierCount [ofStr (DeleteVehicle.vin p); ofStr (DeleteVehicle.stockNumber p)] = 0%nat ->
  DeleteVehicle.deleteVehicle env p = Ret DeleteVehicle.NoIdentifier.
Proof.
  intros H. unfold DeleteVehicle.deleteVehicle. rewrite credentials.
  unfold identifierCount, truthyS in *. simpl in *.
  destruct (truthy (ofStr (DeleteVehicle.vin p))),
           (truthy (ofStr (DeleteVehicle.stockNumber p))); simpl in *; (reflexivity || lia).
Qed.

Lemma delete_vehicle_reaches (p : DeleteVehicle.Params) :
  identifierCount [ofStr (DeleteVehicle.vin p); ofStr (DeleteVehicle.stockNumber p)] = 1%nat ->
  exists k, DeleteVehicle.deleteVehicle env p = Db (DeleteVehicle.lookup p) k.
Proof.
  intros H. unfold DeleteVehicle.deleteVehicle. rewrite credentials.
  unfold identifierCount, truthyS in *. simpl in *.
  destruct (truthy (ofStr (DeleteVehicle.vin p))),
           (truthy (ofStr (DeleteVehicle.stockNumber p))); simpl in *;
    first [lia | eexists; reflexivity].
Qed.

Lemma add_notes_reaches (p : AddNotes.Params) (n : option string) :
  identifierCount (AddNotes.candidates p) = 1%nat ->
  AddNotes.notes p = Some n ->
  exists k, AddNotes.addNotes env p = Db (AddNotes.lookup p) k.
Proof.
  intros H Hn. unfold AddNotes.addNotes. rewrite credentials, H, Hn. simpl.
  eexists. reflexivity.
Qed.

Lemma add_notes_without_notes (p : AddNotes.Params) :
  identifierCount (AddNotes.candidates p) = 1%nat ->
  AddNotes.notes p = None ->
  AddNotes.addNotes env p = Ret AddNotes.NotesMissing.
Proof. intros H Hn. unfold AddNotes.addNotes. by rewrite credentials, H, Hn. Qed.

Lemma delete_ai_video_reaches (p : DeleteAiVideo.Params) :
  identifierCount (DeleteAiVideo.candidates p) = 1%nat ->
  exists k, DeleteAiVideo.deleteAiVideo env p = Db (DeleteAiVideo.lookup p) k.
Proof.
  intros H. unfold DeleteAiVideo.deleteAiVideo. rewrite credentials, H. simpl.
  eexists. reflexivity.
Qed.

End Reach.

(** X2: with the store credentials set, a request to add-notes,
    delete-ai-video or delete-vehicle in which no identifier is supplied, or
    every supplied identifier is [0] or empty, is answered with the
    handler's no-identifier error without any call to the store; for
    add-notes this comes before the check that [notes] is supplied. *)
Theorem X2_no_identifier (env : Env) :
  configured env = true ->
  (forall p, identifierCount (AddNotes.candidates p) = 0%nat ->
             AddNotes.addNotes env p = Ret AddNotes.NoIdentifier)
  /\ (forall p, identifierCount (DeleteAiVideo.candidates p) = 0%nat ->
                DeleteAiVideo.deleteAiVideo env p = Ret DeleteAiVideo.NoIdentifier)
  /\ (forall p, identifierCount [ofStr (DeleteVehicle.vin p);
                                 ofStr (DeleteVehicle.stockNumber p)] = 0%nat ->
                DeleteVehicle.deleteVehicle env p = Ret DeleteVehicle.NoIdentifier).
Proof.
  intros Hc. split; [| split]; intros p H.
  - by apply add_notes_no_identifier.
  - by apply delete_ai_video_no_identifier.
  - by apply delete_vehicle_no_identifier.
Qed.

Lemma X2_no_identifier_witness :
  DeleteVehicle.deleteVehicle deployed (delete_request (Some "") None)
  = Ret DeleteVehicle.NoIdentifier
  /\ AddNotes.addNotes deployed (notes_request None (Some "") None)
     = Ret AddNotes.NoIdentifier.
Proof.
  pose proof (X2_no_identifier deployed eq_refl) as (Ha & _ & Hd).
  split; [apply Hd | apply Ha]; reflexivity.
Defined.

Lemma add_notes_one_identifier (p : AddNotes.Params) :
  identifierCount (AddNotes.candidates p) = 1%nat ->
  exists c v, AddNotes.identifierFilter p = [Eq c v]
              /\ truthy v = true /\ v ∈ AddNotes.candidates p.
Proof.
  unfold identifierCount, AddNotes.candidates, AddNotes.identifierFilter, truthyN, truthyS.
  simpl.
  destruct (truthy (ofNum (AddNotes.id p))) eqn:H1,
           (truthy (ofStr (AddNotes.vin p))) eqn:H2,
           (truthy (ofStr (AddNotes.stockNumber p))) eqn:H3; simpl; intros H;
    try lia; eexists _, _; (split; [reflexivity |]); (split; [eassumption |]);
    repeat first [by left | right].
Qed.

Lemma delete_ai_video_one_identifier (p : DeleteAiVideo.Params) :
  identifierCount (DeleteAiVideo.candidates p) = 1%nat ->
  exists c v, DeleteAiVideo.identifierFilter p = [Eq c v]
              /\ truthy v = true /\ v ∈ DeleteAiVideo.candidates p.
Proof.
  unfold identifierCount, DeleteAiVideo.candidates, DeleteAiVideo.identifierFilter,
    truthyN, truthyS.
  simpl.
  destruct (truthy (ofNum (DeleteAiVideo.id p))) eqn:H1,
           (truthy (ofStr (DeleteAiVideo.vin p))) eqn:H2,
           (truthy (ofStr (DeleteAiVideo.stockNumber p))) eqn:H3; simpl; intros H;
    try lia; eexists _, _; (split; [reflexivity |]); (split; [eassumption |]);
    repeat first [by left | right].
Qed.

Lemma delete_vehicle_one_identifier (p : DeleteVehicle.Params) :
  identifierCount [ofStr (DeleteVehicle.vin p); ofStr (DeleteVehicle.stockNumber p)] = 1%nat ->
  exists c v, DeleteVehicle.identifierFilter p = [Eq c v]
              /\ truthy v = true
              /\ v ∈ [ofStr (DeleteVehicle.vin p); ofStr (DeleteVehicle.stockNumber p)].
Proof.
  unfold identifierCount, DeleteVehicle.identifierFilter, truthyS. simpl.
  destruct (truthy (ofStr (DeleteVehicle.vin p))) eqn:H2,
           (truthy (ofStr (DeleteVehicle.stockNumber p))) eqn:H3; simpl; intros H;
    try lia; eexists _, _; (split; [reflexivity |]); (split; [eassumption |]);
    repeat first [by left | right].
Qed.

(** X3: with the store credentials set, add-notes calls the store exactly
    when one identifier is supplied (non-zero, non-empty) and [notes] is
    supplied; delete-ai-video and delete-vehicle exactly when one identifier
    is supplied.  The first call is then the lookup, whose only predicate
    besides visibility is equality on that one identifier: a single-row
    handler never looks up without an identifier.  add-notes with one
    identifier and no [notes] answers with its notes-missing error. *)
Theorem X3_single_row_handlers_reach_the_store (env : Env) :
  configured env = true ->
  (forall p, (exists k, AddNotes.addNotes env p = Db (AddNotes.lookup p) k)
             <-> identifierCount (AddNotes.candidates p) = 1%nat
                 /\ AddNotes.notes p <> None)
  /\ (forall p, (exists k, DeleteAiVideo.deleteAiVideo env p
                           = Db (DeleteAiVideo.lookup p) k)
                <-> identifierCount (DeleteAiVideo.candidates p) = 1%nat)
  /\ (forall p, (exists k, DeleteVehicle.deleteVehicle env p
                           = Db (DeleteVehicle.lookup p) k)
                <-> identifierCount [ofStr (DeleteVehicle.vin p);
                                     ofStr (DeleteVehicle.stockNumber p)] = 1%nat)
  /\ (forall p, identifierCount (AddNotes.candidates p) = 1%nat ->
                AddNotes.notes p = None ->
                AddNotes.addNotes env p = Ret AddNotes.NotesMissing)
  /\ (forall p, identifierCount (AddNotes.candidates p) = 1%nat ->
                exists c v, AddNotes.identifierFilter p = [Eq c v]
                            /\ truthy v = true /\ v ∈ AddNotes.candidates p)
  /\ (forall p, identifierCount (DeleteAiVideo.candidates p) = 1%nat ->
                exists c v, DeleteAiVideo.identifierFilter p = [Eq c v]
                            /\ truthy v = true /\ v ∈ DeleteAiVideo.candidates p)
  /\ (forall p, identifierCount [ofStr (DeleteVehicle.vin p);
                                 ofStr (DeleteVehicle.stockNumber p)] = 1%nat ->
                exists c v, DeleteVehicle.identifierFilter p = [Eq c v]
                            /\ truthy v = true
                            /\ v ∈ [ofStr (DeleteVehicle.vin p);
                                    ofStr (DeleteVehicle.stockNumber p)]).
Proof.
  intros Hc.
  split; [| split; [| split; [| split; [| split; [| split]]]]].
  - intros p. split.
    + intros [k Hk].
      destruct (identifierCount (AddNotes.candidates p)) as [| [| n]] eqn:Hn.
      * rewrite add_notes_no_identifier in Hk by done. discriminate.
      * split; [done |]. intros Hnotes.
        rewrite add_notes_without_notes in Hk by done. discriminate.
      * rewrite add_notes_ambiguous in Hk by (done || lia). discriminate.
    + intros [H Hn]. destruct (AddNotes.notes p) as [n |] eqn:Hnotes; [| done].
      by eapply add_notes_reaches.
  - intros p. split.
    + intros [k Hk].
      destruct (identifierCount (DeleteAiVideo.candidates p)) as [| [| n]] eqn:Hn.
      * rewrite delete_ai_video_no_identifier in Hk by done. discriminate.
      * done.
      * rewrite delete_ai_video_ambiguous in Hk by (done || lia). discriminate.
    + by apply delete_ai_video_reaches.
  - intros p. split.
    + intros [k Hk].
      destruct (identifierCount _) as [| [| n]] eqn:Hn.
      * rewrite delete_vehicle_no_identifier in Hk by done. discriminate.
      * done.
      * rewrite delete_vehicle_ambiguous in Hk by (done || lia). discriminate.
    + by apply delete_vehicle_reaches.
  - intros p. by apply add_notes_without_notes.
  - apply add_notes_one_identifier.
  - apply delete_ai_video_one_identifier.
  - apply delete_vehicle_one_identifier.
Qed.

Lemma X3_single_row_handlers_reach_the_store_witness :
  AddNotes.addNotes deployed (notes_request (Some 5) None None) = Ret AddNotes.NotesMissing
  /\ exists k, DeleteVehicle.deleteVehicle deployed (delete_request None (Some "S-1"))
               = Db (DeleteVehicle.lookup (delete_request None (Some "S-1"))) k.
Proof.
  pose proof (X3_single_row_handlers_reach_the_store deployed eq_refl)
    as (_ & _ & Hd & Hn & _).
  split; [apply Hn; reflexivity | apply Hd; reflexivity].
Defined.

(** ** The target of update-vehicles *)

Lemma target_some (p : UpdateVehicles.Params) (fs : list Filter) :
  UpdateVehicles.target p = Some fs -> fs <> [] /\ Forall targeting fs.
Proof.
  unfold UpdateVehicles.target.
  destruct (truthyN _); [intros [= <-]; split; [done | repeat constructor] |].
  destruct (truthyS (UpdateVehicles.vin p));
    [intros [= <-]; split; [done | repeat constructor] |].
  destruct (truthyS (UpdateVehicles.stockNumber p));
    [intros [= <-]; split; [done | repeat constructor] |].
  destruct (truthyS (UpdateVehicles.make p)), (truthyS (UpdateVehicles.model p));
    simpl; intros [= <-]; split; try done; repeat constructor.
Qed.

Lemma target_none (p : UpdateVehicles.Params) :
  UpdateVehicles.target p = None
  <-> has_identifier p = false
      /\ truthyS (UpdateVehicles.make p) = false
      /\ truthyS (UpdateVehicles.model p) = false.
Proof.
  unfold UpdateVehicles.target, has_identifier.
  destruct (truthyN _), (truthyS (UpdateVehicles.vin p)),
    (truthyS (UpdateVehicles.stockNumber p)), (truthyS (UpdateVehicles.make p)),
    (truthyS (UpdateVehicles.model p)); simpl; split; (done || by intros (? & ? & ?)).
Qed.

(** X4: update-vehicles never falls back to all rows.  Every target it
    builds is a non-empty list of predicates, each on an identifier or on
    make or model; a request with fields to write and neither an identifier
    nor a make nor a model (or only empty ones) is answered with the
    no-criteria error before any call; and in any world every lookup the
    handler issues carries, besides visibility, such a non-empty target. *)
Theorem X4_update_vehicles_needs_a_target (env : Env) (p : UpdateVehicles.Params) :
  (forall fs, UpdateVehicles.target p = Some fs -> fs <> [] /\ Forall targeting fs)
  /\ (configured env = true ->
      size (UpdateVehicles.updateData env p) <> 1%nat ->
      has_identifier p = false ->
      truthyS (UpdateVehicles.make p) = false ->
      truthyS (UpdateVehicles.model p) = false ->
      UpdateVehicles.updateVehicles env p = Ret UpdateVehicles.NoTargetCriteria)
  /\ (forall (S : Type) (w : World S) (s : S) cols fs' o lim answer,
         DbEvent (Select cols fs' o lim) answer
           ∈ trace (run w (UpdateVehicles.updateVehicles env p) s) ->
         exists fs, fs' = IsNull "deleted_at" :: fs /\ fs <> [] /\ Forall targeting fs).
Proof.
  split; [apply target_some |]. split.
  - intros Hc Hs Hi Hm Hd.
    assert (UpdateVehicles.target p = None) as Ht by (by apply target_none).
    unfold UpdateVehicles.updateVehicles. rewrite Hc, Ht.
    apply Nat.eqb_neq in Hs. by rewrite Hs.
  - intros S w s cols fs' o lim answer Hin.
    destruct (update_vehicles_trace w env p s)
      as [Htr | (fs & found & Ht & [Htr | (rows & ans & _ & _ & _ & Htr)])];
      rewrite Htr in Hin.
    + by apply elem_of_nil in Hin.
    + apply list_elem_of_singleton in Hin. unfold UpdateVehicles.lookup in Hin. injection Hin as -> -> -> -> ->.
      exists fs. split; [done |]. by apply (target_some p).
    + apply elem_of_cons in Hin as [Hin | Hin].
      * unfold UpdateVehicles.lookup in Hin. injection Hin as -> -> -> -> ->. exists fs. split; [done |]. by apply (target_some p).
      * apply list_elem_of_singleton in Hin. discriminate Hin.
Qed.

Lemma X4_update_vehicles_needs_a_target_witness :
  UpdateVehicles.updateVehicles deployed update_everything
  = Ret UpdateVehicles.NoTargetCriteria.
Proof.
  apply (X4_update_vehicles_needs_a_target deployed update_everything);
    first [reflexivity | vm_compute; lia].
Defined.

(** X5: in update-vehicles an identifier shadows the batch filters: when
    [id], [vin] or [stockNumber] is supplied (non-zero, non-empty), [make]
    and [model] play no part, and the handler behaves, call for call, as on
    the request without them. *)
Theorem X5_identifier_shadows_make_and_model (env : Env) (p : UpdateVehicles.Params) :
  has_identifier p = true ->
  UpdateVehicles.updateVehicles env p = UpdateVehicles.updateVehicles env (without_batch p).
Proof.
  destruct p as [i v s mk md ? ? ? ? ? ? ? ? ? ? ? ?]. unfold has_identifier. simpl.
  by_truthiness i; by_truthiness v; by_truthiness s; simpl; intros H;
    first [discriminate H | reflexivity].
Qed.

Lemma X5_identifier_shadows_make_and_model_witness :
  UpdateVehicles.target update_by_id_and_make = Some [Eq "id" (VNum 1)]
  /\ UpdateVehicles.updateVehicles deployed update_by_id_and_make
     = UpdateVehicles.updateVehicles deployed (without_batch update_by_id_and_make).
Proof.
  split; [reflexivity |].
  apply (X5_identifier_shadows_make_and_model deployed update_by_id_and_make).
  reflexivity.
Defined.

(** ** Lookups that find nothing *)

Section Fruitless.

Context {S : Type} (w : World S) (env : Env) (s s1 : S) (found : DbResp).
Hypothesis credentials : configured env = true.
Hypothesis nothing : fruitless found.

Ltac no_rows :=
  match goal with
  | Hw : on_db w _ s = (found, s1) |- _ => simpl; rewrite Hw
  end;
  destruct found as [d [m |]]; simpl in *;
  [reflexivity |];
  destruct nothing as [He | [Hd | Hd]]; [done | |]; simpl in Hd; subst d; reflexivity.

Lemma update_vehicles_fruitless (p : UpdateVehicles.Params) (fs : list Filter) :
  size (UpdateVehicles.updateData env p) <> 1%nat ->
  UpdateVehicles.target p = Some fs ->
  on_db w (UpdateVehicles.lookup fs) s = (found, s1) ->
  run w (UpdateVehicles.updateVehicles env p) s
  = {| result := match error found with
                 | Some m => UpdateVehicles.FindFailed m
                 | None => UpdateVehicles.NoneFound
                 end;
       final := s1;
       trace := [DbEvent (UpdateVehicles.lookup fs) found] |}.
Proof.
  intros Hs Ht Hw. unfold UpdateVehicles.updateVehicles. rewrite credentials, Ht.
  apply Nat.eqb_neq in Hs. rewrite Hs. no_rows.
Qed.

Lemma add_notes_fruitless (p : AddNotes.Params) (n : option string) :
  identifierCount (AddNotes.candidates p) = 1%nat ->
  AddNotes.notes p = Some n ->
  on_db w (AddNotes.lookup p) s = (found, s1) ->
  run w (AddNotes.addNotes env p) s
  = {| result := match error found with
                 | Some m => AddNotes.FindFailed m
                 | None => AddNotes.NotFound (AddNotes.identifier p)
                 end;
       final := s1;
       trace := [DbEvent (AddNotes.lookup p) found] |}.
Proof.
  intros H1 Hn Hw. unfold AddNotes.addNotes. rewrite credentials, H1, Hn. no_rows.
Qed.

Lemma delete_ai_video_fruitless (p : DeleteAiVideo.Params) :
  identifierCount (DeleteAiVideo.candidates p) = 1%nat ->
  on_db w (DeleteAiVideo.lookup p) s = (found, s1) ->
  run w (DeleteAiVideo.deleteAiVideo env p) s
  = {| result := match error found with
                 | Some m => DeleteAiVideo.FindFailed m
                 | None => DeleteAiVideo.NotFound (DeleteAiVideo.identifier p)
                 end;
       final := s1;
       trace := [DbEvent (DeleteAiVideo.lookup p) found] |}.
Proof.
  intros H1 Hw. unfold DeleteAiVideo.deleteAiVideo. rewrite credentials, H1. no_rows.
Qed.

Lemma delete_vehicle_fruitless (p : DeleteVehicle.Params) :
  identifierCount [ofStr (DeleteVehicle.vin p); ofStr (DeleteVehicle.stockNumber p)] = 1%nat ->
  on_db w (DeleteVehicle.lookup p) s = (found, s1) ->
  run w (DeleteVehicle.deleteVehicle env p) s
  = {| result := match error found with
                 | Some m => DeleteVehicle.FindFailed m
                 | None => DeleteVehicle.NotFound (DeleteVehicle.identifier p)
                 end;
       final := s1;
       trace := [DbEvent (DeleteVehicle.lookup p) found] |}.
Proof.
  intros H1 Hw. unfold DeleteVehicle.deleteVehicle. rewrite credentials.
  assert (negb (truthyS (DeleteVehicle.vin p)) && negb (truthyS (DeleteVehicle.stockNumber p)) = false
          /\ truthyS (DeleteVehicle.vin p) && truthyS (DeleteVehicle.stockNumber p) = false)
    as [-> ->].
  { unfold identifierCount, truthyS in *. simpl in H1.
    destruct (truthy (ofStr (DeleteVehicle.vin p))),
             (truthy (ofStr (DeleteVehicle.stockNumber p))); simpl in *; (done || lia). }
  no_rows.
Qed.

End Fruitless.

(** X6: in update-vehicles, add-notes, delete-ai-video and delete-vehicle,
    once the request has passed validation, a lookup that fails or answers
    with no row ends the call: the handler returns the store's error as its
    finding error, or its nothing-found message when there was no error, and
    the lookup is the only call it makes, in any world.  When the answer has
    both an error and rows, the error wins. *)
Theorem X6_nothing_found_nothing_written
        {S : Type} (w : World S) (env : Env) (s s1 : S) (found : DbResp) :
  configured env = true ->
  fruitless found ->
  (forall p fs,
      size (UpdateVehicles.updateData env p) <> 1%nat ->
      UpdateVehicles.target p = Some fs ->
      on_db w (UpdateVehicles.lookup fs) s = (found, s1) ->
      run w (UpdateVehicles.updateVehicles env p) s
      = {| result := match error found with
                     | Some m => UpdateVehicles.FindFailed m
                     | None => UpdateVehicles.NoneFound
                     end;
           final := s1;
           trace := [DbEvent (UpdateVehicles.lookup fs) found] |})
  /\ (forall p n,
         identifierCount (AddNotes.candidates p) = 1%nat ->
         AddNotes.notes p = Some n ->
         on_db w (AddNotes.lookup p) s = (found, s1) ->
         run w (AddNotes.addNotes env p) s
         = {| result := match error found with
                        | Some m => AddNotes.FindFailed m
                        | None => AddNotes.NotFound (AddNotes.identifier p)
                        end;
              final := s1;
              trace := [DbEvent (AddNotes.lookup p) found] |})
  /\ (forall p,
         identifierCount (DeleteAiVideo.candidates p) = 1%nat ->
         on_db w (DeleteAiVideo.lookup p) s = (found, s1) ->
         run w (DeleteAiVideo.deleteAiVideo env p) s
         = {| result := match error found with
                        | Some m => DeleteAiVideo.FindFailed m
                        | None => DeleteAiVideo.NotFound (DeleteAiVideo.identifier p)
                        end;
              final := s1;
              trace := [DbEvent (DeleteAiVideo.lookup p) found] |})
  /\ (forall p,
         identifierCount [ofStr (DeleteVehicle.vin p); ofStr (DeleteVehicle.stockNumber p)]
         = 1%nat ->
         on_db w (DeleteVehicle.lookup p) s = (found, s1) ->
         run w (DeleteVehicle.deleteVehicle env p) s
         = {| result := match error found with
                        | Some m => DeleteVehicle.FindFailed m
                        | None => DeleteVehicle.NotFound (DeleteVehicle.identifier p)
                        end;
              final := s1;
              trace := [DbEvent (DeleteVehicle.lookup p) found] |}).
Proof.
  intros Hc Hf. split; [| split; [| split]]; intros.
  - by apply update_vehicles_fruitless.
  - by eapply add_notes_fruitless.
  - by apply delete_ai_video_fruitless.
  - by apply delete_vehicle_fruitless.
Qed.

(** With the store down, delete-vehicle by VIN reports the error and stops
    after its lookup. *)
Lemma X6_nothing_found_nothing_written_witness :
  run down (DeleteVehicle.deleteVehicle deployed (delete_request (Some "X") None)) tt
  = {| result := DeleteVehicle.FindFailed "connection refused";
       final := tt;
       trace := [DbEvent (DeleteVehicle.lookup (delete_request (Some "X") None))
                         (failed "connection refused")] |}.
Proof.
  pose proof (X6_nothing_found_nothing_written
                down deployed tt tt (failed "connection refused") eq_refl)
    as (_ & _ & _ & H).
  - left. discriminate.
  - apply H; reflexivity.
Defined.

(** ** delete-ai-video: rows that cannot be cleaned up *)

(** X7: in delete-ai-video, once the lookup has answered with one row, a row
    without an [ai_video] (null or empty) ends the call with the
    nothing-to-delete message, and a row with a video but without a
    [stock_number] ends it with the no-stock-number message; in both cases
    the lookup is the only call made, in any world: the bucket is not
    asked and nothing is written. *)
Theorem X7_rows_that_cannot_be_cleaned_up
        {S : Type} (w : World S) (env : Env) (p : DeleteAiVideo.Params)
        (s s1 : S) (vehicle : Row) :
  configured env = true ->
  identifierCount (DeleteAiVideo.candidates p) = 1%nat ->
  on_db w (DeleteAiVideo.lookup p) s = (ok [vehicle], s1) ->
  (truthy (col vehicle "ai_video") = false ->
   run w (DeleteAiVideo.deleteAiVideo env p) s
   = {| result := DeleteAiVideo.NoAiVideo (vehicleInfo vehicle) vehicle;
        final := s1;
        trace := [DbEvent (DeleteAiVideo.lookup p) (ok [vehicle])] |})
  /\ (truthy (col vehicle "ai_video") = true ->
      truthy (col vehicle "stock_number") = false ->
      run w (DeleteAiVideo.deleteAiVideo env p) s
      = {| result := DeleteAiVideo.NoStockNumber (vehicleInfo vehicle) vehicle;
           final := s1;
           trace := [DbEvent (DeleteAiVideo.lookup p) (ok [vehicle])] |}).
Proof.
  intros Hc H1 Hf. unfold DeleteAiVideo.deleteAiVideo. rewrite Hc, H1. simpl.
  rewrite Hf. simpl. split.
  - intros Hv. by rewrite Hv.
  - intros Hv Hn. by rewrite Hv, Hn.
Qed.

Lemma X7_rows_that_cannot_be_cleaned_up_witness :
  exists v,
    run finds_vehicle_7
        (DeleteAiVideo.deleteAiVideo deployed_with_r2 (video_request (Some 7) None)) tt
    = {| result := DeleteAiVideo.NoStockNumber (vehicleInfo v) v;
         final := tt;
         trace := [DbEvent (DeleteAiVideo.lookup (video_request (Some 7) None)) (ok [v])] |}.
Proof.
  eexists.
  apply (X7_rows_that_cannot_be_cleaned_up
           finds_vehicle_7 deployed_with_r2 (video_request (Some 7) None) tt tt);
    reflexivity.
Defined.

(** ** Who talks to the bucket *)

Lemma delete_ai_video_bucket_call {S : Type} (w : World S) (env : Env)
      (p : DeleteAiVideo.Params) (s : S) (c : S3Call) (sent : S3Resp) :
  S3Event c sent ∈ trace (run w (DeleteAiVideo.deleteAiVideo env p) s) ->
  r2_configured env = true
  /\ exists vehicle,
      data (on_db w (DeleteAiVideo.lookup p) s).1 = Some [vehicle]
      /\ truthy (col vehicle "ai_video") = true
      /\ truthy (col vehicle "stock_number") = true
      /\ c = cleanup_call env vehicle.
Proof.
  unfold DeleteAiVideo.deleteAiVideo.
  destruct (negb (configured env)); [by intros ?%elem_of_nil |].
  destruct (_ =? 0)%nat; [by intros ?%elem_of_nil |].
  destruct (1 <? _)%nat; [by intros ?%elem_of_nil |].
  simpl.
  destruct (on_db w (DeleteAiVideo.lookup p) s) as [[[[| v [| ? ?]] |] [m |]] s1]; simpl;
    try (by intros [[=] | ?%elem_of_nil]%elem_of_cons).
  destruct (truthy (col v "ai_video")) eqn:Hv; simpl;
    [| by intros [[=] | ?%elem_of_nil]%elem_of_cons].
  destruct (truthy (col v "stock_number")) eqn:Hn; simpl;
    [| by intros [[=] | ?%elem_of_nil]%elem_of_cons].
  unfold DeleteAiVideo.cleanup, DeleteAiVideo.deleteFromR2.
  destruct (r2_configured env); simpl.
  - destruct (on_s3 w _ s1) as [[| m] s2]; simpl;
      destruct (on_db w _ s2) as [[d [m' |]] s3]; simpl;
      try destruct (single_row _); simpl;
      intros [[=] | [[= -> ->] | [[=] | ?%elem_of_nil]%elem_of_cons]%elem_of_cons]%elem_of_cons;
      (split; [done |]); by exists v.
  - destruct (on_db w _ s1) as [[d [m' |]] s3]; simpl;
      try destruct (single_row _); simpl;
      by intros [[=] | [[=] | ?%elem_of_nil]%elem_of_cons]%elem_of_cons.
Qed.

Lemma trace_without_bucket (tr : list Event) :
  (forall c sent, S3Event c sent ∉ tr) -> no_bucket_call tr.
Proof.
  intros H. apply Forall_forall. intros [c r | c r] He; [done |]. by destruct (H c r).
Qed.

(** X8: the bucket is asked for one thing only.  update-vehicles, add-notes
    and delete-vehicle never call it, in any world.  delete-ai-video does not
    call it unless all four R2 settings are set; when it does, the call is
    the deletion of [vehicles/{stock_number}/ai-video.mp4] in the configured
    bucket, for the one row its lookup answered with, and that row has a
    video and a stock number: no object key is ever built from a missing or
    empty stock number. *)
Theorem X8_only_the_cleanup_talks_to_the_bucket
        {S : Type} (w : World S) (env : Env) (s : S) :
  (forall p, no_bucket_call (trace (run w (UpdateVehicles.updateVehicles env p) s)))
  /\ (forall p, no_bucket_call (trace (run w (AddNotes.addNotes env p) s)))
  /\ (forall p, no_bucket_call (trace (run w (DeleteVehicle.deleteVehicle env p) s)))
  /\ (forall p, r2_configured env = false ->
                no_bucket_call (trace (run w (DeleteAiVideo.deleteAiVideo env p) s)))
  /\ (forall p c sent,
         S3Event c sent ∈ trace (run w (DeleteAiVideo.deleteAiVideo env p) s) ->
         r2_configured env = true
         /\ exists vehicle,
             data (on_db w (DeleteAiVideo.lookup p) s).1 = Some [vehicle]
             /\ truthy (col vehicle "ai_video") = true
             /\ truthy (col vehicle "stock_number") = true
             /\ c = cleanup_call env vehicle).
Proof.
  split; [| split; [| split; [| split]]].
  - intros p. unfold no_bucket_call.
    destruct (update_vehicles_trace w env p s)
      as [-> | (fs & found & _ & [-> | (rows & answer & _ & _ & _ & ->)])];
      repeat constructor.
  - intros p. unfold no_bucket_call.
    destruct (add_notes_trace w env p s)
      as [-> | (found & [-> | (n & v & answer & _ & _ & _ & ->)])];
      repeat constructor.
  - intros p. unfold no_bucket_call.
    destruct (delete_vehicle_trace w env p s)
      as [-> | (found & [-> | (v & answer & _ & _ & ->)])];
      repeat constructor.
  - intros p Hr. apply trace_without_bucket. intros c sent Hin.
    apply delete_ai_video_bucket_call in Hin as [Hr' _]. congruence.
  - intros p c sent. apply delete_ai_video_bucket_call.
Qed.

Lemma X8_only_the_cleanup_talks_to_the_bucket_witness :
  no_bucket_call
    (trace (run (table_world quiet obliging)
                (DeleteAiVideo.deleteAiVideo deployed (video_request (Some 1) None))
                showroom)).
Proof.
  pose proof (X8_only_the_cleanup_talks_to_the_bucket
                (table_world quiet obliging) deployed showroom) as (_ & _ & _ & H & _).
  apply H. reflexivity.
Defined.

(** ** get-vehicles only reads *)

Lemma get_vehicles_trace {S : Type} (w : World S) (s : S) (c : DbCall) :
  exists r, trace (run w (r ← await c; Ret (GetVehicles.respond r)) s) = [DbEvent c r].
Proof. simpl. destruct (on_db w c s) as [r s1]. by exists r. Qed.

(** X9: get-vehicles, with or without sorting, makes at most one call, a
    select of all columns of the visible rows, in any world; it never
    updates, never deletes and never calls the bucket.  On the table a run
    leaves the table as it was, also when the store rejects the query. *)
Theorem X9_get_vehicles_only_reads
        (env : Env) (p : GetVehicles.Params) (sortBy sortOrder : option string)
        (limit : option Z) :
  (forall (S : Type) (w : World S) (s : S),
      (trace (run w (GetVehicles.getVehicles env p) s) = []
       \/ exists r, trace (run w (GetVehicles.getVehicles env p) s)
                    = [DbEvent (Select Star (IsNull "deleted_at" :: GetVehicles.filters p)
                                       None None) r])
      /\ (trace (run w (GetVehicles.getVehiclesSorted env p sortBy sortOrder limit) s) = []
          \/ exists r,
              trace (run w (GetVehicles.getVehiclesSorted env p sortBy sortOrder limit) s)
              = [DbEvent (Select Star (IsNull "deleted_at" :: GetVehicles.filters p)
                                 (GetVehicles.ordering sortBy sortOrder)
                                 (GetVehicles.limiting limit)) r])
      /\ read_only (trace (run w (GetVehicles.getVehicles env p) s))
      /\ read_only (trace (run w (GetVehicles.getVehiclesSorted env p sortBy sortOrder limit) s)))
  /\ (forall s3 t,
         final (run (table_world quiet s3) (GetVehicles.getVehicles env p) t) = t
         /\ final (run (table_world quiet s3)
                       (GetVehicles.getVehiclesSorted env p sortBy sortOrder limit) t) = t).
Proof.
  split.
  - intros S w s. unfold GetVehicles.getVehicles, GetVehicles.getVehiclesSorted, read_only.
    destruct (negb (configured env)).
    + repeat split; try (by left); constructor.
    + destruct (get_vehicles_trace w s (GetVehicles.query p None None)) as [r Hr].
      destruct (get_vehicles_trace
                  w s (GetVehicles.query p (GetVehicles.ordering sortBy sortOrder)
                                         (GetVehicles.limiting limit))) as [r' Hr'].
      rewrite Hr, Hr'. repeat split; try (right; eexists; reflexivity); repeat constructor.
  - intros s3 t. unfold GetVehicles.getVehicles, GetVehicles.getVehiclesSorted.
    destruct (negb (configured env)); [done |].
    simpl. destruct (GetVehicles.limiting limit) as [n |]; [| done].
    by destruct (n <? 0).
Qed.

(** ** delete-ai-video: the update fails after the cleanup *)

(** X10: in delete-ai-video the cleanup comes before the update and is not
    undone: when the bucket has deleted the object and the store then
    rejects the update, the handler returns the update error alone, after
    the three calls lookup, deletion, update; the message does not say that
    the object is gone. *)
Theorem X10_update_failure_after_cleanup
        {S : Type} (w : World S) (env : Env) (p : DeleteAiVideo.Params)
        (s s1 s2 s3 : S) (vehicle : Row) (answer : DbResp) (m : string) :
  configured env = true ->
  r2_configured env = true ->
  identifierCount (DeleteAiVideo.candidates p) = 1%nat ->
  on_db w (DeleteAiVideo.lookup p) s = (ok [vehicle], s1) ->
  truthy (col vehicle "ai_video") = true ->
  truthy (col vehicle "stock_number") = true ->
  on_s3 w (cleanup_call env vehicle) s1 = (S3Done, s2) ->
  on_db w (DeleteAiVideo.write env vehicle) s2 = (answer, s3) ->
  error answer = Some m ->
  run w (DeleteAiVideo.deleteAiVideo env p) s
  = {| result := DeleteAiVideo.UpdateFailed m;
       final := s3;
       trace := [DbEvent (DeleteAiVideo.lookup p) (ok [vehicle]);
                 S3Event (cleanup_call env vehicle) S3Done;
                 DbEvent (DeleteAiVideo.write env vehicle) answer] |}
  /\ DeleteAiVideo.message (DeleteAiVideo.UpdateFailed m) = "Error updating vehicle: " +:+ m.
Proof.
  intros Hc Hr H1 Hf Hv Hn Hs Hw He. split; [| reflexivity].
  unfold DeleteAiVideo.deleteAiVideo. rewrite Hc, H1. simpl.
  rewrite Hf. simpl. rewrite Hv, Hn. simpl.
  unfold DeleteAiVideo.cleanup, DeleteAiVideo.deleteFromR2. rewrite Hr. simpl.
  unfold cleanup_call in Hs. rewrite Hs. simpl. rewrite Hw. simpl. by rewrite He.
Qed.

Lemma X10_update_failure_after_cleanup_witness :
  result (run fails_the_update
              (DeleteAiVideo.deleteAiVideo deployed_with_r2 (video_request (Some 1) None)) tt)
  = DeleteAiVideo.UpdateFailed "permission denied for table vehicles".
Proof.
  erewrite (proj1 (X10_update_failure_after_cleanup
                     fails_the_update deployed_with_r2 (video_request (Some 1) None)
                     tt tt tt tt _ _ "permission denied for table vehicles"
                     eq_refl eq_refl eq_refl eq_refl eq_refl eq_refl eq_refl eq_refl eq_refl)).
  reflexivity.
Defined.

(** ** Tables with a primary key *)

Lemma rows_distinct (t : Table) : unique_ids t -> NoDup t.
Proof. unfold unique_ids. apply NoDup_fmap_1. Qed.

Lemma ids_present_elem (t : Table) (r : Row) :
  ids_present t -> r ∈ t -> col r "id" <> VNull.
Proof. unfold ids_present. rewrite Forall_forall. auto. Qed.

(** With a primary key, equality on the [id] of a row of the table picks
    that row and no other. *)
Lemma eq_id_picks (t : Table) (r0 r : Row) :
  unique_ids t -> r0 ∈ t -> col r0 "id" <> VNull -> r ∈ t ->
  matches [Eq "id" (col r0 "id")] r = true <-> r = r0.
Proof.
  intros Hu H0 Hn Hr. rewrite matches_eq. split.
  - intros [He _]. by apply (unique_id t).
  - by intros ->.
Qed.

Lemma filter_picks_one {A : Type} (P : A -> bool) (l : list A) (x : A) :
  NoDup l -> x ∈ l -> (forall y, y ∈ l -> P y = true <-> y = x) ->
  List.filter P l = [x].
Proof.
  induction l as [| a l IH]; intros Hn Hx HP; [by apply elem_of_nil in Hx |].
  apply NoDup_cons in Hn as [Ha Hn]. simpl.
  apply elem_of_cons in Hx as [-> | Hx].
  - rewrite (proj2 (HP a ltac:(left)) eq_refl). f_equal.
    clear IH. induction l as [| b l IH]; simpl; [done |].
    destruct (P b) eqn:Hb.
    + apply (HP b ltac:(right; left)) in Hb. subst b. destruct Ha. left.
    + apply IH.
      * intros H. apply Ha. by right.
      * by apply NoDup_cons in Hn as [_ ?].
      * intros y Hy. apply HP. apply elem_of_cons in Hy as [-> | Hy]; [left | right; by right].
  - destruct (P a) eqn:Hpa.
    + apply (HP a ltac:(left)) in Hpa. by subst a.
    + apply IH; [done | done |]. intros y Hy. apply HP. by right.
Qed.

Lemma fmap_agree {A B : Type} (f g : A -> B) (l : list A) :
  (forall x, x ∈ l -> f x = g x) -> f <$> l = g <$> l.
Proof.
  induction l as [| a l IH]; intros H; simpl; [done |].
  rewrite (H a ltac:(left)). f_equal. apply IH. intros x Hx. apply H. by right.
Qed.

(** The write of a single-row handler, on a table with a primary key:
    exactly the row aimed at is rewritten, and it is the row returned. *)
Lemma write_one (d : Row) (cols : Columns) (t : Table) (r0 : Row) :
  unique_ids t -> r0 ∈ t -> col r0 "id" <> VNull ->
  table_exec (Update d [Eq "id" (col r0 "id")] cols true) t
  = (ok [project cols (assign d r0)], rewrite_row r0 d <$> t).
Proof.
  intros Hu H0 Hn.
  assert (List.filter (matches [Eq "id" (col r0 "id")]) t = [r0]) as Hf.
  { apply filter_picks_one; [by apply rows_distinct | done |].
    intros y Hy. by apply (eq_id_picks t). }
  cbn [table_exec]. rewrite Hf. cbn [length Nat.eqb negb andb fmap list_fmap].
  f_equal. apply fmap_agree. intros r Hr. unfold rewrite_row.
  destruct (matches [Eq "id" (col r0 "id")] r) eqn:Hm.
  - apply (eq_id_picks t r0 r Hu H0 Hn Hr) in Hm. subst r. by rewrite bool_decide_eq_true_2.
  - rewrite bool_decide_eq_false_2; [done |]. intros ->.
    by rewrite (proj2 (eq_id_picks t r0 r0 Hu H0 Hn H0) eq_refl) in Hm.
Qed.

(** The delete of delete-vehicle, likewise. *)
Lemma delete_one (t : Table) (r0 : Row) :
  unique_ids t -> r0 ∈ t -> col r0 "id" <> VNull ->
  (table_exec (Delete [Eq "id" (col r0 "id")]) t).2
  = List.filter (fun r => negb (bool_decide (r = r0))) t.
Proof.
  intros Hu H0 Hn. cbn [table_exec snd].
  apply filter_ext_in. intros r Hr%list_elem_of_In. f_equal.
  destruct (matches [Eq "id" (col r0 "id")] r) eqn:Hm.
  - apply (eq_id_picks _ r0 r Hu H0 Hn Hr) in Hm. subst. by rewrite bool_decide_eq_true_2.
  - rewrite bool_decide_eq_false_2; [done |]. intros ->.
    by rewrite (proj2 (eq_id_picks _ r0 r0 Hu H0 Hn H0) eq_refl) in Hm.
Qed.

Lemma vehicleInfo_project (cs : list string) (r : Row) :
  "year" ∈ cs -> "make" ∈ cs -> "model" ∈ cs ->
  vehicleInfo (project (Cols cs) r) = vehicleInfo r.
Proof. intros Hy Hm Hd. unfold vehicleInfo. by rewrite !col_project. Qed.

(** ** delete-vehicle on the table *)

Lemma delete_vehicle_found {S : Type} (w : World S) (env : Env) (p : DeleteVehicle.Params)
      (s s1 s2 : S) (v : Row) (gone : DbResp) :
  configured env = true ->
  identifierCount [ofStr (DeleteVehicle.vin p); ofStr (DeleteVehicle.stockNumber p)] = 1%nat ->
  on_db w (DeleteVehicle.lookup p) s = (ok [v], s1) ->
  on_db w (Delete [Eq "id" (col v "id")]) s1 = (gone, s2) ->
  error gone = None ->
  run w (DeleteVehicle.deleteVehicle env p) s
  = {| result := DeleteVehicle.Deleted (vehicleInfo v) v;
       final := s2;
       trace := [DbEvent (DeleteVehicle.lookup p) (ok [v]);
                 DbEvent (Delete [Eq "id" (col v "id")]) gone] |}.
Proof.
  intros Hc H1 Hf Hd He. unfold DeleteVehicle.deleteVehicle. rewrite Hc.
  assert (negb (truthyS (DeleteVehicle.vin p)) && negb (truthyS (DeleteVehicle.stockNumber p)) = false
          /\ truthyS (DeleteVehicle.vin p) && truthyS (DeleteVehicle.stockNumber p) = false)
    as [-> ->].
  { unfold identifierCount, truthyS in *. simpl in H1.
    destruct (truthy (ofStr (DeleteVehicle.vin p))),
             (truthy (ofStr (DeleteVehicle.stockNumber p))); simpl in *; (done || lia). }
  simpl. rewrite Hf. simpl. rewrite Hd. simpl. by rewrite He.
Qed.

Section DeleteOnTable.

Variables (env : Env) (p : DeleteVehicle.Params) (s3 : S3Call -> S3Resp).
Variables (t : Table) (r0 : Row).
Hypothesis credentials : configured env = true.
Hypothesis one_identifier :
  identifierCount [ofStr (DeleteVehicle.vin p); ofStr (DeleteVehicle.stockNumber p)] = 1%nat.
Hypothesis primary_key : unique_ids t.
Hypothesis keyed : ids_present t.
Hypothesis one_match : List.filter (matches (DeleteVehicle.identifierFilter p)) t = [r0].

Lemma matched_row : r0 ∈ t /\ matches (DeleteVehicle.identifierFilter p) r0 = true.
Proof. apply elem_of_filter_matches. rewrite one_match. left. Qed.

Lemma delete_vehicle_run :
  run (table_world quiet s3) (DeleteVehicle.deleteVehicle env p) t
  = {| result :=
         DeleteVehicle.Deleted
           (vehicleInfo r0)
           (project (Cols ["id"; "year"; "make"; "model"; "vin"; "stock_number"]) r0);
       final := List.filter (fun r => negb (bool_decide (r = r0))) t;
       trace :=
         [ DbEvent (DeleteVehicle.lookup p)
                   (ok [project (Cols ["id"; "year"; "make"; "model"; "vin"; "stock_number"])
                                r0]);
           DbEvent (Delete [Eq "id" (col r0 "id")]) {| data := None; error := None |} ] |}.
Proof.
  destruct matched_row as [H0 _].
  pose proof (ids_present_elem t r0 keyed H0) as Hn.
  set (cs := ["id"; "year"; "make"; "model"; "vin"; "stock_number"]).
  assert (col (project (Cols cs) r0) "id" = col r0 "id") as Hid by (apply col_project; left).
  rewrite (delete_vehicle_found
             (table_world quiet s3) env p t t
             (table_exec (Delete [Eq "id" (col (project (Cols cs) r0) "id")]) t).2
             (project (Cols cs) r0) {| data := None; error := None |});
    [| done | done | | rewrite quiet_table; reflexivity | reflexivity].
  - rewrite Hid. rewrite delete_one by done.
    rewrite vehicleInfo_project; [reflexivity | ..]; subst cs; repeat first [by left | right].
  - rewrite quiet_table. unfold DeleteVehicle.lookup. cbn [table_exec ordered].
    by rewrite one_match.
Qed.

Lemma deleted_rows (r : Row) :
  r ∈ List.filter (fun r => negb (bool_decide (r = r0))) t <-> r ∈ t /\ r <> r0.
Proof.
  rewrite !list_elem_of_In, filter_In, negb_true_iff, bool_decide_eq_false. done.
Qed.

Lemma deleted_length :
  S (length (List.filter (fun r => negb (bool_decide (r = r0))) t)) = length t.
Proof.
  destruct matched_row as [H0 _].
  rewrite <- (filter_length (fun r => bool_decide (r = r0)) t).
  rewrite (filter_picks_one (fun r => bool_decide (r = r0)) t r0);
    [reflexivity | by apply rows_distinct | done |].
  intros y _. apply bool_decide_eq_true.
Qed.

(** After the deletion the same lookup finds nothing. *)
Lemma delete_vehicle_again :
  run (table_world quiet s3) (DeleteVehicle.deleteVehicle env p)
      (List.filter (fun r => negb (bool_decide (r = r0))) t)
  = {| result := DeleteVehicle.NotFound (DeleteVehicle.identifier p);
       final := List.filter (fun r => negb (bool_decide (r = r0))) t;
       trace := [DbEvent (DeleteVehicle.lookup p) (ok [])] |}.
Proof.
  set (t' := List.filter (fun r => negb (bool_decide (r = r0))) t).
  assert (List.filter (matches (DeleteVehicle.identifierFilter p)) t' = []) as Hnone.
  { destruct (List.filter _ t') as [| r l] eqn:Hf; [done |].
    assert (r ∈ List.filter (matches (DeleteVehicle.identifierFilter p)) t') as Hr
        by (rewrite Hf; left).
    apply elem_of_filter_matches in Hr as [Hr Hm]. apply deleted_rows in Hr as [Hr Hne].
    assert (r ∈ List.filter (matches (DeleteVehicle.identifierFilter p)) t) as Hin
        by (by apply elem_of_filter_matches).
    rewrite one_match in Hin. by apply list_elem_of_singleton in Hin. }
  rewrite (delete_vehicle_fruitless (table_world quiet s3) env t' t' (ok [])); try done.
  - by right; right.
  - rewrite quiet_table. unfold DeleteVehicle.lookup. cbn [table_exec ordered].
    by rewrite Hnone.
Qed.

End DeleteOnTable.

(** X11: delete-vehicle on a table with a primary key.  When exactly one row
    carries the given VIN or stock number, soft-deleted or not, the call
    reports that row as deleted and the table afterwards holds every row but
    that one: one row less, and the others as they were. *)
Theorem X11_delete_vehicle_removes_that_row
        (env : Env) (p : DeleteVehicle.Params) (s3 : S3Call -> S3Resp)
        (t : Table) (r0 : Row) :
  configured env = true ->
  identifierCount [ofStr (DeleteVehicle.vin p); ofStr (DeleteVehicle.stockNumber p)] = 1%nat ->
  unique_ids t ->
  ids_present t ->
  List.filter (matches (DeleteVehicle.identifierFilter p)) t = [r0] ->
  result (run (table_world quiet s3) (DeleteVehicle.deleteVehicle env p) t)
  = DeleteVehicle.Deleted
      (vehicleInfo r0)
      (project (Cols ["id"; "year"; "make"; "model"; "vin"; "stock_number"]) r0)
  /\ final (run (table_world quiet s3) (DeleteVehicle.deleteVehicle env p) t)
     = List.filter (fun r => negb (bool_decide (r = r0))) t
  /\ (forall r, r ∈ final (run (table_world quiet s3) (DeleteVehicle.deleteVehicle env p) t)
                <-> r ∈ t /\ r <> r0)
  /\ S (length (final (run (table_world quiet s3) (DeleteVehicle.deleteVehicle env p) t)))
     = length t.
Proof.
  intros Hc H1 Hu Hk Hm.
  rewrite (delete_vehicle_run env p s3 t r0 Hc H1 Hu Hk Hm). simpl.
  split; [done |]. split; [done |]. split.
  - apply deleted_rows.
  - by apply (deleted_length p).
Qed.

(** On the showroom, by the stock number of the soft-deleted vehicle 4. *)
Lemma X11_delete_vehicle_removes_that_row_witness :
  (fun r => col r "id")
    <$> final (run (table_world quiet obliging)
                   (DeleteVehicle.deleteVehicle deployed (delete_request None (Some "S-4")))
                   showroom)
  = [VNum 1; VNum 2; VNum 3].
Proof.
  destruct (X11_delete_vehicle_removes_that_row
              deployed (delete_request None (Some "S-4")) obliging showroom
              (vehicle 4 "ZFF00000000000004" "S-4" "ferrari" (VStr "https://cdn/v4.mp4")
                       (VStr "2025-01-01T00:00:00.000Z")))
    as (_ & -> & _).
  - reflexivity.
  - reflexivity.
  - unfold unique_ids. apply (bool_decide_unpack _). vm_compute. exact I.
  - unfold ids_present. apply (bool_decide_unpack _). vm_compute. exact I.
  - reflexivity.
  - vm_compute. reflexivity.
Defined.

(** X12: delete-vehicle, twice.  On a table with a primary key, after a call
    that deleted the one row carrying the identifier, the same call finds
    nothing: it returns the not-found message naming the identifier, makes
    no call but its lookup, and leaves the table as the first call left
    it. *)
Theorem X12_delete_vehicle_twice
        (env : Env) (p : DeleteVehicle.Params) (s3 s3' : S3Call -> S3Resp)
        (t : Table) (r0 : Row) :
  configured env = true ->
  identifierCount [ofStr (DeleteVehicle.vin p); ofStr (DeleteVehicle.stockNumber p)] = 1%nat ->
  unique_ids t ->
  ids_present t ->
  List.filter (matches (DeleteVehicle.identifierFilter p)) t = [r0] ->
  run (table_world quiet s3') (DeleteVehicle.deleteVehicle env p)
      (final (run (table_world quiet s3) (DeleteVehicle.deleteVehicle env p) t))
  = {| result := DeleteVehicle.NotFound (DeleteVehicle.identifier p);
       final := final (run (table_world quiet s3) (DeleteVehicle.deleteVehicle env p) t);
       trace := [DbEvent (DeleteVehicle.lookup p) (ok [])] |}.
Proof.
  intros Hc H1 Hu Hk Hm.
  rewrite (delete_vehicle_run env p s3 t r0 Hc H1 Hu Hk Hm). simpl.
  by apply delete_vehicle_again.
Qed.

Lemma X12_delete_vehicle_twice_witness :
  DeleteVehicle.message
    (result (run (table_world quiet obliging)
                 (DeleteVehicle.deleteVehicle deployed (delete_request None (Some "S-4")))
                 (final (run (table_world quiet obliging)
                             (DeleteVehicle.deleteVehicle deployed
                                (delete_request None (Some "S-4")))
                             showroom))))
  = "No vehicle found with Stock Number: S-4. It may have already been deleted or doesn't exist.".
Proof.
  rewrite (X12_delete_vehicle_twice
             deployed (delete_request None (Some "S-4")) obliging obliging showroom
             (vehicle 4 "ZFF00000000000004" "S-4" "ferrari" (VStr "https://cdn/v4.mp4")
                      (VStr "2025-01-01T00:00:00.000Z"))).
  - reflexivity.
  - reflexivity.
  - reflexivity.
  - unfold unique_ids. apply (bool_decide_unpack _). vm_compute. exact I.
  - unfold ids_present. apply (bool_decide_unpack _). vm_compute. exact I.
  - reflexivity.
Defined.

(** ** add-notes on the table *)

Lemma add_notes_found {S : Type} (w : World S) (env : Env) (p : AddNotes.Params)
      (n : option string) (s s1 s2 : S) (v uv : Row) (answer : DbResp) :
  configured env = true ->
  identifierCount (AddNotes.candidates p) = 1%nat ->
  AddNotes.notes p = Some n ->
  on_db w (AddNotes.lookup p) s = (ok [v], s1) ->
  on_db w (AddNotes.write env n v) s1 = (answer, s2) ->
  error answer = None ->
  single_row answer = Some uv ->
  run w (AddNotes.addNotes env p) s
  = {| result :=
         AddNotes.Written
           (if is_null (AddNotes.notesValue n) then "deleted"
            else if truthy (col v "notes") then "updated" else "added")
           (vehicleInfo v) uv
           (if is_null (AddNotes.notesValue n) then "No notes"
            else show (AddNotes.notesValue n));
       final := s2;
       trace := [DbEvent (AddNotes.lookup p) (ok [v]);
                 DbEvent (AddNotes.write env n v) answer] |}.
Proof.
  intros Hc H1 Hn Hf Hw He Hs. unfold AddNotes.addNotes. rewrite Hc, H1, Hn. simpl.
  rewrite Hf. simpl. rewrite Hw. simpl. by rewrite He, Hs.
Qed.

Lemma assign_notes (env : Env) (n : option string) (r : Row) :
  col (assign (AddNotes.updateData env n) r) "notes" = AddNotes.notesValue n
  /\ col (assign (AddNotes.updateData env n) r) "updated_at" = VStr (now env)
  /\ forall c, c <> "notes" -> c <> "updated_at" ->
               col (assign (AddNotes.updateData env n) r) c = col r c.
Proof.
  unfold AddNotes.updateData. split; [| split].
  - apply col_assign. rewrite lookup_insert_ne by discriminate. apply lookup_insert_eq.
  - apply col_assign. apply lookup_insert_eq.
  - intros c H1 H2. apply col_assign_other.
    rewrite !lookup_insert_ne by done. apply lookup_empty.
Qed.

Lemma rewrite_row_other (r0 d r : Row) : r <> r0 -> rewrite_row r0 d r = r.
Proof. intros H. unfold rewrite_row. by rewrite bool_decide_eq_false_2. Qed.

Lemma rewrite_row_same (r0 d : Row) : rewrite_row r0 d r0 = assign d r0.
Proof. unfold rewrite_row. by rewrite bool_decide_eq_true_2. Qed.

(** X13: add-notes on a table with a primary key, when exactly one visible
    row carries the identifier.  The call writes that row and no other: its
    [notes] become the text given ([null] for [null] or the empty string),
    its [updated_at] the time of the call, and every other column keeps its
    value.  The message says "deleted" when the notes are cleared, otherwise
    "updated" when the row had notes before and "added" when it had
    none. *)
Theorem X13_add_notes_writes_the_notes
        (env : Env) (p : AddNotes.Params) (n : option string) (s3 : S3Call -> S3Resp)
        (t : Table) (r0 : Row) :
  configured env = true ->
  identifierCount (AddNotes.candidates p) = 1%nat ->
  AddNotes.notes p = Some n ->
  unique_ids t ->
  ids_present t ->
  List.filter (matches (IsNull "deleted_at" :: AddNotes.identifierFilter p)) t = [r0] ->
  result (run (table_world quiet s3) (AddNotes.addNotes env p) t)
  = AddNotes.Written
      (if is_null (AddNotes.notesValue n) then "deleted"
       else if truthy (col r0 "notes") then "updated" else "added")
      (vehicleInfo r0)
      (project (Cols ["id"; "year"; "make"; "model"; "vin"; "notes"])
               (assign (AddNotes.updateData env n) r0))
      (if is_null (AddNotes.notesValue n) then "No notes" else show (AddNotes.notesValue n))
  /\ final (run (table_world quiet s3) (AddNotes.addNotes env p) t)
     = rewrite_row r0 (AddNotes.updateData env n) <$> t
  /\ rewrite_row r0 (AddNotes.updateData env n) r0 = assign (AddNotes.updateData env n) r0
  /\ (forall r, r <> r0 -> rewrite_row r0 (AddNotes.updateData env n) r = r)
  /\ col (assign (AddNotes.updateData env n) r0) "notes" = AddNotes.notesValue n
  /\ col (assign (AddNotes.updateData env n) r0) "updated_at" = VStr (now env)
  /\ (forall c, c <> "notes" -> c <> "updated_at" ->
                col (assign (AddNotes.updateData env n) r0) c = col r0 c).
Proof.
  intros Hc H1 Hn Hu Hk Hm.
  assert (r0 ∈ t) as H0.
  { apply (elem_of_filter_matches (IsNull "deleted_at" :: AddNotes.identifierFilter p)).
    rewrite Hm. left. }
  pose proof (ids_present_elem t r0 Hk H0) as Hid.
  set (v := project AddNotes.lookupColumns r0).
  assert (col v "id" = col r0 "id") as Hvid by (apply col_project; left).
  assert (col v "notes" = col r0 "notes") as Hvn by (apply col_project; do 6 right; left).
  assert (vehicleInfo v = vehicleInfo r0) as Hinfo.
  { apply vehicleInfo_project; repeat first [by left | right]. }
  rewrite (add_notes_found
             (table_world quiet s3) env p n t t
             (rewrite_row r0 (AddNotes.updateData env n) <$> t) v
             (project (Cols ["id"; "year"; "make"; "model"; "vin"; "notes"])
                      (assign (AddNotes.updateData env n) r0))
             (ok [project (Cols ["id"; "year"; "make"; "model"; "vin"; "notes"])
                          (assign (AddNotes.updateData env n) r0)]));
    try done.
  - simpl. rewrite Hvn, Hinfo. split; [done |]. split; [done |].
    split; [apply rewrite_row_same |]. split; [intros r; apply rewrite_row_other |].
    apply assign_notes.
  - rewrite quiet_table. unfold AddNotes.lookup. cbn [table_exec ordered]. by rewrite Hm.
  - rewrite quiet_table. unfold AddNotes.write. rewrite Hvid. by apply write_one.
Qed.

(** On the lot: new notes for vehicle 5, which had notes. *)
Lemma X13_add_notes_writes_the_notes_witness :
  (exists info v,
      result (run (table_world quiet obliging)
                  (AddNotes.addNotes deployed (notes_request (Some 5) None (Some (Some "sold"))))
                  lot)
      = AddNotes.Written "updated" info v "sold")
  /\ (fun r => col r "notes")
       <$> final (run (table_world quiet obliging)
                      (AddNotes.addNotes deployed
                         (notes_request (Some 5) None (Some (Some "sold")))) lot)
     = [VStr "sold"; VNull].
Proof.
  destruct (X13_add_notes_writes_the_notes
              deployed (notes_request (Some 5) None (Some (Some "sold"))) (Some "sold")
              obliging lot
              (<["notes" := VStr "call back on Monday"]>
                 (vehicle 5 "WBA00000000000005" "L-5" "BMW" VNull VNull)))
    as (-> & -> & _).
  - reflexivity.
  - reflexivity.
  - reflexivity.
  - unfold unique_ids. apply (bool_decide_unpack _). vm_compute. exact I.
  - unfold ids_present. apply (bool_decide_unpack _). vm_compute. exact I.
  - reflexivity.
  - split; [eexists _, _; reflexivity | vm_compute; reflexivity].
Defined.

(** ** delete-ai-video on the table *)

Lemma assign_video (env : Env) (r : Row) :
  col (assign (DeleteAiVideo.updateData env) r) "ai_video" = VNull
  /\ col (assign (DeleteAiVideo.updateData env) r) "updated_at" = VStr (now env)
  /\ forall c, c <> "ai_video" -> c <> "updated_at" ->
               col (assign (DeleteAiVideo.updateData env) r) c = col r c.
Proof.
  unfold DeleteAiVideo.updateData. split; [| split].
  - apply col_assign. rewrite lookup_insert_ne by discriminate. apply lookup_insert_eq.
  - apply col_assign. apply lookup_insert_eq.
  - intros c H1 H2. apply col_assign_other.
    rewrite !lookup_insert_ne by done. apply lookup_empty.
Qed.

(** X14: delete-ai-video on a table with a primary key, when exactly one
    visible row carries the identifier and that row has a video and a stock
    number.  Whatever the bucket answers, and also without R2 settings, the
    call succeeds and writes that row and no other: its [ai_video] becomes
    [null], its [updated_at] the time of the call, every other column keeps
    its value; the message quotes the video address the row had. *)
Theorem X14_delete_ai_video_clears_the_field
        (env : Env) (p : DeleteAiVideo.Params) (s3 : S3Call -> S3Resp)
        (t : Table) (r0 : Row) :
  configured env = true ->
  identifierCount (DeleteAiVideo.candidates p) = 1%nat ->
  unique_ids t ->
  ids_present t ->
  List.filter (matches (IsNull "deleted_at" :: DeleteAiVideo.identifierFilter p)) t = [r0] ->
  truthy (col r0 "ai_video") = true ->
  truthy (col r0 "stock_number") = true ->
  (exists r2,
      result (run (table_world quiet s3) (DeleteAiVideo.deleteAiVideo env p) t)
      = DeleteAiVideo.Cleared
          (vehicleInfo r0)
          (project (Cols ["id"; "year"; "make"; "model"; "vin"; "ai_video"])
                   (assign (DeleteAiVideo.updateData env) r0))
          (col r0 "ai_video") r2)
  /\ final (run (table_world quiet s3) (DeleteAiVideo.deleteAiVideo env p) t)
     = rewrite_row r0 (DeleteAiVideo.updateData env) <$> t
  /\ rewrite_row r0 (DeleteAiVideo.updateData env) r0
     = assign (DeleteAiVideo.updateData env) r0
  /\ (forall r, r <> r0 -> rewrite_row r0 (DeleteAiVideo.updateData env) r = r)
  /\ col (assign (DeleteAiVideo.updateData env) r0) "ai_video" = VNull
  /\ col (assign (DeleteAiVideo.updateData env) r0) "updated_at" = VStr (now env)
  /\ (forall c, c <> "ai_video" -> c <> "updated_at" ->
                col (assign (DeleteAiVideo.updateData env) r0) c = col r0 c).
Proof.
  intros Hc H1 Hu Hk Hm Hv Hn.
  assert (r0 ∈ t) as H0.
  { apply (elem_of_filter_matches (IsNull "deleted_at" :: DeleteAiVideo.identifierFilter p)).
    rewrite Hm. left. }
  pose proof (ids_present_elem t r0 Hk H0) as Hid.
  set (cs := ["id"; "year"; "make"; "model"; "vin"; "stock_number"; "ai_video"]).
  set (v := project (Cols cs) r0).
  assert (col v "id" = col r0 "id") as Hvid by (apply col_project; left).
  assert (col v "ai_video" = col r0 "ai_video") as Hvv
      by (apply col_project; do 6 right; left).
  assert (col v "stock_number" = col r0 "stock_number") as Hvs
      by (apply col_project; do 5 right; left).
  assert (vehicleInfo v = vehicleInfo r0) as Hinfo.
  { apply vehicleInfo_project; repeat first [by left | right]. }
  assert (on_db (table_world quiet s3) (DeleteAiVideo.lookup p) t = (ok [v], t)) as Hf.
  { rewrite quiet_table. unfold DeleteAiVideo.lookup. cbn [table_exec ordered].
    by rewrite Hm. }
  pose proof (write_one (DeleteAiVideo.updateData env)
                        (Cols ["id"; "year"; "make"; "model"; "vin"; "ai_video"])
                        t r0 Hu H0 Hid) as Hw.
  rewrite <- Hvid in Hw at 1.
  rewrite <- Hvv in Hv. rewrite <- Hvs in Hn.
  assert (exists r2,
             run (table_world quiet s3) (DeleteAiVideo.deleteAiVideo env p) t
             = {| result := concluded v r2
                              (ok [project (Cols ["id"; "year"; "make"; "model"; "vin"; "ai_video"])
                                           (assign (DeleteAiVideo.updateData env) r0)]);
                  final := rewrite_row r0 (DeleteAiVideo.updateData env) <$> t;
                  trace := trace (run (table_world quiet s3)
                                      (DeleteAiVideo.deleteAiVideo env p) t) |})
    as [r2 Hrun].
  { destruct (r2_configured env) eqn:Hr.
    - destruct (delete_ai_video_attempted _ env p t t v Hc H1 Hf Hv Hn Hr)
        as (c & sent & s2 & answer & tf & r2 & Hs & _ & Hw' & Hrun & _).
      injection Hs as _ <-. rewrite quiet_table in Hw'.
      unfold DeleteAiVideo.write in Hw'. rewrite Hw in Hw'. injection Hw' as <- <-.
      exists (Some r2). by rewrite Hrun.
    - destruct (delete_ai_video_skipped _ env p t t v Hc H1 Hf Hv Hn Hr)
        as (answer & tf & Hw' & Hrun).
      rewrite quiet_table in Hw'.
      unfold DeleteAiVideo.write in Hw'. rewrite Hw in Hw'. injection Hw' as <- <-.
      exists None. by rewrite Hrun. }
  rewrite Hrun. simpl. unfold concluded. simpl. rewrite Hinfo, Hvv.
  split; [by exists r2 |]. split; [done |].
  split; [apply rewrite_row_same |]. split; [intros r; apply rewrite_row_other |].
  apply assign_video.
Qed.

(** In the showroom: the video of vehicle 1; vehicle 4 keeps its own. *)
Lemma X14_delete_ai_video_clears_the_field_witness :
  (fun r => col r "ai_video")
    <$> final (run (table_world quiet refusing)
                   (DeleteAiVideo.deleteAiVideo deployed_with_r2 (video_request (Some 1) None))
                   showroom)
  = [VNull; VNull; VNull; VStr "https://cdn/v4.mp4"].
Proof.
  destruct (X14_delete_ai_video_clears_the_field
              deployed_with_r2 (video_request (Some 1) None) refusing showroom
              (vehicle 1 "WP0AB2A99EXXXXXXX" "S-1" "Porsche" (VStr "https://cdn/v1.mp4") VNull))
    as (_ & -> & _).
  - reflexivity.
  - reflexivity.
  - unfold unique_ids. apply (bool_decide_unpack _). vm_compute. exact I.
  - unfold ids_present. apply (bool_decide_unpack _). vm_compute. exact I.
  - reflexivity.
  - reflexivity.
  - reflexivity.
  - vm_compute. reflexivity.
Defined.

(** ** update-vehicles on the table *)

(** On a table with a primary key the ids the lookup captured pick the rows
    the lookup matched, no more and no fewer. *)
Lemma captured_ids_pick_the_matches (fs : list Filter) (t : Table) (r : Row) :
  unique_ids t -> ids_present t -> r ∈ t ->
  matches [In "id" (UpdateVehicles.ids (captured fs t))] r
  = matches (IsNull "deleted_at" :: fs) r.
Proof.
  intros Hu Hk Hr.
  pose proof (ids_present_elem t r Hk Hr) as Hid.
  destruct (matches (IsNull "deleted_at" :: fs) r) eqn:Hm.
  - cbn [matches forallb holds]. rewrite andb_true_r.
    apply andb_true_iff. split; [by destruct (col r "id") |].
    apply existsb_exists. exists (col r "id"). split; [| by apply value_eqb_eq].
    apply list_elem_of_In. unfold UpdateVehicles.ids, captured.
    apply list_elem_of_fmap. exists (project UpdateVehicles.columns r).
    split; [symmetry; apply col_project; by left |].
    apply list_elem_of_fmap_2. by apply elem_of_filter_matches.
  - destruct (matches [In "id" _] r) eqn:Hin; [| done].
    cbn [matches forallb holds] in Hin. rewrite andb_true_r in Hin.
    apply andb_true_iff in Hin as [_ (x & Hx & Hx'%value_eqb_eq)%existsb_exists].
    subst x.
    apply list_elem_of_In in Hx. unfold UpdateVehicles.ids, captured in Hx.
    apply list_elem_of_fmap in Hx as (row & Hrow & (r' & -> & Hr')%list_elem_of_fmap).
    apply elem_of_filter_matches in Hr' as [Hr' Hm'].
    unfold UpdateVehicles.columns in Hrow.
    rewrite (col_project _ r' "id") in Hrow by (by left).
    assert (r = r') as <- by (by apply (unique_id t)).
    congruence.
Qed.

Lemma update_vehicles_nothing_matches (env : Env) (p : UpdateVehicles.Params)
      (s3 : S3Call -> S3Resp) (t : Table) (fs : list Filter) :
  configured env = true ->
  size (UpdateVehicles.updateData env p) <> 1%nat ->
  UpdateVehicles.target p = Some fs ->
  List.filter (matches (IsNull "deleted_at" :: fs)) t = [] ->
  run (table_world quiet s3) (UpdateVehicles.updateVehicles env p) t
  = {| result := UpdateVehicles.NoneFound; final := t;
       trace := [DbEvent (UpdateVehicles.lookup fs) (ok [])] |}.
Proof.
  intros Hc Hs Ht Hm. unfold UpdateVehicles.updateVehicles. rewrite Hc, Ht.
  apply Nat.eqb_neq in Hs. rewrite Hs. cbn [negb].
  simpl. simpl in Hm. rewrite Hm. reflexivity.
Qed.

(** X15: update-vehicles on a table with a primary key and no other writer.
    The rows rewritten are the visible rows that satisfy the target filter:
    each receives the assignments over its own columns, every other row,
    the soft-deleted ones among them, stays as it is, and the rows returned
    are the projections of the rewritten rows, one for each.  When no
    visible row satisfies the filter nothing is written. *)
Theorem X15_update_vehicles_rewrites_the_visible_matches
        (env : Env) (p : UpdateVehicles.Params) (s3 : S3Call -> S3Resp)
        (t : Table) (fs : list Filter) :
  configured env = true ->
  size (UpdateVehicles.updateData env p) <> 1%nat ->
  UpdateVehicles.target p = Some fs ->
  unique_ids t ->
  ids_present t ->
  (List.filter (matches (IsNull "deleted_at" :: fs)) t = [] ->
   result (run (table_world quiet s3) (UpdateVehicles.updateVehicles env p) t)
   = UpdateVehicles.NoneFound
   /\ final (run (table_world quiet s3) (UpdateVehicles.updateVehicles env p) t) = t)
  /\ (List.filter (matches (IsNull "deleted_at" :: fs)) t <> [] ->
      result (run (table_world quiet s3) (UpdateVehicles.updateVehicles env p) t)
      = UpdateVehicles.Updated
          (UpdateVehicles.updateData env p)
          (Some (project UpdateVehicles.columns
                   <$> (assign (UpdateVehicles.updateData env p)
                          <$> List.filter (matches (IsNull "deleted_at" :: fs)) t)))
      /\ final (run (table_world quiet s3) (UpdateVehicles.updateVehicles env p) t)
         = (fun r => if matches (IsNull "deleted_at" :: fs) r
                     then assign (UpdateVehicles.updateData env p) r else r) <$> t).
Proof.
  intros Hc Hs Ht Hu Hk. split.
  - intros Hm. by rewrite (update_vehicles_nothing_matches env p s3 t fs Hc Hs Ht Hm).
  - intros Hm.
    assert (captured fs t <> []) as Hcap.
    { unfold captured. intros H%fmap_nil_inv. done. }
    rewrite (update_vehicles_race env p quiet s3 t fs Hc Hs Ht Hcap).
    cbn [result final]. unfold quiet, UpdateVehicles.write.
    cbn [table_exec andb fst data ok].
    split.
    + do 4 f_equal. apply filter_ext_in. intros r Hr%list_elem_of_In.
      by apply captured_ids_pick_the_matches.
    + apply list_fmap_ext. intros i r Hr%list_elem_of_lookup_2.
      by rewrite captured_ids_pick_the_matches.
Qed.

(** In the showroom: the Ferraris get a price; vehicles 2 and 3 are visible,
    vehicle 4 is a soft-deleted one and keeps no price. *)
Lemma X15_update_vehicles_rewrites_the_visible_matches_witness :
  (fun r => col r "price")
    <$> final (run (table_world quiet obliging)
                   (UpdateVehicles.updateVehicles deployed update_the_ferraris) showroom)
  = [VNull; VNum 250000; VNum 250000; VNull].
Proof.
  destruct (X15_update_vehicles_rewrites_the_visible_matches
              deployed update_the_ferraris obliging showroom
              [Ilike "make" "%ferrari%"])
    as (_ & H).
  - reflexivity.
  - vm_compute. lia.
  - reflexivity.
  - unfold unique_ids. apply (bool_decide_unpack _). vm_compute. exact I.
  - unfold ids_present. apply (bool_decide_unpack _). vm_compute. exact I.
  - destruct H as (_ & ->).
    + intros H. apply (f_equal length) in H. vm_compute in H. discriminate H.
    + vm_compute. reflexivity.
Defined.

(** ** What the updating handlers leave alone *)

Lemma update_vehicles_final {S : Type} (w : World S) (env : Env)
      (p : UpdateVehicles.Params) (s : S) :
  final (run w (UpdateVehicles.updateVehicles env p) s) = s
  \/ exists fs,
      final (run w (UpdateVehicles.updateVehicles env p) s)
      = (on_db w (UpdateVehicles.lookup fs) s).2
      \/ exists vehicleIds,
          final (run w (UpdateVehicles.updateVehicles env p) s)
          = (on_db w (UpdateVehicles.write env p vehicleIds)
                   (on_db w (UpdateVehicles.lookup fs) s).2).2.
Proof.
  unfold UpdateVehicles.updateVehicles.
  destruct (negb (configured env)); [by left |].
  destruct (size _ =? 1)%nat; [by left |].
  destruct (UpdateVehicles.target p) as [fs |]; [| by left].
  right. exists fs. simpl.
  destruct (on_db w (UpdateVehicles.lookup fs) s) as [[[rows |] [m |]] s1]; simpl;
    try by left.
  destruct rows as [| v rows]; simpl; [by left |].
  right. exists (UpdateVehicles.ids (v :: rows)).
  by destruct (on_db w _ s1) as [[d [m |]] s2].
Qed.

(** An update that does not assign the column [c] leaves the column as it
    is, row by row. *)
Lemma update_keeps_column (c : string) (d : Row) (fs : list Filter) (cols : Columns)
      (single : bool) (t : Table) :
  d !! c = None ->
  (fun r => col r c) <$> (table_exec (Update d fs cols single) t).2
  = (fun r => col r c) <$> t.
Proof.
  intros Hd. cbn [table_exec].
  destruct (single && negb (length (List.filter (matches fs) t) =? 1)%nat); cbn [snd];
    [done |].
  rewrite <- list_fmap_compose. apply list_fmap_ext. intros i r _. simpl.
  destruct (matches fs r); [by apply col_assign_other | done].
Qed.

Lemma update_vehicles_identity (env : Env) (p : UpdateVehicles.Params) (c : string) :
  c ∈ identity_columns -> UpdateVehicles.updateData env p !! c = None.
Proof.
  unfold identity_columns. intros H.
  repeat (apply elem_of_cons in H as [-> | H]);
    try (unfold UpdateVehicles.updateData;
         rewrite !lookup_put_ne by discriminate;
         by rewrite lookup_singleton_ne by discriminate).
  by apply elem_of_nil in H.
Qed.

Lemma add_notes_identity (env : Env) (n : option string) (c : string) :
  c ∈ identity_columns -> AddNotes.updateData env n !! c = None.
Proof.
  unfold identity_columns. intros H.
  repeat (apply elem_of_cons in H as [-> | H]);
    try (unfold AddNotes.updateData; by rewrite !lookup_insert_ne by discriminate).
  by apply elem_of_nil in H.
Qed.

Lemma delete_ai_video_identity (env : Env) (c : string) :
  c ∈ identity_columns -> DeleteAiVideo.updateData env !! c = None.
Proof.
  unfold identity_columns. intros H.
  repeat (apply elem_of_cons in H as [-> | H]);
    try (unfold DeleteAiVideo.updateData; by rewrite !lookup_insert_ne by discriminate).
  by apply elem_of_nil in H.
Qed.

(** X16: whatever the request and whatever the outcome, update-vehicles,
    add-notes and delete-ai-video leave [id], [vin], [stock_number] and
    [deleted_at] of every row of the table as they were: none of them
    re-identifies, soft-deletes or restores a row, and none adds or removes
    one. *)
Theorem X16_updates_keep_identity_and_visibility
        (env : Env) (s3 : S3Call -> S3Resp) (t : Table) (c : string) :
  c ∈ identity_columns ->
  (forall p, (fun r => col r c)
               <$> final (run (table_world quiet s3) (UpdateVehicles.updateVehicles env p) t)
             = (fun r => col r c) <$> t)
  /\ (forall p, (fun r => col r c)
                  <$> final (run (table_world quiet s3) (AddNotes.addNotes env p) t)
                = (fun r => col r c) <$> t)
  /\ (forall p, (fun r => col r c)
                  <$> final (run (table_world quiet s3) (DeleteAiVideo.deleteAiVideo env p) t)
                = (fun r => col r c) <$> t).
Proof.
  intros Hc. repeat split; intros p.
  - destruct (update_vehicles_final (table_world quiet s3) env p t)
      as [-> | (fs & [-> | (vehicleIds & ->)])]; [done | |];
      rewrite !quiet_table; unfold UpdateVehicles.lookup; rewrite ?select_reads_only;
      [done |].
    apply update_keeps_column. by apply update_vehicles_identity.
  - destruct (add_notes_final (table_world quiet s3) env t p)
      as [-> | [-> | (n & vehicle & _ & ->)]]; [done | |];
      rewrite !quiet_table; unfold AddNotes.lookup; rewrite ?select_reads_only;
      [done |].
    apply update_keeps_column. by apply add_notes_identity.
  - destruct (delete_ai_video_final (table_world quiet s3) env t p)
      as [-> | [-> | (vehicle & s2 & _ & Hs2 & ->)]]; [done | |];
      rewrite ?quiet_table; unfold DeleteAiVideo.lookup; rewrite ?select_reads_only;
      [done |].
    assert (s2 = t) as ->.
    { destruct Hs2 as [-> | [call ->]]; [| done].
      rewrite quiet_table. unfold DeleteAiVideo.lookup. by rewrite select_reads_only. }
    apply update_keeps_column. by apply delete_ai_video_identity.
Qed.

(** No visible Ferrari becomes a soft-deleted one, and none comes back. *)
Lemma X16_updates_keep_identity_and_visibility_witness :
  (fun r => col r "deleted_at")
    <$> final (run (table_world quiet obliging)
                   (UpdateVehicles.updateVehicles deployed update_the_ferraris) showroom)
  = [VNull; VNull; VNull; VStr "2025-01-01T00:00:00.000Z"].
Proof.
  destruct (X16_updates_keep_identity_and_visibility deployed obliging showroom "deleted_at")
    as (-> & _).
  - unfold identity_columns. do 3 right. left.
  - reflexivity.
Defined.

(** ** get-vehicles: which parameters count as given *)

Lemma text_given (c : string) (x : option string) :
  GetVehicles.text c (givenS x) = GetVehicles.text c x.
Proof. unfold GetVehicles.text, givenS. by destruct (truthyS x) eqn:H; rewrite ?H. Qed.

Lemma number_given (op : string -> Value -> Filter) (c : string) (x : option Z) :
  GetVehicles.number op c (givenN x) = GetVehicles.number op c x.
Proof. unfold GetVehicles.number, givenN. by destruct (truthyN x) eqn:H; rewrite ?H. Qed.

Lemma filters_given (p : GetVehicles.Params) :
  GetVehicles.filters (given_get_vehicles p) = GetVehicles.filters p.
Proof.
  unfold GetVehicles.filters, given_get_vehicles. cbn [GetVehicles.make GetVehicles.model
    GetVehicles.year GetVehicles.minYear GetVehicles.maxYear GetVehicles.minPrice
    GetVehicles.maxPrice GetVehicles.hasPrice GetVehicles.colour GetVehicles.interiorColor
    GetVehicles.newUsed GetVehicles.certified GetVehicles.transmission GetVehicles.drivetrain
    GetVehicles.fuel GetVehicles.maxOdometer GetVehicles.body GetVehicles.dealerName].
  by rewrite !text_given, !number_given.
Qed.

Lemma ordering_given (sortBy sortOrder : option string) :
  GetVehicles.ordering (givenS sortBy) (givenS sortOrder)
  = GetVehicles.ordering sortBy sortOrder.
Proof.
  unfold GetVehicles.ordering, givenS.
  destruct (truthyS sortBy) eqn:Hb; rewrite ?Hb; [| done].
  by destruct (truthyS sortOrder) eqn:Ho; rewrite ?Ho.
Qed.

Lemma limiting_given (limit : option Z) :
  GetVehicles.limiting (givenN limit) = GetVehicles.limiting limit.
Proof. unfold GetVehicles.limiting, givenN. by destruct (truthyN limit) eqn:H; rewrite ?H. Qed.

(** X17: get-vehicles reads an empty text, a [year], [minYear] or [maxYear]
    of [0], an empty [sortBy] or [sortOrder] and a [limit] of [0] as if the
    parameter had not been sent: the request with these replaced by
    [undefined] runs as the same program, in both versions of the handler.
    In particular [limit: 0] asks for no limit, not for no rows. *)
Theorem X17_get_vehicles_falsy_parameters_are_absent
        (env : Env) (p : GetVehicles.Params) (sortBy sortOrder : option string)
        (limit : option Z) :
  GetVehicles.getVehicles env (given_get_vehicles p) = GetVehicles.getVehicles env p
  /\ GetVehicles.getVehiclesSorted env (given_get_vehicles p)
                                   (givenS sortBy) (givenS sortOrder) (givenN limit)
     = GetVehicles.getVehiclesSorted env p sortBy sortOrder limit
  /\ GetVehicles.getVehiclesSorted env p sortBy sortOrder (Some 0)
     = GetVehicles.getVehiclesSorted env p sortBy sortOrder None.
Proof.
  unfold GetVehicles.getVehicles, GetVehicles.getVehiclesSorted, GetVehicles.query.
  by rewrite filters_given, ordering_given, limiting_given.
Qed.

(** ** get-vehicles on the table *)

Lemma matches_app (fs gs : list Filter) (r : Row) :
  matches (fs ++ gs)%list r = matches fs r && matches gs r.
Proof. apply forallb_app. Qed.

(** What the answer of the store is turned into lists the rows of the
    answer. *)
Lemma listing_respond (rows : list Row) : listing (GetVehicles.respond (ok rows)) = rows.
Proof. by destruct rows. Qed.

Lemma listing_failed (m : string) : listing (GetVehicles.respond (failed m)) = [].
Proof. done. Qed.

Lemma result_await {S A : Type} (w : World S) (c : DbCall) (f : DbResp -> A) (s : S) :
  result (run w (r ← await c; Ret (f r)) s) = f (on_db w c s).1.
Proof. simpl. by destruct (on_db w c s). Qed.

(** The rows the sorted version lists, on the table. *)
Lemma get_vehicles_sorted_listing (env : Env) (p : GetVehicles.Params)
      (sortBy sortOrder : option string) (limit : option Z)
      (s3 : S3Call -> S3Resp) (t : Table) :
  configured env = true ->
  listing (result (run (table_world quiet s3)
                       (GetVehicles.getVehiclesSorted env p sortBy sortOrder limit) t))
  = match GetVehicles.limiting limit with
    | None =>
        ordered (GetVehicles.ordering sortBy sortOrder)
                (List.filter (matches (IsNull "deleted_at" :: GetVehicles.filters p)) t)
    | Some n =>
        if n <? 0 then []
        else take (Z.to_nat n)
                  (ordered (GetVehicles.ordering sortBy sortOrder)
                     (List.filter (matches (IsNull "deleted_at" :: GetVehicles.filters p)) t))
    end.
Proof.
  intros Hc. unfold GetVehicles.getVehiclesSorted. rewrite Hc. cbn [negb].
  rewrite (result_await (table_world quiet s3) _ GetVehicles.respond t).
  rewrite quiet_table. unfold GetVehicles.query. cbn [table_exec].
  destruct (GetVehicles.limiting limit) as [n |]; [destruct (n <? 0) |]; cbn [fst];
    rewrite ?listing_failed, ?listing_respond; [done | |];
    by rewrite list_fmap_id.
Qed.

Lemma get_vehicles_unsorted (env : Env) (p : GetVehicles.Params) :
  GetVehicles.getVehicles env p = GetVehicles.getVehiclesSorted env p None None None.
Proof. reflexivity. Qed.

Lemma get_vehicles_listing (env : Env) (p : GetVehicles.Params)
      (s3 : S3Call -> S3Resp) (t : Table) :
  configured env = true ->
  listing (result (run (table_world quiet s3) (GetVehicles.getVehicles env p) t))
  = List.filter (matches (IsNull "deleted_at" :: GetVehicles.filters p)) t.
Proof.
  intros Hc. rewrite get_vehicles_unsorted.
  by rewrite (get_vehicles_sorted_listing env p None None None s3 t Hc).
Qed.

Lemma unconfigured_listing (env : Env) (p : GetVehicles.Params)
      (sortBy sortOrder : option string) (limit : option Z)
      (s3 : S3Call -> S3Resp) (t : Table) :
  configured env = false ->
  listing (result (run (table_world quiet s3)
                       (GetVehicles.getVehiclesSorted env p sortBy sortOrder limit) t)) = [].
Proof. intros Hc. unfold GetVehicles.getVehiclesSorted. by rewrite Hc. Qed.

(** A listed row is a row of the table that satisfies the filters. *)
Lemma listed_matches (env : Env) (p : GetVehicles.Params)
      (sortBy sortOrder : option string) (limit : option Z)
      (s3 : S3Call -> S3Resp) (t : Table) (row : Row) :
  row ∈ listing (result (run (table_world quiet s3)
                             (GetVehicles.getVehiclesSorted env p sortBy sortOrder limit) t)) ->
  row ∈ t /\ matches (IsNull "deleted_at" :: GetVehicles.filters p) row = true.
Proof.
  destruct (configured env) eqn:Hc.
  - rewrite (get_vehicles_sorted_listing env p sortBy sortOrder limit s3 t Hc).
    assert (forall l, row ∈ l ->
                      l ⊆ ordered (GetVehicles.ordering sortBy sortOrder)
                            (List.filter (matches (IsNull "deleted_at" :: GetVehicles.filters p)) t) ->
                      row ∈ t /\ matches (IsNull "deleted_at" :: GetVehicles.filters p) row = true)
      as Hin.
    { intros l Hrow Hl. apply Hl in Hrow.
      apply (elem_of_filter_matches (IsNull "deleted_at" :: GetVehicles.filters p)).
      destruct (GetVehicles.ordering sortBy sortOrder) as [[c asc] |]; cbn [ordered] in Hrow;
        [| done].
      by rewrite merge_sort_Permutation in Hrow. }
    destruct (GetVehicles.limiting limit) as [n |].
    + destruct (n <? 0); [by intros ?%elem_of_nil |].
      intros Hrow. apply (Hin _ Hrow). apply sublist_subseteq, sublist_take.
    + intros Hrow. by apply (Hin _ Hrow).
  - rewrite (unconfigured_listing env p sortBy sortOrder limit s3 t Hc).
    by intros ?%elem_of_nil.
Qed.

(** The filters of a request, one parameter at a time. *)
Lemma filters_hold (p : GetVehicles.Params) (r : Row) :
  matches (GetVehicles.filters p) r = true ->
  matches (GetVehicles.number Eq "year" (GetVehicles.year p)) r = true
  /\ matches (GetVehicles.number Gte "year" (GetVehicles.minYear p)) r = true
  /\ matches (GetVehicles.number Lte "year" (GetVehicles.maxYear p)) r = true
  /\ matches (GetVehicles.bound Gte "price" (GetVehicles.minPrice p)) r = true
  /\ matches (GetVehicles.bound Lte "price" (GetVehicles.maxPrice p)) r = true
  /\ matches (GetVehicles.presence "price" (GetVehicles.hasPrice p)) r = true
  /\ matches (GetVehicles.bound Lte "odometer" (GetVehicles.maxOdometer p)) r = true.
Proof.
  unfold GetVehicles.filters. cbn [concat].
  rewrite !matches_app, !andb_true_iff. tauto.
Qed.

Lemma gte_holds (c : string) (n : Z) (r : Row) :
  matches [Gte c (VNum n)] r = true -> at_least c n r.
Proof.
  unfold at_least. simpl. destruct (col r c) as [| x | s]; simpl; try discriminate.
  rewrite andb_true_r. intros H%Z.geb_le. by exists x.
Qed.

Lemma lte_holds (c : string) (n : Z) (r : Row) :
  matches [Lte c (VNum n)] r = true -> at_most c n r.
Proof.
  unfold at_most. simpl. destruct (col r c) as [| x | s]; simpl; try discriminate.
  rewrite andb_true_r. intros H%Z.leb_le. by exists x.
Qed.

(** X18: what get-vehicles lists, on the table, in both versions of the
    handler.  A listed row is a row of the table, not soft-deleted; with
    [minPrice], [maxPrice] or [maxOdometer] sent, [0] included, its column
    holds a number within the bound, so that a row without a price or
    without an odometer reading is left out; with [hasPrice] sent its price
    is present ([true]) or missing ([false]); a [year] other than [0] is its
    year, and [minYear] and [maxYear] other than [0] bound it.  The plain
    version lists every such row: each visible row of the table that
    satisfies the filters of the request. *)
Theorem X18_get_vehicles_lists_the_rows_within_the_bounds
        (env : Env) (p : GetVehicles.Params) (sortBy sortOrder : option string)
        (limit : option Z) (s3 : S3Call -> S3Resp) (t : Table) (row : Row) :
  (row ∈ listing (result (run (table_world quiet s3)
                              (GetVehicles.getVehiclesSorted env p sortBy sortOrder limit) t)) ->
   row ∈ t
   /\ col row "deleted_at" = VNull
   /\ (forall n, GetVehicles.minPrice p = Some n -> at_least "price" n row)
   /\ (forall n, GetVehicles.maxPrice p = Some n -> at_most "price" n row)
   /\ (forall n, GetVehicles.maxOdometer p = Some n -> at_most "odometer" n row)
   /\ (GetVehicles.hasPrice p = Some true -> col row "price" <> VNull)
   /\ (GetVehicles.hasPrice p = Some false -> col row "price" = VNull)
   /\ (forall n, GetVehicles.year p = Some n -> n <> 0 -> col row "year" = VNum n)
   /\ (forall n, GetVehicles.minYear p = Some n -> n <> 0 -> at_least "year" n row)
   /\ (forall n, GetVehicles.maxYear p = Some n -> n <> 0 -> at_most "year" n row))
  /\ (configured env = true ->
      (row ∈ listing (result (run (table_world quiet s3) (GetVehicles.getVehicles env p) t))
       <-> row ∈ t /\ matches (IsNull "deleted_at" :: GetVehicles.filters p) row = true)).
Proof.
  split.
  - intros [Hrow Hm]%listed_matches. split; [done |].
    split; [by apply (visible_of_matches (GetVehicles.filters p)) |].
    change (IsNull "deleted_at" :: GetVehicles.filters p)
      with ([IsNull "deleted_at"] ++ GetVehicles.filters p)%list in Hm.
    rewrite matches_app in Hm. apply andb_true_iff in Hm as [_ Hm].
    apply filters_hold in Hm as (Hy & Hmin & Hmax & Hlo & Hhi & Hpr & Hod).
    repeat split.
    + intros n Hn. rewrite Hn in Hlo. by apply gte_holds.
    + intros n Hn. rewrite Hn in Hhi. by apply lte_holds.
    + intros n Hn. rewrite Hn in Hod. by apply lte_holds.
    + intros Hn. rewrite Hn in Hpr. simpl in Hpr. by destruct (col row "price").
    + intros Hn. rewrite Hn in Hpr. simpl in Hpr. by destruct (col row "price").
    + intros n Hn H0. rewrite Hn in Hy. unfold GetVehicles.number in Hy.
      assert (truthyN (Some n) = true) as Ht by (unfold truthyN; simpl; by destruct n).
      rewrite Ht in Hy. by apply matches_eq in Hy as [Hy _].
    + intros n Hn H0. rewrite Hn in Hmin. unfold GetVehicles.number in Hmin.
      assert (truthyN (Some n) = true) as Ht by (unfold truthyN; simpl; by destruct n).
      rewrite Ht in Hmin. by apply gte_holds.
    + intros n Hn H0. rewrite Hn in Hmax. unfold GetVehicles.number in Hmax.
      assert (truthyN (Some n) = true) as Ht by (unfold truthyN; simpl; by destruct n).
      rewrite Ht in Hmax. by apply lte_holds.
  - intros Hc. rewrite (get_vehicles_listing env p s3 t Hc).
    apply elem_of_filter_matches.
Qed.

(** On the forecourt, with [minPrice: 0]: the Porsche is listed, and has a
    price. *)
Lemma X18_get_vehicles_lists_the_rows_within_the_bounds_witness :
  at_least "price" 0
           (<["price" := VNum 90000]> (vehicle 1 "WP0AB2A99EXXXXXXX" "F-1" "Porsche" VNull VNull)).
Proof.
  destruct (X18_get_vehicles_lists_the_rows_within_the_bounds
              deployed (find_by_price (Some 0) None) None None None obliging forecourt
              (<["price" := VNum 90000]>
                 (vehicle 1 "WP0AB2A99EXXXXXXX" "F-1" "Porsche" VNull VNull)))
    as [H _].
  destruct H as (_ & _ & H & _).
  - rewrite (get_vehicles_sorted_listing deployed _ None None None obliging forecourt eq_refl).
    apply elem_of_filter_matches. split; [left | reflexivity].
  - exact (H 0 eq_refl).
Defined.

(** X19: a price bound together with [hasPrice: false] asks for rows that
    have a price within the bound and have none: whatever the table, the
    sorting and the limit, get-vehicles lists nothing. *)
Theorem X19_price_bound_without_price_lists_nothing
        (env : Env) (p : GetVehicles.Params) (sortBy sortOrder : option string)
        (limit : option Z) (s3 : S3Call -> S3Resp) (t : Table) :
  GetVehicles.hasPrice p = Some false ->
  GetVehicles.minPrice p <> None \/ GetVehicles.maxPrice p <> None ->
  listing (result (run (table_world quiet s3)
                       (GetVehicles.getVehiclesSorted env p sortBy sortOrder limit) t)) = []
  /\ listing (result (run (table_world quiet s3) (GetVehicles.getVehicles env p) t)) = [].
Proof.
  intros Hh Hb.
  assert (forall sortBy sortOrder limit,
             listing (result (run (table_world quiet s3)
                                  (GetVehicles.getVehiclesSorted env p sortBy sortOrder limit) t))
             = []) as H.
  { intros sb so lim.
    destruct (listing _) as [| row rest] eqn:Hl; [done |]. exfalso.
    assert (row ∈ row :: rest) as Hrow by left. rewrite <- Hl in Hrow.
    apply listed_matches in Hrow as [_ Hm].
    change (IsNull "deleted_at" :: GetVehicles.filters p)
      with ([IsNull "deleted_at"] ++ GetVehicles.filters p)%list in Hm.
    rewrite matches_app in Hm. apply andb_true_iff in Hm as [_ Hm].
    apply filters_hold in Hm as (_ & _ & _ & Hlo & Hhi & Hpr & _).
    rewrite Hh in Hpr. simpl in Hpr.
    destruct Hb as [Hb | Hb].
    - destruct (GetVehicles.minPrice p) as [n |]; [| done].
      apply gte_holds in Hlo as (x & Hx & _). by rewrite Hx in Hpr.
    - destruct (GetVehicles.maxPrice p) as [n |]; [| done].
      apply lte_holds in Hhi as (x & Hx & _). by rewrite Hx in Hpr. }
  split; [apply H |]. rewrite get_vehicles_unsorted. apply H.
Qed.

(** On the forecourt, with [minPrice: 0] and [hasPrice: false]. *)
Lemma X19_price_bound_without_price_lists_nothing_witness :
  listing (result (run (table_world quiet obliging)
                       (GetVehicles.getVehicles deployed (find_by_price (Some 0) (Some false)))
                       forecourt))
  = [].
Proof.
  destruct (X19_price_bound_without_price_lists_nothing
              deployed (find_by_price (Some 0) (Some false)) None None None obliging forecourt)
    as [_ H].
  - reflexivity.
  - left. discriminate.
  - exact H.
Defined.

(** ** Sorting and limiting *)

Lemma value_leb_total (a b : Value) : value_leb a b = true \/ value_leb b a = true.
Proof.
  destruct a as [| x | x], b as [| y | y]; simpl; auto.
  - destruct (Z.leb_spec x y); [by left | right]. apply Z.leb_le. lia.
  - apply String.leb_total.
Qed.

#[local] Instance row_before_total (c : string) (asc : bool) : Total (row_before c asc).
Proof.
  intros r1 r2. unfold row_before.
  destruct asc;
    [destruct (value_leb_total (col r1 c) (col r2 c)) as [H | H]
    | destruct (value_leb_total (col r2 c) (col r1 c)) as [H | H]];
    first [left; by rewrite H | right; by rewrite H].
Qed.

Lemma ordering_direction (c : string) (sortOrder : option string) :
  c <> "" ->
  GetVehicles.ordering (Some c) sortOrder = Some (c, bool_decide (sortOrder = Some "asc")).
Proof.
  intros Hc. unfold GetVehicles.ordering.
  assert (truthyS (Some c) = true) as ->.
  { unfold truthyS. simpl. apply negb_true_iff. by apply String.eqb_neq. }
  simpl. do 2 f_equal.
  destruct sortOrder as [o |]; [| done].
  unfold truthyS. simpl.
  destruct (String.eqb_spec o "") as [-> | Ho]; simpl; [done |].
  destruct (String.eqb_spec o "asc") as [-> | Ha]; [done |].
  symmetry. apply bool_decide_eq_false. congruence.
Qed.

(** X20: sorting and limiting in the version of get-vehicles that takes
    [sortBy], [sortOrder] and [limit], on the table.  A positive [limit]
    keeps the first [limit] rows of what the same request lists without it;
    with [sortBy] the rows listed are the rows listed without it, each as
    often, in the order of that column: ascending when [sortOrder] is
    ["asc"], descending otherwise, so also when it is not sent. *)
Theorem X20_get_vehicles_sorts_and_limits
        (env : Env) (p : GetVehicles.Params) (sortOrder : option string)
        (s3 : S3Call -> S3Resp) (t : Table) :
  (forall sortBy n,
      0 < n ->
      listing (result (run (table_world quiet s3)
                           (GetVehicles.getVehiclesSorted env p sortBy sortOrder (Some n)) t))
      = take (Z.to_nat n)
             (listing (result (run (table_world quiet s3)
                                   (GetVehicles.getVehiclesSorted env p sortBy sortOrder None)
                                   t))))
  /\ (forall c,
         c <> "" ->
         listing (result (run (table_world quiet s3)
                              (GetVehicles.getVehiclesSorted env p (Some c) sortOrder None) t))
         ≡ₚ listing (result (run (table_world quiet s3) (GetVehicles.getVehicles env p) t))
         /\ Sorted (row_before c (bool_decide (sortOrder = Some "asc")))
                   (listing (result (run (table_world quiet s3)
                                         (GetVehicles.getVehiclesSorted env p (Some c)
                                                                        sortOrder None) t)))).
Proof.
  destruct (configured env) eqn:Hc.
  - split.
    + intros sortBy n Hn.
      rewrite !(get_vehicles_sorted_listing env p _ _ _ s3 t Hc).
      assert (GetVehicles.limiting (Some n) = Some n) as ->.
      { unfold GetVehicles.limiting, truthyN. simpl. by destruct n. }
      cbn [GetVehicles.limiting truthyN ofNum from_option truthy].
      assert ((n <? 0) = false) as -> by lia.
      reflexivity.
    + intros c Hne.
      rewrite (get_vehicles_listing env p s3 t Hc).
      rewrite (get_vehicles_sorted_listing env p _ _ _ s3 t Hc).
      cbn [GetVehicles.limiting truthyN ofNum from_option truthy].
      rewrite (ordering_direction c sortOrder Hne). cbn [ordered].
      split; [apply merge_sort_Permutation | apply (Sorted_merge_sort _)].
  - split.
    + intros sortBy n _.
      rewrite !(unconfigured_listing env p _ _ _ s3 t Hc). by rewrite take_nil.
    + intros c _. rewrite get_vehicles_unsorted.
      rewrite !(unconfigured_listing env p _ _ _ s3 t Hc). split; [done | constructor].
Qed.

(** On the forecourt, by price: the dearest first when no order is sent,
    and only that one with [limit: 1]. *)
Lemma X20_get_vehicles_sorts_and_limits_witness :
  (fun r => col r "id")
    <$> listing (result (run (table_world quiet obliging)
                             (GetVehicles.getVehiclesSorted
                                deployed (find_by_price None (Some true))
                                (Some "price") None (Some 1))
                             forecourt))
  = [VNum 3].
Proof.
  destruct (X20_get_vehicles_sorts_and_limits
              deployed (find_by_price None (Some true)) None obliging forecourt)
    as [H _].
  rewrite (H (Some "price") 1); [| lia].
  vm_compute. reflexivity.
Defined.

(** ** One call after another *)

(** A rewrite that assigns none of the identity columns: the ids stay, and a
    lookup by identifier finds after it what it found before, rewritten. *)
Lemma rewrite_keeps_column (c : string) (r0 d : Row) (t : Table) :
  d !! c = None ->
  (fun r => col r c) <$> (rewrite_row r0 d <$> t) = (fun r => col r c) <$> t.
Proof.
  intros Hd. rewrite <- list_fmap_compose. apply list_fmap_ext. intros i r _. simpl.
  unfold rewrite_row. destruct (bool_decide (r = r0)); [by apply col_assign_other | done].
Qed.

Lemma rewrite_unique_ids (r0 d : Row) (t : Table) :
  d !! "id" = None -> unique_ids t -> unique_ids (rewrite_row r0 d <$> t).
Proof. intros Hd. unfold unique_ids. by rewrite rewrite_keeps_column. Qed.

Lemma rewrite_ids_present (r0 d : Row) (t : Table) :
  d !! "id" = None -> ids_present t -> ids_present (rewrite_row r0 d <$> t).
Proof.
  intros Hd. unfold ids_present. rewrite Forall_fmap. intros Hk.
  apply (Forall_impl _ _ _ Hk). intros r Hr. simpl. unfold rewrite_row.
  destruct (bool_decide (r = r0)); [by rewrite col_assign_other | done].
Qed.

Lemma notes_lookup_after_write (p : AddNotes.Params) (d r : Row) :
  (forall c, c ∈ identity_columns -> d !! c = None) ->
  matches (IsNull "deleted_at" :: AddNotes.identifierFilter p) (assign d r)
  = matches (IsNull "deleted_at" :: AddNotes.identifierFilter p) r.
Proof.
  intros H.
  assert (d !! "id" = None) as H1 by (apply H; by left).
  assert (d !! "vin" = None) as H2 by (apply H; right; by left).
  assert (d !! "stock_number" = None) as H3 by (apply H; do 2 right; by left).
  assert (d !! "deleted_at" = None) as H4 by (apply H; do 3 right; by left).
  unfold AddNotes.identifierFilter.
  destruct (truthyN _); [| destruct (truthyS _); [| destruct (truthyS _)]];
    simpl; by rewrite ?col_assign_other.
Qed.

Lemma notes_lookup_after_rewrite (p : AddNotes.Params) (r0 d : Row) (t : Table) :
  (forall c, c ∈ identity_columns -> d !! c = None) ->
  List.filter (matches (IsNull "deleted_at" :: AddNotes.identifierFilter p))
              (rewrite_row r0 d <$> t)
  = rewrite_row r0 d
      <$> List.filter (matches (IsNull "deleted_at" :: AddNotes.identifierFilter p)) t.
Proof.
  intros H. apply filter_fmap_stable. intros r. unfold rewrite_row.
  destruct (bool_decide (r = r0)); [by apply notes_lookup_after_write | done].
Qed.

(** The run of add-notes that finds its row, on the table. *)
Lemma add_notes_on_table (env : Env) (p : AddNotes.Params) (n : option string)
      (s3 : S3Call -> S3Resp) (t : Table) (r0 : Row) :
  configured env = true ->
  identifierCount (AddNotes.candidates p) = 1%nat ->
  AddNotes.notes p = Some n ->
  unique_ids t ->
  ids_present t ->
  List.filter (matches (IsNull "deleted_at" :: AddNotes.identifierFilter p)) t = [r0] ->
  result (run (table_world quiet s3) (AddNotes.addNotes env p) t)
  = AddNotes.Written
      (if is_null (AddNotes.notesValue n) then "deleted"
       else if truthy (col r0 "notes") then "updated" else "added")
      (vehicleInfo r0)
      (project (Cols ["id"; "year"; "make"; "model"; "vin"; "notes"])
               (assign (AddNotes.updateData env n) r0))
      (if is_null (AddNotes.notesValue n) then "No notes" else show (AddNotes.notesValue n))
  /\ final (run (table_world quiet s3) (AddNotes.addNotes env p) t)
     = rewrite_row r0 (AddNotes.updateData env n) <$> t.
Proof.
  intros Hc H1 Hn Hu Hk Hm.
  assert (r0 ∈ t) as H0.
  { apply (elem_of_filter_matches (IsNull "deleted_at" :: AddNotes.identifierFilter p)).
    rewrite Hm. left. }
  pose proof (ids_present_elem t r0 Hk H0) as Hid.
  set (v := project AddNotes.lookupColumns r0).
  assert (col v "id" = col r0 "id") as Hvid by (apply col_project; left).
  assert (col v "notes" = col r0 "notes") as Hvn by (apply col_project; do 6 right; left).
  assert (vehicleInfo v = vehicleInfo r0) as Hinfo.
  { apply vehicleInfo_project; repeat first [by left | right]. }
  rewrite (add_notes_found
             (table_world quiet s3) env p n t t
             (rewrite_row r0 (AddNotes.updateData env n) <$> t) v
             (project (Cols ["id"; "year"; "make"; "model"; "vin"; "notes"])
                      (assign (AddNotes.updateData env n) r0))
             (ok [project (Cols ["id"; "year"; "make"; "model"; "vin"; "notes"])
                          (assign (AddNotes.updateData env n) r0)]));
    try done.
  - simpl. by rewrite Hvn, Hinfo.
  - rewrite quiet_table. unfold AddNotes.lookup. cbn [table_exec ordered]. by rewrite Hm.
  - rewrite quiet_table. unfold AddNotes.write. rewrite Hvid. by apply write_one.
Qed.

(** The later assignments of add-notes cover the earlier ones. *)
Lemma notes_overwritten (env1 env2 : Env) (n1 n2 : option string) (r : Row) :
  assign (AddNotes.updateData env2 n2) (assign (AddNotes.updateData env1 n1) r)
  = assign (AddNotes.updateData env2 n2) r.
Proof.
  unfold assign, AddNotes.updateData. apply map_eq. intros c.
  rewrite !lookup_union.
  destruct (decide (c = "updated_at")) as [-> | H1].
  - rewrite !lookup_insert_eq. by destruct (r !! "updated_at").
  - rewrite !(lookup_insert_ne _ "updated_at") by done.
    destruct (decide (c = "notes")) as [-> | H2].
    + rewrite !lookup_insert_eq. by destruct (r !! "notes").
    + rewrite !lookup_insert_ne by done. rewrite !lookup_empty.
      by destruct (r !! c).
Qed.

(** X21: two calls of add-notes for the same visible row of a table with a
    primary key, by whichever of its identifiers.  The second call finds the
    row again and succeeds; the table it leaves is the table the second call
    alone would have left, so the notes and [updated_at] are those of the
    last call.  The second message says "deleted" when it clears the notes,
    otherwise "updated" when the first call wrote a text and "added" when
    the first call cleared them. *)
Theorem X21_add_notes_last_write_wins
        (env1 env2 : Env) (p1 p2 : AddNotes.Params) (n1 n2 : option string)
        (s3 : S3Call -> S3Resp) (t : Table) (r0 : Row) :
  configured env1 = true ->
  configured env2 = true ->
  identifierCount (AddNotes.candidates p1) = 1%nat ->
  identifierCount (AddNotes.candidates p2) = 1%nat ->
  AddNotes.notes p1 = Some n1 ->
  AddNotes.notes p2 = Some n2 ->
  unique_ids t ->
  ids_present t ->
  List.filter (matches (IsNull "deleted_at" :: AddNotes.identifierFilter p1)) t = [r0] ->
  List.filter (matches (IsNull "deleted_at" :: AddNotes.identifierFilter p2)) t = [r0] ->
  final (run (table_world quiet s3) (AddNotes.addNotes env2 p2)
             (final (run (table_world quiet s3) (AddNotes.addNotes env1 p1) t)))
  = final (run (table_world quiet s3) (AddNotes.addNotes env2 p2) t)
  /\ exists info v display,
      result (run (table_world quiet s3) (AddNotes.addNotes env2 p2)
                  (final (run (table_world quiet s3) (AddNotes.addNotes env1 p1) t)))
      = AddNotes.Written
          (if is_null (AddNotes.notesValue n2) then "deleted"
           else if truthy (AddNotes.notesValue n1) then "updated" else "added")
          info v display.
Proof.
  intros Hc1 Hc2 Hi1 Hi2 Hn1 Hn2 Hu Hk Hm1 Hm2.
  destruct (add_notes_on_table env1 p1 n1 s3 t r0 Hc1 Hi1 Hn1 Hu Hk Hm1) as [_ ->].
  destruct (add_notes_on_table env2 p2 n2 s3 t r0 Hc2 Hi2 Hn2 Hu Hk Hm2) as [_ ->].
  set (d1 := AddNotes.updateData env1 n1).
  assert (r0 ∈ t) as H0.
  { apply (elem_of_filter_matches (IsNull "deleted_at" :: AddNotes.identifierFilter p1)).
    rewrite Hm1. left. }
  assert (List.filter (matches (IsNull "deleted_at" :: AddNotes.identifierFilter p2))
                      (rewrite_row r0 d1 <$> t) = [assign d1 r0]) as Hm.
  { rewrite notes_lookup_after_rewrite by (intros c; apply add_notes_identity).
    rewrite Hm2. simpl. by rewrite rewrite_row_same. }
  destruct (add_notes_on_table env2 p2 n2 s3 (rewrite_row r0 d1 <$> t) (assign d1 r0)
                               Hc2 Hi2 Hn2) as [-> ->]; try done.
  - apply rewrite_unique_ids; [apply add_notes_identity; by left | done].
  - apply rewrite_ids_present; [apply add_notes_identity; by left | done].
  - split.
    + rewrite <- list_fmap_compose. apply fmap_agree. intros r Hr. simpl.
      destruct (decide (r = r0)) as [-> | Hne].
      * rewrite !rewrite_row_same. apply notes_overwritten.
      * rewrite (rewrite_row_other r0 d1 r Hne).
        rewrite rewrite_row_other; [by rewrite rewrite_row_other |].
        intros ->. apply Hne. apply (unique_id t); [done | done | done |].
        apply col_assign_other. apply add_notes_identity. by left.
    + unfold d1. destruct (assign_notes env1 n1 r0) as (-> & _). by eexists _, _, _.
Qed.

(** On the lot: notes for vehicle 5 by its id, then cleared by its VIN. *)
Lemma X21_add_notes_last_write_wins_witness :
  (fun r => col r "notes")
    <$> final (run (table_world quiet obliging)
                   (AddNotes.addNotes deployed
                      (notes_request None (Some "WBA00000000000005") (Some None)))
                   (final (run (table_world quiet obliging)
                               (AddNotes.addNotes deployed
                                  (notes_request (Some 5) None (Some (Some "sold"))))
                               lot)))
  = [VNull; VNull].
Proof.
  destruct (X21_add_notes_last_write_wins
              deployed deployed
              (notes_request (Some 5) None (Some (Some "sold")))
              (notes_request None (Some "WBA00000000000005") (Some None))
              (Some "sold") None obliging lot
              (<["notes" := VStr "call back on Monday"]>
                 (vehicle 5 "WBA00000000000005" "L-5" "BMW" VNull VNull)))
    as [-> _].
  - reflexivity.
  - reflexivity.
  - reflexivity.
  - reflexivity.
  - reflexivity.
  - reflexivity.
  - unfold unique_ids. apply (bool_decide_unpack _). vm_compute. exact I.
  - unfold ids_present. apply (bool_decide_unpack _). vm_compute. exact I.
  - reflexivity.
  - reflexivity.
  - vm_compute. reflexivity.
Defined.

(** ** After a deletion *)

(** Once the row is gone no visible row carries its id. *)
Lemma id_gone (t : Table) (r0 : Row) (i : Z) :
  unique_ids t -> r0 ∈ t -> col r0 "id" = VNum i ->
  List.filter (matches [IsNull "deleted_at"; Eq "id" (VNum i)])
              (List.filter (fun r => negb (bool_decide (r = r0))) t) = [].
Proof.
  intros Hu H0 Hi.
  destruct (List.filter (matches _) _) as [| r l] eqn:Hf; [done |]. exfalso.
  assert (r ∈ r :: l) as Hr by left. rewrite <- Hf in Hr.
  apply elem_of_filter_matches in Hr as [Hr Hm].
  rewrite list_elem_of_In, filter_In, negb_true_iff, bool_decide_eq_false in Hr.
  destruct Hr as [Hr%list_elem_of_In Hne]. apply Hne.
  apply (unique_id t); [done | done | done |].
  change [IsNull "deleted_at"; Eq "id" (VNum i)]
    with ([IsNull "deleted_at"] ++ [Eq "id" (VNum i)])%list in Hm.
  rewrite matches_app in Hm. apply andb_true_iff in Hm as [_ Hm].
  apply matches_eq in Hm as [Hm _]. congruence.
Qed.

(** X22: a vehicle removed by delete-vehicle is gone for every tool.  On a
    table with a primary key, after the call that deleted the row with id
    [i], add-notes and delete-ai-video by that id answer that no vehicle was
    found, update-vehicles by that id that none matched, each after its
    lookup alone and without touching the table, and get-vehicles does not
    list the row, whatever its filters, sorting and limit. *)
Theorem X22_a_deleted_vehicle_is_gone_for_every_tool
        (env : Env) (p : DeleteVehicle.Params) (s3 : S3Call -> S3Resp)
        (t : Table) (r0 : Row) (i : Z) :
  configured env = true ->
  identifierCount [ofStr (DeleteVehicle.vin p); ofStr (DeleteVehicle.stockNumber p)] = 1%nat ->
  unique_ids t ->
  ids_present t ->
  List.filter (matches (DeleteVehicle.identifierFilter p)) t = [r0] ->
  col r0 "id" = VNum i ->
  i <> 0 ->
  (forall pn n,
      AddNotes.id pn = Some i ->
      identifierCount (AddNotes.candidates pn) = 1%nat ->
      AddNotes.notes pn = Some n ->
      run (table_world quiet s3) (AddNotes.addNotes env pn)
          (final (run (table_world quiet s3) (DeleteVehicle.deleteVehicle env p) t))
      = {| result := AddNotes.NotFound ("ID: " +:+ pretty i);
           final := final (run (table_world quiet s3) (DeleteVehicle.deleteVehicle env p) t);
           trace := [DbEvent (AddNotes.lookup pn) (ok [])] |})
  /\ (forall pv,
         DeleteAiVideo.id pv = Some i ->
         identifierCount (DeleteAiVideo.candidates pv) = 1%nat ->
         run (table_world quiet s3) (DeleteAiVideo.deleteAiVideo env pv)
             (final (run (table_world quiet s3) (DeleteVehicle.deleteVehicle env p) t))
         = {| result := DeleteAiVideo.NotFound ("ID: " +:+ pretty i);
              final := final (run (table_world quiet s3) (DeleteVehicle.deleteVehicle env p) t);
              trace := [DbEvent (DeleteAiVideo.lookup pv) (ok [])] |})
  /\ (forall pu,
         UpdateVehicles.id pu = Some i ->
         size (UpdateVehicles.updateData env pu) <> 1%nat ->
         run (table_world quiet s3) (UpdateVehicles.updateVehicles env pu)
             (final (run (table_world quiet s3) (DeleteVehicle.deleteVehicle env p) t))
         = {| result := UpdateVehicles.NoneFound;
              final := final (run (table_world quiet s3) (DeleteVehicle.deleteVehicle env p) t);
              trace := [DbEvent (UpdateVehicles.lookup [Eq "id" (VNum i)]) (ok [])] |})
  /\ (forall pg sortBy sortOrder limit,
         r0 ∉ listing
               (result (run (table_world quiet s3)
                            (GetVehicles.getVehiclesSorted env pg sortBy sortOrder limit)
                            (final (run (table_world quiet s3)
                                        (DeleteVehicle.deleteVehicle env p) t))))).
Proof.
  intros Hc H1 Hu Hk Hm Hi Hne.
  rewrite (delete_vehicle_run env p s3 t r0 Hc H1 Hu Hk Hm). cbn [final].
  destruct (matched_row p t r0 Hm) as [H0 _].
  pose proof (id_gone t r0 i Hu H0 Hi) as Hgone.
  assert (truthyN (Some i) = true) as Hti by (unfold truthyN; simpl; by destruct i).
  set (t' := List.filter (fun r => negb (bool_decide (r = r0))) t) in *.
  repeat split.
  - intros pn n Hid Hone Hn.
    assert (AddNotes.identifierFilter pn = [Eq "id" (VNum i)]) as Hf.
    { unfold AddNotes.identifierFilter. by rewrite Hid, Hti. }
    assert (AddNotes.identifier pn = "ID: " +:+ pretty i) as <-.
    { unfold AddNotes.identifier. by rewrite Hid, Hti. }
    rewrite (add_notes_fruitless (table_world quiet s3) env t' t' (ok []) Hc
                                 ltac:(by right; right) pn n Hone Hn); [done |].
    rewrite quiet_table. unfold AddNotes.lookup. cbn [table_exec ordered].
    by rewrite Hf, Hgone.
  - intros pv Hid Hone.
    assert (DeleteAiVideo.identifierFilter pv = [Eq "id" (VNum i)]) as Hf.
    { unfold DeleteAiVideo.identifierFilter. by rewrite Hid, Hti. }
    assert (DeleteAiVideo.identifier pv = "ID: " +:+ pretty i) as <-.
    { unfold DeleteAiVideo.identifier. by rewrite Hid, Hti. }
    rewrite (delete_ai_video_fruitless (table_world quiet s3) env t' t' (ok []) Hc
                                       ltac:(by right; right) pv Hone); [done |].
    rewrite quiet_table. unfold DeleteAiVideo.lookup. cbn [table_exec ordered].
    by rewrite Hf, Hgone.
  - intros pu Hid Hs.
    assert (UpdateVehicles.target pu = Some [Eq "id" (VNum i)]) as Ht.
    { unfold UpdateVehicles.target. by rewrite Hid, Hti. }
    by apply update_vehicles_nothing_matches.
  - intros pg sortBy sortOrder limit [Hin _]%listed_matches.
    unfold t' in Hin.
    rewrite list_elem_of_In, filter_In, negb_true_iff, bool_decide_eq_false in Hin.
    by destruct Hin.
Qed.

(** In the showroom: vehicle 1 is deleted by its stock number; notes for id 1
    then find no vehicle. *)
Lemma X22_a_deleted_vehicle_is_gone_for_every_tool_witness :
  AddNotes.message
    (result (run (table_world quiet obliging)
                 (AddNotes.addNotes deployed (notes_request (Some 1) None (Some (Some "sold"))))
                 (final (run (table_world quiet obliging)
                             (DeleteVehicle.deleteVehicle deployed
                                (delete_request None (Some "S-1")))
                             showroom))))
  = "No vehicle found with ID: 1.".
Proof.
  destruct (X22_a_deleted_vehicle_is_gone_for_every_tool
              deployed (delete_request None (Some "S-1")) obliging showroom
              (vehicle 1 "WP0AB2A99EXXXXXXX" "S-1" "Porsche" (VStr "https://cdn/v1.mp4") VNull)
              1)
    as (H & _).
  - reflexivity.
  - reflexivity.
  - unfold unique_ids. apply (bool_decide_unpack _). vm_compute. exact I.
  - unfold ids_present. apply (bool_decide_unpack _). vm_compute. exact I.
  - reflexivity.
  - reflexivity.
  - lia.
  - rewrite (H (notes_request (Some 1) None (Some (Some "sold"))) (Some "sold"));
      reflexivity.
Defined.

(** * The claims on soft deletion, text filters and the cleanup *)

(** ** C9: the video field is cleared whatever the cleanup does *)

(** The run of delete-ai-video that finds its row, on the table. *)
Lemma delete_ai_video_on_table (env : Env) (p : DeleteAiVideo.Params)
      (s3 : S3Call -> S3Resp) (t : Table) (r0 : Row) :
  configured env = true ->
  identifierCount (DeleteAiVideo.candidates p) = 1%nat ->
  unique_ids t ->
  ids_present t ->
  List.filter (matches (IsNull "deleted_at" :: DeleteAiVideo.identifierFilter p)) t = [r0] ->
  truthy (col r0 "ai_video") = true ->
  truthy (col r0 "stock_number") = true ->
  exists r2,
    result (run (table_world quiet s3) (DeleteAiVideo.deleteAiVideo env p) t)
    = DeleteAiVideo.Cleared
        (vehicleInfo r0)
        (project (Cols ["id"; "year"; "make"; "model"; "vin"; "ai_video"])
                 (assign (DeleteAiVideo.updateData env) r0))
        (col r0 "ai_video") r2
    /\ final (run (table_world quiet s3) (DeleteAiVideo.deleteAiVideo env p) t)
       = rewrite_row r0 (DeleteAiVideo.updateData env) <$> t
    /\ (if r2_configured env then
          exists c, s3_Key c = "vehicles/" +:+ show (col r0 "stock_number") +:+ "/ai-video.mp4"
                    /\ cleanup_outcome r2 = cleanup_of_answer (s3 c)
        else cleanup_outcome r2 = Skipped).
Proof.
  intros Hc H1 Hu Hk Hm Hv Hn.
  assert (r0 ∈ t) as H0.
  { apply (elem_of_filter_matches (IsNull "deleted_at" :: DeleteAiVideo.identifierFilter p)).
    rewrite Hm. left. }
  pose proof (ids_present_elem t r0 Hk H0) as Hid.
  set (cs := ["id"; "year"; "make"; "model"; "vin"; "stock_number"; "ai_video"]).
  set (v := project (Cols cs) r0).
  assert (col v "id" = col r0 "id") as Hvid by (apply col_project; left).
  assert (col v "ai_video" = col r0 "ai_video") as Hvv
      by (apply col_project; do 6 right; left).
  assert (col v "stock_number" = col r0 "stock_number") as Hvs
      by (apply col_project; do 5 right; left).
  assert (vehicleInfo v = vehicleInfo r0) as Hinfo.
  { apply vehicleInfo_project; repeat first [by left | right]. }
  assert (on_db (table_world quiet s3) (DeleteAiVideo.lookup p) t = (ok [v], t)) as Hf.
  { rewrite quiet_table. unfold DeleteAiVideo.lookup. cbn [table_exec ordered].
    by rewrite Hm. }
  pose proof (write_one (DeleteAiVideo.updateData env)
                        (Cols ["id"; "year"; "make"; "model"; "vin"; "ai_video"])
                        t r0 Hu H0 Hid) as Hw.
  rewrite <- Hvid in Hw at 1.
  rewrite <- Hvv in Hv. rewrite <- Hvs in Hn.
  destruct (r2_configured env) eqn:Hr.
  - destruct (delete_ai_video_attempted _ env p t t v Hc H1 Hf Hv Hn Hr)
      as (c & sent & s2 & answer & tf & r2 & Hs & Hkey & Hw' & Hrun & Ho).
    cbn [table_world on_s3] in Hs. injection Hs as <- <-. rewrite quiet_table in Hw'.
    unfold DeleteAiVideo.write in Hw'. rewrite Hw in Hw'. injection Hw' as <- <-.
    exists (Some r2). rewrite Hrun. cbn [result final]. unfold concluded.
    cbn [error ok single_row]. rewrite Hinfo, Hvv.
    split; [reflexivity |]. split; [reflexivity |].
    exists c. split; [| done]. rewrite Hkey. unfold DeleteAiVideo.objectKey. by rewrite Hvs.
  - destruct (delete_ai_video_skipped _ env p t t v Hc H1 Hf Hv Hn Hr)
      as (answer & tf & Hw' & Hrun).
    rewrite quiet_table in Hw'.
    unfold DeleteAiVideo.write in Hw'. rewrite Hw in Hw'. injection Hw' as <- <-.
    exists None. rewrite Hrun. cbn [result final]. unfold concluded.
    cbn [error ok single_row]. by rewrite Hinfo, Hvv.
Qed.

(** C9: in delete-ai-video, once the request has passed validation and the
    lookup has answered with one visible row that has an [ai_video] and a
    [stock_number], the last call of the run, in any world, is the update
    that assigns [ai_video: null] and [updated_at] to the row with the [id]
    of the row found, in each of the three cases of the cleanup: not
    attempted for want of R2 settings, attempted and done, attempted and
    refused.  On the table, whatever the bucket answers, the run ends with
    the success message and the table afterwards is the table with that one
    row rewritten, its [ai_video] being [null].  The message returned is
    that of the case at hand, and the messages of two different cases are
    different. *)
Theorem C9_video_field_cleared_whatever_the_cleanup
        {S : Type} (w : World S) (env : Env) (p : DeleteAiVideo.Params)
        (s s1 : S) (vehicle : Row) :
  configured env = true ->
  identifierCount (DeleteAiVideo.candidates p) = 1%nat ->
  on_db w (DeleteAiVideo.lookup p) s = (ok [vehicle], s1) ->
  truthy (col vehicle "ai_video") = true ->
  truthy (col vehicle "stock_number") = true ->
  (exists r2 answer,
      last (trace (run w (DeleteAiVideo.deleteAiVideo env p) s))
      = Some (DbEvent (Update (<["updated_at" := VStr (now env)]> (<["ai_video" := VNull]> ∅))
                              [Eq "id" (col vehicle "id")]
                              (Cols ["id"; "year"; "make"; "model"; "vin"; "ai_video"]) true)
                      answer)
      /\ result (run w (DeleteAiVideo.deleteAiVideo env p) s) = concluded vehicle r2 answer
      /\ if r2_configured env then
           exists c sent,
             trace (run w (DeleteAiVideo.deleteAiVideo env p) s)
             = [DbEvent (DeleteAiVideo.lookup p) (ok [vehicle]);
                S3Event c sent;
                DbEvent (Update (<["updated_at" := VStr (now env)]> (<["ai_video" := VNull]> ∅))
                                [Eq "id" (col vehicle "id")]
                                (Cols ["id"; "year"; "make"; "model"; "vin"; "ai_video"]) true)
                        answer]
             /\ s3_Key c = DeleteAiVideo.objectKey vehicle
             /\ cleanup_outcome r2 = cleanup_of_answer sent
         else
           trace (run w (DeleteAiVideo.deleteAiVideo env p) s)
           = [DbEvent (DeleteAiVideo.lookup p) (ok [vehicle]);
              DbEvent (Update (<["updated_at" := VStr (now env)]> (<["ai_video" := VNull]> ∅))
                              [Eq "id" (col vehicle "id")]
                              (Cols ["id"; "year"; "make"; "model"; "vin"; "ai_video"]) true)
                      answer]
           /\ cleanup_outcome r2 = Skipped)
  /\ (forall (s3 : S3Call -> S3Resp) (t : Table) (r0 : Row),
         unique_ids t ->
         ids_present t ->
         List.filter (matches (IsNull "deleted_at" :: DeleteAiVideo.identifierFilter p)) t
         = [r0] ->
         truthy (col r0 "ai_video") = true ->
         truthy (col r0 "stock_number") = true ->
         exists r2 updatedVehicle,
           result (run (table_world quiet s3) (DeleteAiVideo.deleteAiVideo env p) t)
           = DeleteAiVideo.Cleared (vehicleInfo r0) updatedVehicle (col r0 "ai_video") r2
           /\ col updatedVehicle "ai_video" = VNull
           /\ final (run (table_world quiet s3) (DeleteAiVideo.deleteAiVideo env p) t)
              = (fun r => if bool_decide (r = r0)
                          then <["updated_at" := VStr (now env)]> (<["ai_video" := VNull]> r)
                          else r) <$> t
           /\ (fun r => col r "ai_video")
                <$> final (run (table_world quiet s3) (DeleteAiVideo.deleteAiVideo env p) t)
              = (fun r => if bool_decide (r = r0) then VNull else col r "ai_video") <$> t
           /\ (if r2_configured env then
                 exists c,
                   s3_Key c = "vehicles/" +:+ show (col r0 "stock_number") +:+ "/ai-video.mp4"
                   /\ cleanup_outcome r2 = cleanup_of_answer (s3 c)
               else cleanup_outcome r2 = Skipped))
  /\ (forall info updatedVehicle url r r',
         cleanup_outcome r <> cleanup_outcome r' ->
         DeleteAiVideo.message (DeleteAiVideo.Cleared info updatedVehicle url r)
         <> DeleteAiVideo.message (DeleteAiVideo.Cleared info updatedVehicle url r')).
Proof.
  intros Hc H1 Hf Hv Hs. split; [| split; [| apply cleared_messages_differ]].
  - destruct (r2_configured env) eqn:Hr.
    + destruct (delete_ai_video_attempted w env p s s1 vehicle Hc H1 Hf Hv Hs Hr)
        as (c & sent & s2 & answer & s3 & r2 & _ & Hk & _ & -> & Ho).
      exists (Some r2), answer. simpl. repeat split. by exists c, sent.
    + destruct (delete_ai_video_skipped w env p s s1 vehicle Hc H1 Hf Hv Hs Hr)
        as (answer & s2 & _ & ->).
      exists None, answer. by simpl.
  - intros s3 t r0 Hu Hk Hm Hv0 Hs0.
    destruct (delete_ai_video_on_table env p s3 t r0 Hc H1 Hu Hk Hm Hv0 Hs0)
      as (r2 & -> & -> & Ho).
    exists r2. eexists. split; [reflexivity |].
    destruct (assign_video env r0) as (Ha & _ & _).
    split; [| split; [| split; [| exact Ho]]].
    + rewrite col_project by (do 5 right; left). exact Ha.
    + apply list_fmap_ext. intros i r _. unfold rewrite_row.
      destruct (bool_decide (r = r0)); [| done].
      unfold assign, DeleteAiVideo.updateData.
      by rewrite <- !insert_union_l, (left_id_L ∅ (∪)).
    + rewrite <- list_fmap_compose. apply list_fmap_ext. intros i r _. simpl.
      unfold rewrite_row. destruct (bool_decide (r = r0)) eqn:Hb; [| done].
      apply bool_decide_eq_true in Hb as ->. exact Ha.
Qed.

(** In the showroom, with a bucket that refuses: the video of vehicle 1 is
    cleared all the same, that of vehicle 4 stays. *)
Lemma C9_video_field_cleared_whatever_the_cleanup_witness :
  (fun r => col r "ai_video")
    <$> final (run (table_world quiet refusing)
                   (DeleteAiVideo.deleteAiVideo deployed_with_r2 (video_request (Some 1) None))
                   showroom)
  = [VNull; VNull; VNull; VStr "https://cdn/v4.mp4"].
Proof.
  destruct (C9_video_field_cleared_whatever_the_cleanup
              (table_world quiet refusing) deployed_with_r2 (video_request (Some 1) None)
              showroom showroom
              (project (Cols ["id"; "year"; "make"; "model"; "vin"; "stock_number"; "ai_video"])
                       (vehicle 1 "WP0AB2A99EXXXXXXX" "S-1" "Porsche"
                                (VStr "https://cdn/v1.mp4") VNull)))
    as (_ & H & _).
  - reflexivity.
  - reflexivity.
  - reflexivity.
  - reflexivity.
  - reflexivity.
  - destruct (H refusing showroom
                (vehicle 1 "WP0AB2A99EXXXXXXX" "S-1" "Porsche" (VStr "https://cdn/v1.mp4") VNull))
      as (r2 & uv & _ & _ & _ & -> & _).
    + unfold unique_ids. apply (bool_decide_unpack _). vm_compute. exact I.
    + unfold ids_present. apply (bool_decide_unpack _). vm_compute. exact I.
    + reflexivity.
    + reflexivity.
    + reflexivity.
    + reflexivity.
Defined.

(** ** C3: soft-deleted rows *)

(** What get-vehicles returns is decided by its one query: another writer
    of the table changes nothing to it. *)
Lemma get_vehicles_result_any_sync (env : Env) (p : GetVehicles.Params)
      (sortBy sortOrder : option string) (limit : option Z)
      (sync : Table -> Table) (s3 : S3Call -> S3Resp) (t : Table) :
  result (run (table_world sync s3)
              (GetVehicles.getVehiclesSorted env p sortBy sortOrder limit) t)
  = result (run (table_world quiet s3)
                (GetVehicles.getVehiclesSorted env p sortBy sortOrder limit) t).
Proof.
  unfold GetVehicles.getVehiclesSorted. destruct (negb (configured env)); [done |].
  rewrite !(result_await _ _ GetVehicles.respond). cbn [table_world on_db].
  by destruct (table_exec _ t).
Qed.

Lemma listed_visible (env : Env) (p : GetVehicles.Params)
      (sortBy sortOrder : option string) (limit : option Z)
      (sync : Table -> Table) (s3 : S3Call -> S3Resp) (t : Table) (row : Row) :
  row ∈ listing (result (run (table_world sync s3)
                             (GetVehicles.getVehiclesSorted env p sortBy sortOrder limit) t)) ->
  row ∈ t /\ col row "deleted_at" = VNull.
Proof.
  rewrite get_vehicles_result_any_sync. intros [Hin Hm]%listed_matches.
  split; [done | by apply (visible_of_matches (GetVehicles.filters p))].
Qed.

Section WritesById.

Context {S : Type} (w : World S) (env : Env) (s : S).

Lemma update_vehicles_writes_by_id (p : UpdateVehicles.Params) :
  Forall writes_by_id_alone (trace (run w (UpdateVehicles.updateVehicles env p) s)).
Proof.
  destruct (update_vehicles_trace w env p s)
    as [-> | (fs & found & _ & [-> | (rows & answer & _ & _ & _ & ->)])].
  - constructor.
  - by repeat (constructor; [exact I |]).
  - constructor; [exact I |]. constructor; [| constructor]. right. by eexists.
Qed.

Lemma add_notes_writes_by_id (p : AddNotes.Params) :
  Forall writes_by_id_alone (trace (run w (AddNotes.addNotes env p) s)).
Proof.
  destruct (add_notes_trace w env p s)
    as [-> | (found & [-> | (n & v & answer & _ & _ & _ & ->)])].
  - constructor.
  - by repeat (constructor; [exact I |]).
  - constructor; [exact I |]. constructor; [| constructor]. left. by eexists.
Qed.

Lemma delete_ai_video_writes_by_id (p : DeleteAiVideo.Params) :
  Forall writes_by_id_alone (trace (run w (DeleteAiVideo.deleteAiVideo env p) s)).
Proof.
  destruct (delete_ai_video_trace w env p s)
    as [-> | (found & [-> | (v & answer & _ & _ & [-> | (c & sent & ->)])])].
  - constructor.
  - by repeat (constructor; [exact I |]).
  - constructor; [exact I |]. constructor; [| constructor]. left. by eexists.
  - do 2 (constructor; [exact I |]). constructor; [| constructor]. left. by eexists.
Qed.

Lemma delete_vehicle_first_call (p : DeleteVehicle.Params) :
  trace (run w (DeleteVehicle.deleteVehicle env p) s) = []
  \/ first_call (trace (run w (DeleteVehicle.deleteVehicle env p) s))
     = Some (Select (Cols ["id"; "year"; "make"; "model"; "vin"; "stock_number"])
                    (DeleteVehicle.identifierFilter p) None None).
Proof.
  destruct (delete_vehicle_trace w env p s)
    as [-> | (found & [-> | (v & answer & _ & _ & ->)])]; [by left | by right | by right].
Qed.

End WritesById.

(** The row that another writer soft-deletes between the lookup and the
    update of update-vehicles is written all the same: in the showroom,
    vehicle 2 is a visible Ferrari when the lookup runs, is soft-deleted and
    without a price when the update arrives, and has the price
    afterwards. *)
Lemma C3_row_withdrawn_before_the_write_is_written :
  (fun r => (col r "id", col r "deleted_at", col r "price"))
    <$> (on_db (table_world withdraw obliging)
               (UpdateVehicles.lookup [Ilike "make" "%ferrari%"]) showroom).2
  = [ (VNum 1, VNull, VNull);
      (VNum 2, VStr "2025-06-01T11:59:59.000Z", VNull);
      (VNum 3, VNull, VNull);
      (VNum 4, VStr "2025-01-01T00:00:00.000Z", VNull) ]
  /\ (fun r => (col r "id", col r "deleted_at", col r "price"))
       <$> final (run (table_world withdraw obliging)
                      (UpdateVehicles.updateVehicles deployed update_the_ferraris) showroom)
     = [ (VNum 1, VNull, VNull);
         (VNum 2, VStr "2025-06-01T11:59:59.000Z", VNum 250000);
         (VNum 3, VNull, VNum 250000);
         (VNum 4, VStr "2025-01-01T00:00:00.000Z", VNull) ].
Proof. split; vm_compute; reflexivity. Qed.

(** C3: every lookup that get-vehicles (with or without sorting),
    update-vehicles, add-notes and delete-ai-video issue, in any world,
    carries the predicate [deleted_at IS NULL]; their writes pick rows by
    [id] alone.  So the rows such a lookup answers with are rows that are
    visible when it runs, get-vehicles lists visible rows only, whoever else
    writes the table, and, ids being unique and nobody else writing between
    the lookup and the write, a run of update-vehicles, add-notes or
    delete-ai-video leaves every soft-deleted row as it was.  delete-vehicle
    looks up by VIN or stock number alone: its first call has no predicate
    on [deleted_at], and the row that carries the identifier is found and
    deleted, soft-deleted or not. *)
Theorem C3_soft_deleted_rows (env : Env) :
  (forall (S : Type) (w : World S) (s : S),
      (forall p, Forall hides_soft_deleted (trace (run w (GetVehicles.getVehicles env p) s)))
      /\ (forall p sortBy sortOrder limit,
             Forall hides_soft_deleted
                    (trace (run w (GetVehicles.getVehiclesSorted env p sortBy sortOrder limit) s)))
      /\ (forall p, Forall hides_soft_deleted
                           (trace (run w (UpdateVehicles.updateVehicles env p) s)))
      /\ (forall p, Forall hides_soft_deleted (trace (run w (AddNotes.addNotes env p) s)))
      /\ (forall p, Forall hides_soft_deleted
                           (trace (run w (DeleteAiVideo.deleteAiVideo env p) s)))
      /\ (forall p, Forall writes_by_id_alone
                           (trace (run w (UpdateVehicles.updateVehicles env p) s)))
      /\ (forall p, Forall writes_by_id_alone (trace (run w (AddNotes.addNotes env p) s)))
      /\ (forall p, Forall writes_by_id_alone
                           (trace (run w (DeleteAiVideo.deleteAiVideo env p) s)))
      /\ (forall p,
             trace (run w (DeleteVehicle.deleteVehicle env p) s) = []
             \/ first_call (trace (run w (DeleteVehicle.deleteVehicle env p) s))
                = Some (Select (Cols ["id"; "year"; "make"; "model"; "vin"; "stock_number"])
                               (DeleteVehicle.identifierFilter p) None None)))
  /\ (forall p,
         (IsNull "deleted_at" ∉ DeleteVehicle.identifierFilter p)
         /\ forall (r : Row) (d : Value),
             matches (DeleteVehicle.identifierFilter p) (<["deleted_at" := d]> r)
             = matches (DeleteVehicle.identifierFilter p) r)
  /\ (forall cols fs o lim (t : Table) rows row,
         IsNull "deleted_at" ∈ fs ->
         data (table_exec (Select cols fs o lim) t).1 = Some rows ->
         row ∈ rows ->
         exists r, r ∈ t /\ col r "deleted_at" = VNull /\ row = project cols r)
  /\ (forall sync s3 (t : Table) p sortBy sortOrder limit row,
         (row ∈ listing (result (run (table_world sync s3) (GetVehicles.getVehicles env p) t)) ->
          row ∈ t /\ col row "deleted_at" = VNull)
         /\ (row ∈ listing (result (run (table_world sync s3)
                                        (GetVehicles.getVehiclesSorted
                                           env p sortBy sortOrder limit) t)) ->
             row ∈ t /\ col row "deleted_at" = VNull))
  /\ (forall s3 (t : Table),
         unique_ids t ->
         (forall p, spares_soft_deleted
                      t (final (run (table_world quiet s3)
                                    (UpdateVehicles.updateVehicles env p) t)))
         /\ (forall p, spares_soft_deleted
                         t (final (run (table_world quiet s3) (AddNotes.addNotes env p) t)))
         /\ (forall p, spares_soft_deleted
                         t (final (run (table_world quiet s3)
                                       (DeleteAiVideo.deleteAiVideo env p) t))))
  /\ (forall s3 (t : Table) p r0,
         configured env = true ->
         identifierCount [ofStr (DeleteVehicle.vin p); ofStr (DeleteVehicle.stockNumber p)]
         = 1%nat ->
         unique_ids t ->
         ids_present t ->
         List.filter (matches (DeleteVehicle.identifierFilter p)) t = [r0] ->
         result (run (table_world quiet s3) (DeleteVehicle.deleteVehicle env p) t)
         = DeleteVehicle.Deleted
             (vehicleInfo r0)
             (project (Cols ["id"; "year"; "make"; "model"; "vin"; "stock_number"]) r0)
         /\ final (run (table_world quiet s3) (DeleteVehicle.deleteVehicle env p) t)
            = List.filter (fun r => negb (bool_decide (r = r0))) t).
Proof.
  split; [| split; [| split; [| split; [| split]]]].
  - intros S w s. repeat split; intros.
    + apply get_vehicles_plain_hides.
    + apply get_vehicles_sorted_hides.
    + apply update_vehicles_hides.
    + apply add_notes_hides.
    + apply delete_ai_video_hides.
    + apply update_vehicles_writes_by_id.
    + apply add_notes_writes_by_id.
    + apply delete_ai_video_writes_by_id.
    + apply delete_vehicle_first_call.
  - intros p. apply (delete_vehicle_sees_through p).
  - intros. by eapply select_visible.
  - intros sync s3 t p sortBy sortOrder limit row. split.
    + rewrite get_vehicles_unsorted. apply listed_visible.
    + apply listed_visible.
  - intros s3 t Hu. repeat split; intros p.
    + by apply update_vehicles_spares.
    + by apply add_notes_spares.
    + by apply delete_ai_video_spares.
  - intros s3 t p r0 Hc H1 Hu Hk Hm.
    by rewrite (delete_vehicle_run env p s3 t r0 Hc H1 Hu Hk Hm).
Qed.

(** In the showroom vehicle 4 is soft-deleted: delete-vehicle by its stock
    number finds it and deletes it. *)
Lemma C3_soft_deleted_rows_witness :
  soft_deleted (vehicle 4 "ZFF00000000000004" "S-4" "ferrari" (VStr "https://cdn/v4.mp4")
                        (VStr "2025-01-01T00:00:00.000Z"))
  /\ (fun r => col r "id")
       <$> final (run (table_world quiet obliging)
                      (DeleteVehicle.deleteVehicle deployed (delete_request None (Some "S-4")))
                      showroom)
     = [VNum 1; VNum 2; VNum 3].
Proof.
  split; [discriminate |].
  pose proof (C3_soft_deleted_rows deployed) as (_ & _ & _ & _ & _ & H).
  destruct (H obliging showroom (delete_request None (Some "S-4"))
              (vehicle 4 "ZFF00000000000004" "S-4" "ferrari" (VStr "https://cdn/v4.mp4")
                       (VStr "2025-01-01T00:00:00.000Z")))
    as [_ ->].
  - reflexivity.
  - reflexivity.
  - unfold unique_ids. apply (bool_decide_unpack _). vm_compute. exact I.
  - unfold ids_present. apply (bool_decide_unpack _). vm_compute. exact I.
  - reflexivity.
  - vm_compute. reflexivity.
Defined.

(** ** C7: text filters *)

(** A supplied text parameter as the predicate it puts on the query. *)
Lemma text_filter_holds (p : GetVehicles.Params) (c v : string) (row : Row) :
  (c, Some v) ∈ text_filters p -> v <> "" ->
  matches (IsNull "deleted_at" :: GetVehicles.filters p) row = true ->
  exists s, col row c = VStr s /\ ilike ("%" +:+ v +:+ "%") s = true.
Proof.
  intros Hin Hv Hm. pose proof (text_filter_issued p c v Hin Hv) as Hf.
  unfold matches in Hm. rewrite forallb_forall in Hm.
  assert (holds (Ilike c ("%" +:+ v +:+ "%")) row = true) as Hh.
  { apply Hm. right. by apply list_elem_of_In. }
  simpl in Hh. destruct (col row c) as [| n | s]; try discriminate. by exists s.
Qed.

(** Without a limit the sorted version lists the rows the plain one
    lists. *)
Lemma get_vehicles_sorted_lists (env : Env) (p : GetVehicles.Params)
      (sortBy sortOrder : option string) (s3 : S3Call -> S3Resp) (t : Table) (row : Row) :
  configured env = true ->
  row ∈ listing (result (run (table_world quiet s3)
                             (GetVehicles.getVehiclesSorted env p sortBy sortOrder None) t))
  <-> row ∈ t /\ matches (IsNull "deleted_at" :: GetVehicles.filters p) row = true.
Proof.
  intros Hc. rewrite (get_vehicles_sorted_listing env p sortBy sortOrder None s3 t Hc).
  cbn [GetVehicles.limiting truthyN ofNum from_option truthy].
  rewrite <- elem_of_filter_matches.
  destruct (GetVehicles.ordering sortBy sortOrder) as [[c asc] |]; cbn [ordered]; [| done].
  by rewrite merge_sort_Permutation.
Qed.

(** A value with a pattern character is not matched by containment: in the
    showroom [make = "f_rrari"] lists the two visible vehicles whose make is
    "Ferrari", a text in which "f_rrari" does not occur. *)
Lemma C7_pattern_characters_are_wildcards :
  (fun r => (col r "id", col r "make"))
    <$> listing (result (run (table_world quiet obliging)
                             (GetVehicles.getVehicles deployed (find_by_make "f_rrari"))
                             showroom))
  = [(VNum 2, VStr "Ferrari"); (VNum 3, VStr "Ferrari")]
  /\ contains_ci "f_rrari" "Ferrari" = false
  /\ ~ (exists y1 y2, fold_case "Ferrari" = (y1 ++ fold_case "f_rrari" ++ y2)%list).
Proof.
  split; [vm_compute; reflexivity |]. split; [reflexivity |].
  intros H%occurs_in_spec. discriminate H.
Qed.

(** C7: each of the eleven descriptive text parameters of get-vehicles, when
    supplied and not empty, puts on the query the predicate [ILIKE] with the
    value wrapped in [%], unescaped, in both versions of the handler, and
    that query is the one call either version makes.  On a table and for a
    request of ASCII text: a row either version lists holds in that column a
    text the pattern matches; without a limit either version lists exactly
    the visible rows that satisfy every predicate of the query; and for a
    value without pattern characters the predicate holds of a row exactly
    when the value occurs in the text of that column, letter case aside.  It
    is not equality: [make = "ferrari"] matches the stored make
    "Ferrari". *)
Theorem C7_text_filters_match_by_containment
        (env : Env) (s3 : S3Call -> S3Resp) (t : Table) (p : GetVehicles.Params)
        (c v : string) :
  configured env = true ->
  (c, Some v) ∈ text_filters p ->
  v <> "" ->
  Ilike c ("%" +:+ v +:+ "%") ∈ GetVehicles.filters p
  /\ (forall (S : Type) (w : World S) (s : S) sortBy sortOrder limit,
         (exists r, trace (run w (GetVehicles.getVehicles env p) s)
                    = [DbEvent (Select Star (IsNull "deleted_at" :: GetVehicles.filters p)
                                       None None) r])
         /\ (exists r, trace (run w (GetVehicles.getVehiclesSorted env p sortBy sortOrder limit) s)
                       = [DbEvent (Select Star (IsNull "deleted_at" :: GetVehicles.filters p)
                                          (GetVehicles.ordering sortBy sortOrder)
                                          (GetVehicles.limiting limit)) r]))
  /\ (ascii_request p ->
      ascii_table t ->
      (forall sortBy sortOrder limit row,
          (row ∈ listing (result (run (table_world quiet s3) (GetVehicles.getVehicles env p) t)) ->
           exists s, col row c = VStr s /\ ilike ("%" +:+ v +:+ "%") s = true)
          /\ (row ∈ listing (result (run (table_world quiet s3)
                                         (GetVehicles.getVehiclesSorted
                                            env p sortBy sortOrder limit) t)) ->
              exists s, col row c = VStr s /\ ilike ("%" +:+ v +:+ "%") s = true))
      /\ (forall sortBy sortOrder row,
             (row ∈ listing (result (run (table_world quiet s3)
                                         (GetVehicles.getVehicles env p) t))
              <-> row ∈ t /\ matches (IsNull "deleted_at" :: GetVehicles.filters p) row = true)
             /\ (row ∈ listing (result (run (table_world quiet s3)
                                            (GetVehicles.getVehiclesSorted
                                               env p sortBy sortOrder None) t))
                 <-> row ∈ t
                     /\ matches (IsNull "deleted_at" :: GetVehicles.filters p) row = true))
      /\ (literal v = true ->
          forall (row : Row) (s : string),
            row ∈ t ->
            col row c = VStr s ->
            holds (Ilike c ("%" +:+ v +:+ "%")) row = contains_ci v s
            /\ (contains_ci v s = true
                <-> exists y1 y2, fold_case s = (y1 ++ fold_case v ++ y2)%list)))
  /\ ilike "%ferrari%" "Ferrari" = true.
Proof.
  intros Hc Hin Hv. pose proof (text_filter_issued p c v Hin Hv) as Hf.
  split; [done |]. split; [| split; [| reflexivity]].
  - intros S w s sortBy sortOrder limit.
    unfold GetVehicles.getVehicles, GetVehicles.getVehiclesSorted. rewrite Hc. cbn [negb].
    split; apply get_vehicles_trace.
  - intros _ _. split; [| split].
    + intros sortBy sortOrder limit row. split.
      * rewrite get_vehicles_unsorted. intros [_ Hm]%listed_matches.
        by apply (text_filter_holds p).
      * intros [_ Hm]%listed_matches. by apply (text_filter_holds p).
    + intros sortBy sortOrder row. split.
      * rewrite (get_vehicles_listing env p s3 t Hc). apply elem_of_filter_matches.
      * by apply get_vehicles_sorted_lists.
    + intros Hl row s _ Hs. split.
      * cbn [holds]. rewrite Hs. by apply ilike_wrapped.
      * apply occurs_in_spec.
Qed.

(** On the showroom, [make = "ferrari"] lists the two visible vehicles whose
    make is stored as "Ferrari", in the plain version and, by make, in the
    sorted one. *)
Lemma C7_text_filters_match_by_containment_witness :
  (forall row,
      row ∈ listing (result (run (table_world quiet obliging)
                                 (GetVehicles.getVehiclesSorted
                                    deployed find_ferraris (Some "make") None None)
                                 showroom))
      <-> row ∈ showroom
          /\ matches (IsNull "deleted_at" :: GetVehicles.filters find_ferraris) row = true)
  /\ holds (Ilike "make" "%ferrari%")
           (vehicle 2 "ZFF00000000000002" "S-2" "Ferrari" VNull VNull)
     = contains_ci "ferrari" "Ferrari".
Proof.
  destruct (C7_text_filters_match_by_containment
              deployed obliging showroom find_ferraris "make" "ferrari")
    as (_ & _ & H & _).
  - reflexivity.
  - left.
  - discriminate.
  - destruct H as (_ & Hl & Hk).
    + unfold ascii_request. apply (bool_decide_unpack _). vm_compute. exact I.
    + unfold ascii_table. apply (bool_decide_unpack _). vm_compute. exact I.
    + split.
      * intros row. apply (Hl (Some "make") None row).
      * destruct (Hk eq_refl
                     (vehicle 2 "ZFF00000000000002" "S-2" "Ferrari" VNull VNull) "Ferrari")
          as [H _].
        -- right. left.
        -- reflexivity.
        -- exact H.
Defined.
